(** * Cross-country solar dashboard (stream.py)

    A shallow embedding of [stream.py]: the loader [load_data], the three
    methods of [CrossCountryAnalyzer], [generate_country_insights] and
    [main] with its dispatch on the selected page.  The figure of the box
    plots is modelled as the list of its traces; the caching decorator of
    [load_data] is left out.

    Modelling conventions.
    - A float64 cell is a [value]: [NaN] for a missing cell, [Num q] for a
      number, [q] being the rational that the float is.  Comparisons,
      absolute value, minimum and maximum of floats are exact and are
      computed on these rationals.  The operations that round (sum,
      difference, product, quotient, square root, and the summation
      routines of numpy and of [groupby]) are the fields of a record
      [Float64]; every general statement holds for all values of that
      record, so for float64 arithmetic whatever it rounds to.  The
      examples are computed in exact arithmetic on frames where float64
      does not round, and with the primitive floats where it does.
      Infinite cells and overflow are left out, and so is the optional
      bottleneck package, which computes some reductions on its own.
    - A parsed timestamp carries the reading of the wall clock and the UTC
      offset, if any.  A Timestamp column whose cells do not all have the
      same offset is what pandas holds as an [object] column.
    - [pd.read_csv], [pd.to_datetime] on the text of a file, the random
      draw of [DataFrame.sample] and [px.scatter] are the fields of a
      record [Env].
    - The pandas and numpy calls of the script are given their meaning in
      pandas 1.x / 2.x, the versions on which line 125 of the script
      ([argsort()[0]] on a label-indexed Series, a positional access) runs
      at all: reductions skip missing values, [groupby] sorts its keys and
      drops missing keys, [pivot] sorts both axes, [Series.argsort] writes
      -1 at the positions of missing values.  The texts of the exceptions
      are those of pandas 2.x and of numpy.
    - A Python exception is a value of [exn]; code that may raise returns a
      [result].  A method that receives a frame object runs in the monad
      [M], whose state is that object, so that an assignment to a column of
      the argument is visible to the caller. *)

From Stdlib Require Import String Ascii List ZArith QArith Qabs Lia Bool.
From Stdlib Require Import DecimalString OrderedTypeEx Permutation Sorted.
From Stdlib Require PrimFloat FloatOps SpecFloat Uint63.
Import ListNotations.

Set Implicit Arguments.

(** ** Exceptions and results *)

Inductive exn : Type :=
| Exception (kind : string) (msg : string).

Definition str_exn (e : exn) : string :=
  match e with Exception _ msg => msg end.

Inductive result (A : Type) : Type :=
| Ok (a : A)
| Raise (e : exn).

Arguments Ok {A} a.
Arguments Raise {A} e.

Definition KeyError (k : string) : exn := Exception "KeyError" k.
Definition IndexError (msg : string) : exn := Exception "IndexError" msg.
Definition ValueError (msg : string) : exn := Exception "ValueError" msg.
Definition AttributeError (msg : string) : exn := Exception "AttributeError" msg.

Definition is_ok {A} (r : result A) : bool :=
  match r with Ok _ => true | Raise _ => false end.

(** ** Float cells *)

Inductive value : Type :=
| NaN
| Num (q : Q).

Definition isna (v : value) : bool :=
  match v with NaN => true | Num _ => false end.

(** The float64 operations that round their result.  [np_sum] is the sum
    numpy makes of an array, [group_sum] the compensated sum behind
    [groupby(...).mean()].  The two laws hold of float64: the sum of a
    one-element array is the element, and [x / 1.0] is [x]. *)
Record Float64 : Type := mkFloat64 {
  fl_add : Q -> Q -> Q;
  fl_sub : Q -> Q -> Q;
  fl_mul : Q -> Q -> Q;
  fl_div : Q -> Q -> Q;
  fl_sqrt : Q -> Q;
  np_sum : list Q -> Q;
  group_sum : list Q -> Q;
  np_sum_one : forall x, (np_sum [x] == x)%Q;
  fl_div_one : forall x, (fl_div x 1 == x)%Q
}.

Definition vsub (fp : Float64) (a b : value) : value :=
  match a, b with
  | Num x, Num y => Num (fl_sub fp x y)
  | _, _ => NaN
  end.

Definition vabs (a : value) : value :=
  match a with Num x => Num (Qabs x) | NaN => NaN end.

Fixpoint dropna (s : list value) : list Q :=
  match s with
  | [] => []
  | NaN :: t => dropna t
  | Num q :: t => q :: dropna t
  end.

(** ** Text *)

Local Open Scope string_scope.

Definition str_nat (n : nat) : string :=
  NilZero.string_of_uint (Nat.to_uint n).

Definition str_Z (z : Z) : string :=
  NilZero.string_of_int (Z.to_int z).

(** [format(x, '.2f')] on the exact value of a float: round half to even at
    the second decimal, keep the sign of a negative input. *)
Definition round_half_even (a d : Z) : Z :=
  let fl := (a / d)%Z in
  let r := (a mod d)%Z in
  if (2 * r <? d)%Z then fl
  else if (d <? 2 * r)%Z then (fl + 1)%Z
  else if Z.even fl then fl else (fl + 1)%Z.

Definition pad2 (z : Z) : string :=
  if (z <? 10)%Z then "0" ++ str_Z z else str_Z z.

Definition format_2f_Q (q : Q) : string :=
  let n := Qnum q in
  let d := Zpos (Qden q) in
  let c := round_half_even (Z.abs n * 100) d in
  (if (n <? 0)%Z then "-" else "")
    ++ str_Z (c / 100) ++ "." ++ pad2 (c mod 100).

Definition format_2f (v : value) : string :=
  match v with
  | NaN => "nan"
  | Num q => format_2f_Q q
  end.

(** An f-string is a sequence of literal pieces and replacement fields. *)
Inductive piece : Type :=
| Lit (s : string)          (* literal text of the template *)
| Fld2f (v : value)         (* {v:.2f} *)
| FldStr (s : string).      (* {s} *)

Definition render_piece (p : piece) : string :=
  match p with
  | Lit s => s
  | Fld2f v => format_2f v
  | FldStr s => s
  end.

Definition render (ps : list piece) : string :=
  String.concat "" (map render_piece ps).

Definition nl : string := String (ascii_of_nat 10) EmptyString.
Definition dquote : string := String (ascii_of_nat 34) EmptyString.

(** ** Sorted, duplicate-free key lists

    [groupby] and [pivot] present their keys in ascending order, each key
    once. *)

Section SortedKeys.
Variable K : Type.
Variable cmp : K -> K -> comparison.

Definition key_eqb (a b : K) : bool :=
  match cmp a b with Eq => true | _ => false end.

Fixpoint insert_key (k : K) (l : list K) : list K :=
  match l with
  | [] => [k]
  | x :: t =>
      match cmp k x with
      | Lt => k :: l
      | Eq => l
      | Gt => x :: insert_key k t
      end
  end.

Definition sorted_keys (l : list K) : list K :=
  fold_right insert_key [] l.

(** Keys in order of first appearance ([Series.unique]). *)
Fixpoint unique_from (seen : list K) (l : list K) : list K :=
  match l with
  | [] => []
  | x :: t =>
      if existsb (key_eqb x) seen then unique_from seen t
      else x :: unique_from (x :: seen) t
  end.

Definition unique (l : list K) : list K := unique_from [] l.

Fixpoint ascending (l : list K) : Prop :=
  match l with
  | [] => True
  | x :: t => (forall y, In y t -> cmp x y = Lt) /\ ascending t
  end.

(** The cells of a column that are not missing. *)
Fixpoint present (l : list (option K)) : list K :=
  match l with
  | [] => []
  | Some k :: t => k :: present t
  | None :: t => present t
  end.
End SortedKeys.

(** ** Timestamps *)

(** A parsed timestamp: the reading of the wall clock, in seconds since
    1970-01-01 00:00 on that clock, and the UTC offset in seconds of a
    tz-aware timestamp ([None] for a tz-naive one). *)
Record datetime : Type := mkDatetime {
  wall : Z;
  utcoffset : option Z
}.

(** A cell of a Timestamp column; [None] is pandas' NaT. *)
Definition timestamp : Type := option datetime.

(** The [hour] field of a timestamp: the hour the wall clock shows. *)
Definition hour_of (t : timestamp) : option Z :=
  match t with
  | Some d => Some ((wall d / 3600) mod 24)%Z
  | None => None
  end.

Definition tz_eqb (a b : option Z) : bool :=
  match a, b with
  | None, None => true
  | Some x, Some y => Z.eqb x y
  | _, _ => false
  end.

(** A column is a datetime64 column (tz-naive, or of one time zone) when
    its timestamps all have the same offset; NaT fits every such column. *)
Definition one_time_zone (s : list timestamp) : bool :=
  match present s with
  | [] => true
  | d :: t => forallb (fun d' => tz_eqb (utcoffset d') (utcoffset d)) t
  end.

(** [s.dt.hour]: the accessor exists on a datetime64 column only. *)
Definition dt_hour (s : list timestamp) : result (list (option Z)) :=
  if one_time_zone s then Ok (map hour_of s)
  else Raise (AttributeError "Can only use .dt accessor with datetimelike values").

Definition at_position (i : nat) : string := ", at position " ++ str_nat i.

Definition cannot_convert : string :=
  "Tz-aware datetime.datetime cannot be converted to datetime64 unless utc=True".

Definition cannot_mix : string := "Cannot mix tz-aware with tz-naive values".

(** [pd.to_datetime] on a column that holds timestamps already: the cells
    are gone through in order, and a cell that does not agree with the
    cells before it on the time zone stops the conversion. *)
Fixpoint check_datetimes (found_naive : bool) (tz : option Z) (i : nat)
  (s : list timestamp) : option exn :=
  match s with
  | [] => None
  | None :: t => check_datetimes found_naive tz (S i) t
  | Some d :: t =>
      match utcoffset d with
      | Some o =>
          if found_naive
          then Some (ValueError (cannot_convert ++ at_position i))
          else
            match tz with
            | Some o' =>
                if Z.eqb o' o then check_datetimes false tz (S i) t
                else Some (ValueError (cannot_convert ++ at_position i))
            | None => check_datetimes false (Some o) (S i) t
            end
      | None =>
          match tz with
          | Some _ => Some (ValueError (cannot_mix ++ at_position i))
          | None => check_datetimes true None (S i) t
          end
      end
  end.

Definition to_datetime_parsed (s : list timestamp) : result (list timestamp) :=
  match check_datetimes false None 0 s with
  | Some e => Raise e
  | None => Ok s
  end.

(** ** Frames *)

Record Row : Type := mkRow {
  Timestamp : timestamp;
  Country : string;
  GHI : value;
  DNI : value;
  DHI : value;
  Tamb : value
}.

(** The numeric columns, addressed by name as [df['GHI']] does. *)
Inductive column : Type := cGHI | cDNI | cDHI | cTamb.

Definition column_name (c : column) : string :=
  match c with
  | cGHI => "GHI" | cDNI => "DNI" | cDHI => "DHI" | cTamb => "Tamb"
  end.

Definition cell (c : column) (r : Row) : value :=
  match c with
  | cGHI => GHI r | cDNI => DNI r | cDHI => DHI r | cTamb => Tamb r
  end.

(** A frame: its records and, once some code has assigned [df['Hour']],
    the extra column, one cell per record ([None]: hour of a NaT). *)
Record DataFrame : Type := mkDataFrame {
  rows : list Row;
  Hour : option (list (option Z))
}.

Definition empty (df : DataFrame) : bool :=
  match rows df with [] => true | _ => false end.

Definition len (df : DataFrame) : nat := length (rows df).

(** [df[c]], [df['Country']], [df['Timestamp']] as Series of cells. *)
Definition col (c : column) (df : DataFrame) : list value :=
  map (cell c) (rows df).

Definition col_Country (df : DataFrame) : list string :=
  map Country (rows df).

Definition col_Timestamp (df : DataFrame) : list timestamp :=
  map Timestamp (rows df).

(** [df[df['Country'] == country]]: boolean indexing keeps the selected
    records and the matching cells of every column. *)
Fixpoint select {A} (mask : list bool) (l : list A) : list A :=
  match mask, l with
  | b :: m, x :: t => if b then x :: select m t else select m t
  | _, _ => []
  end.

Definition where_country (df : DataFrame) (country : string) : DataFrame :=
  let mask := map (fun c => String.eqb c country) (col_Country df) in
  {| rows := select mask (rows df);
     Hour := option_map (select mask) (Hour df) |}.

(** [df['Hour'] = s] *)
Definition set_Hour (s : list (option Z)) (df : DataFrame) : DataFrame :=
  {| rows := rows df; Hour := Some s |}.

(** [df['Timestamp'] = s], for a Series [s] with a cell per record. *)
Definition with_Timestamp (r : Row) (t : timestamp) : Row :=
  {| Timestamp := t; Country := Country r;
     GHI := GHI r; DNI := DNI r; DHI := DHI r; Tamb := Tamb r |}.

Definition set_Timestamp (s : list timestamp) (df : DataFrame) : DataFrame :=
  {| rows := map (fun p => with_Timestamp (fst p) (snd p)) (combine (rows df) s);
     Hour := Hour df |}.

(** [df.copy()]: a new object with the same content. *)
Definition copy (df : DataFrame) : DataFrame := df.

(** [pd.concat(dfs, ignore_index=True)]: records in order; a column that
    only some frames have is padded with missing cells in the others. *)
Definition concat (dfs : list DataFrame) : DataFrame :=
  {| rows := flat_map rows dfs;
     Hour :=
       if existsb (fun df => match Hour df with Some _ => true | None => false end) dfs
       then Some (flat_map
                    (fun df => match Hour df with
                               | Some h => h
                               | None => repeat None (len df)
                               end) dfs)
       else None |}.

(** ** Reductions of a Series (missing cells skipped) *)

Definition Qlen (l : list Q) : Q := inject_Z (Z.of_nat (length l)).

Fixpoint Qinsert (x : Q) (l : list Q) : list Q :=
  match l with
  | [] => [x]
  | y :: t => if Qle_bool x y then x :: l else y :: Qinsert x t
  end.

Definition Qsort (l : list Q) : list Q := fold_right Qinsert [] l.

Definition Qmin_list (x : Q) (l : list Q) : Q :=
  fold_left (fun m y => if Qle_bool m y then m else y) l x.

Definition Qmax_list (x : Q) (l : list Q) : Q :=
  fold_left (fun m y => if Qle_bool y m then m else y) l x.

Section Reductions.
Variable fp : Float64.

(** The statistics of a list of numbers, as the reductions compute them
    once the missing cells are gone. *)
Definition mean_of (xs : list Q) : value :=
  match xs with
  | [] => NaN
  | _ => Num (fl_div fp (np_sum fp xs) (Qlen xs))
  end.

(** The mean of a group of [groupby]: the compensated sum over the
    count. *)
Definition group_mean_of (xs : list Q) : value :=
  match xs with
  | [] => NaN
  | _ => Num (fl_div fp (group_sum fp xs) (Qlen xs))
  end.

Definition median_of (xs : list Q) : value :=
  let s := Qsort xs in
  let n := length s in
  match n with
  | O => NaN
  | _ =>
      if Nat.odd n then Num (nth (n / 2) s 0)
      else Num (fl_div fp (fl_add fp (nth (n / 2 - 1) s 0) (nth (n / 2) s 0)) 2)
  end.

(** Sample standard deviation ([ddof=1]): undefined below two values. *)
Definition std_of (xs : list Q) : value :=
  match xs with
  | [] | [_] => NaN
  | _ =>
      let avg := fl_div fp (np_sum fp xs) (Qlen xs) in
      let sqr := map (fun x => fl_mul fp (fl_sub fp x avg) (fl_sub fp x avg)) xs in
      Num (fl_sqrt fp (fl_div fp (np_sum fp sqr) (Qlen xs - 1)))
  end.

Definition min_of (xs : list Q) : value :=
  match xs with
  | [] => NaN
  | x :: t => Num (Qmin_list x t)
  end.

Definition max_of (xs : list Q) : value :=
  match xs with
  | [] => NaN
  | x :: t => Num (Qmax_list x t)
  end.

(** [s.mean()], [s.median()], [s.std()], [s.min()], [s.max()] with the
    default [skipna=True]. *)
Definition Series_mean (s : list value) : value := mean_of (dropna s).
Definition Series_median (s : list value) : value := median_of (dropna s).
Definition Series_std (s : list value) : value := std_of (dropna s).
Definition Series_min (s : list value) : value := min_of (dropna s).
Definition Series_max (s : list value) : value := max_of (dropna s).
End Reductions.

(** [Series.get(key, default)] on a Series given as its (label, cell)
    pairs. *)
Fixpoint Series_get {A} (s : list (string * A)) (key : string) (default : A) : A :=
  match s with
  | [] => default
  | (k, v) :: t => if String.eqb k key then v else Series_get t key default
  end.

(** [df.groupby(key)[c].mean()]: one entry per distinct non-missing key, in
    ascending key order, holding the mean of the group's cells. *)
Section GroupBy.
Variable fp : Float64.
Variable K : Type.
Variable cmp : K -> K -> comparison.

Definition in_group (k : K) (o : option K) : bool :=
  match o with
  | Some k' => key_eqb cmp k' k
  | None => false
  end.

Definition group_cells (keys : list (option K)) (cells : list value) (k : K)
  : list value :=
  select (map (in_group k) keys) cells.

Definition groupby_mean (keys : list (option K)) (cells : list value)
  : list (K * value) :=
  map (fun k => (k, group_mean_of fp (dropna (group_cells keys cells k))))
      (sorted_keys cmp (present keys)).
End GroupBy.

(** ** Positional access and [argsort] *)

(** [l[i]] with a machine integer: a negative index counts from the end. *)
Definition out_of_bounds (i : Z) (size : nat) : exn :=
  IndexError ("index " ++ str_Z i ++ " is out of bounds for axis 0 with size "
                ++ str_nat size)%string.

Definition getitem {A} (l : list A) (i : Z) : result A :=
  let n := Z.of_nat (length l) in
  let j := if (i <? 0)%Z then (i + n)%Z else i in
  if ((0 <=? j) && (j <? n))%Z%bool
  then match nth_error l (Z.to_nat j) with
       | Some x => Ok x
       | None => Raise (out_of_bounds i (length l))
       end
  else Raise (out_of_bounds i (length l)).

(** [np.argsort]: the positions of the values in non-decreasing order of
    value, equal values in order of position. *)
Fixpoint arg_insert (p : nat * Q) (l : list (nat * Q)) : list (nat * Q) :=
  match l with
  | [] => [p]
  | y :: t => if Qle_bool (snd p) (snd y) then p :: l else y :: arg_insert p t
  end.

Definition argsort (xs : list Q) : list nat :=
  map fst (fold_right arg_insert [] (combine (seq 0 (length xs)) xs)).

(** [result[notmask] = ...]: the entries of [idx] go, in order, to the
    positions that hold a number; the others get -1. *)
Fixpoint scatter (s : list value) (idx : list Z) : list Z :=
  match s with
  | [] => []
  | NaN :: t => (-1)%Z :: scatter t idx
  | Num _ :: t =>
      match idx with
      | i :: idx' => i :: scatter t idx'
      | [] => []
      end
  end.

(** [Series.argsort]: with a missing value present, the positions are those
    within the Series of non-missing values. *)
Definition Series_argsort (s : list value) : list Z :=
  let sorted := map Z.of_nat (argsort (dropna s)) in
  if existsb isna s then scatter s sorted else sorted.

(** [Series.idxmax]: the label of the first largest cell, missing cells
    skipped; the missing label if every cell is missing; an error on an
    empty Series. *)
Fixpoint first_max {K} (best : option (K * Q)) (s : list (K * value))
  : option (K * Q) :=
  match s with
  | [] => best
  | (k, NaN) :: t => first_max best t
  | (k, Num q) :: t =>
      match best with
      | None => first_max (Some (k, q)) t
      | Some (_, b) =>
          if Qle_bool q b then first_max best t
          else first_max (Some (k, q)) t
      end
  end.

Definition idxmax {K} (s : list (K * value)) : result (option K) :=
  match s with
  | [] => Raise (ValueError "attempt to get argmax of an empty sequence")
  | _ => Ok (option_map fst (first_max None s))
  end.

(** ** The monad of a method working on one frame object *)

Definition M (A : Type) : Type := DataFrame -> result A * DataFrame.

Definition ret {A} (a : A) : M A := fun df => (Ok a, df).

Definition bind {A B} (m : M A) (k : A -> M B) : M B :=
  fun df =>
    match m df with
    | (Ok a, df') => k a df'
    | (Raise e, df') => (Raise e, df')
    end.

Notation "x <- m ;; k" := (bind m (fun x => k))
  (at level 61, m at next level, right associativity).
Notation "m ;;; k" := (bind m (fun _ => k))
  (at level 61, right associativity).

(** Evaluate an expression that reads the frame. *)
Definition read {A} (f : DataFrame -> A) : M A := fun df => (Ok (f df), df).

(** Evaluate an expression that reads the frame and may raise. *)
Definition try_read {A} (f : DataFrame -> result A) : M A := fun df => (f df, df).

(** Assign to the frame. *)
Definition assign (f : DataFrame -> DataFrame) : M unit :=
  fun df => (Ok tt, f df).

(** An expression that may raise. *)
Definition lift {A} (r : result A) : M A := fun df => (r, df).

(** A computation is read-only when it hands the frame back as it got it,
    whether it returns or raises. *)
Definition read_only {A} (m : M A) : Prop :=
  forall df, snd (m df) = df.

(** ** CrossCountryAnalyzer *)

Definition metrics : list column := [cGHI; cDNI; cDHI].

Inductive stat : Type := Mean | Median | StdDev | Min | Max.

Definition stat_name (s : stat) : string :=
  match s with
  | Mean => "Mean" | Median => "Median" | StdDev => "Std Dev"
  | Min => "Min" | Max => "Max"
  end.

(** One dictionary of [summary_data]. *)
Record SummaryRow : Type := mkSummaryRow {
  sr_Country : string;
  sr_Metric : string;
  sr_Mean : value;
  sr_Median : value;
  sr_StdDev : value;
  sr_Min : value;
  sr_Max : value
}.

Definition sr_stat (s : stat) (r : SummaryRow) : value :=
  match s with
  | Mean => sr_Mean r | Median => sr_Median r | StdDev => sr_StdDev r
  | Min => sr_Min r | Max => sr_Max r
  end.

(** The pivoted table: row labels, (statistic, metric) column labels, and
    the cells row by row. *)
Record PivotTable : Type := mkPivotTable {
  pt_index : list string;
  pt_columns : list (string * string);
  pt_data : list (list value)
}.

Definition sr_at (c m : string) (r : SummaryRow) : bool :=
  String.eqb (sr_Country r) c && String.eqb (sr_Metric r) m.

Fixpoint has_duplicate_entries (data : list SummaryRow) : bool :=
  match data with
  | [] => false
  | r :: t =>
      existsb (sr_at (sr_Country r) (sr_Metric r)) t || has_duplicate_entries t
  end.

Definition pivot_cell (data : list SummaryRow) (c m : string) (s : stat) : value :=
  match find (sr_at c m) data with
  | Some r => sr_stat s r
  | None => NaN
  end.

(** [summary_df.pivot(index='Country', columns='Metric', values=vals)].
    A frame built from an empty list has no column to pivot on; two rows
    with the same (Country, Metric) cannot be reshaped. *)
Definition pivot (data : list SummaryRow) (vals : list stat) : result PivotTable :=
  match data with
  | [] => Raise (KeyError "Country")
  | _ =>
      if has_duplicate_entries data
      then Raise (ValueError "Index contains duplicate entries, cannot reshape")
      else
        let index := sorted_keys String.compare (map sr_Country data) in
        let ms := sorted_keys String.compare (map sr_Metric data) in
        Ok {| pt_index := index;
              pt_columns :=
                flat_map (fun s => map (fun m => (stat_name s, m)) ms) vals;
              pt_data :=
                map (fun c =>
                       flat_map (fun s => map (fun m => pivot_cell data c m s) ms) vals)
                    index |}
  end.

(** The cell of a pivoted table at a row label and a column label. *)
Fixpoint position {A} (eqb : A -> A -> bool) (x : A) (l : list A) : option nat :=
  match l with
  | [] => None
  | y :: t => if eqb y x then Some O else option_map S (position eqb x t)
  end.

Definition label_eqb (a b : string * string) : bool :=
  String.eqb (fst a) (fst b) && String.eqb (snd a) (snd b).

Definition pt_loc (t : PivotTable) (c : string) (sm : string * string) : option value :=
  match position String.eqb c (pt_index t), position label_eqb sm (pt_columns t) with
  | Some i, Some j =>
      match nth_error (pt_data t) i with
      | Some r => nth_error r j
      | None => None
      end
  | _, _ => None
  end.

(** [self.df['Country'].unique()] *)
Definition unique_countries : M (list string) :=
  read (fun df => unique String.compare (col_Country df)).

(** [self.df[self.df['Country'] == country]] *)
Definition country_frame (country : string) : M DataFrame :=
  read (fun df => where_country df country).

Section Analyzer.
Variable fp : Float64.

(** The dictionary built at lines 106-114 for one country and metric. *)
Definition summary_row (country : string) (country_df : DataFrame) (metric : column)
  : SummaryRow :=
  {| sr_Country := country;
     sr_Metric := column_name metric;
     sr_Mean := Series_mean fp (col metric country_df);
     sr_Median := Series_median fp (col metric country_df);
     sr_StdDev := Series_std fp (col metric country_df);
     sr_Min := Series_min (col metric country_df);
     sr_Max := Series_max (col metric country_df) |}.

(** The loop of lines 103-115, appending to [summary_data]. *)
Fixpoint summary_loop (countries : list string) (summary_data : list SummaryRow)
  : M (list SummaryRow) :=
  match countries with
  | [] => ret summary_data
  | country :: rest =>
      country_df <- country_frame country ;;
      summary_loop rest
        (summary_data ++ map (summary_row country country_df) metrics)
  end.

Definition summary_data : M (list SummaryRow) :=
  countries <- unique_countries ;;
  summary_loop countries [].

Definition summary_statistics_table : M PivotTable :=
  data <- summary_data ;;
  lift (pivot data [Mean; Median; StdDev; Min; Max]).

(** [self.df.groupby('Country')[c].mean()] *)
Definition country_means (c : column) : M (list (string * value)) :=
  read (fun df =>
          groupby_mean fp String.compare (map Some (col_Country df)) (col c df)).

Definition ind8 : string := "        ".

(** The f-string of lines 133-143, its six fields as parameters. *)
Definition observations_template
  (ghi_benin ghi_togo ghi_sierra_leone dni_benin : value)
  (optimal_temp_country : string) (optimal_temp_value : value) : list piece :=
  [ Lit (nl ++ ind8 ++ "📊 SOLAR POTENTIAL RANKING:" ++ nl
            ++ ind8 ++ "1. Benin: Avg GHI ");
    Fld2f ghi_benin;
    Lit (" W/m²" ++ nl ++ ind8 ++ "2. Togo: Avg GHI ");
    Fld2f ghi_togo;
    Lit (" W/m²" ++ nl ++ ind8 ++ "3. Sierra Leone: Avg GHI ");
    Fld2f ghi_sierra_leone;
    Lit (" W/m²" ++ nl ++ ind8 ++ nl
            ++ ind8 ++ "🎯 TOP INSIGHTS:" ++ nl
            ++ ind8 ++ "1. Highest Solar Potential: Benin (");
    Fld2f ghi_benin;
    Lit (" W/m² GHI)" ++ nl ++ ind8 ++ "2. Best DNI: Benin (");
    Fld2f dni_benin;
    Lit (" W/m²)" ++ nl ++ ind8 ++ "3. Optimal Temperature: ");
    FldStr optimal_temp_country;
    Lit " (";
    Fld2f optimal_temp_value;
    Lit ("°C)" ++ nl ++ ind8) ].

(** The fields of the text, before rendering. *)
Definition key_observations : M (list piece) :=
  temp_means <- country_means cTamb ;;
  closest_idx <-
    lift (getitem
            (Series_argsort
               (map (fun v => vabs (vsub fp v (Num 25))) (map snd temp_means)))
            0) ;;
  optimal_temp_country <- lift (getitem (map fst temp_means) closest_idx) ;;
  optimal_temp_value <- lift (getitem (map snd temp_means) closest_idx) ;;
  ghi_means <- country_means cGHI ;;
  dni_means <- country_means cDNI ;;
  dhi_means <- country_means cDHI ;;
  ret (observations_template
         (Series_get ghi_means "Benin" (Num 0))
         (Series_get ghi_means "Togo" (Num 0))
         (Series_get ghi_means "Sierra Leone" (Num 0))
         (Series_get dni_means "Benin" (Num 0))
         optimal_temp_country optimal_temp_value).

Definition generate_key_observations : M string :=
  observations <- key_observations ;;
  ret (render observations).
End Analyzer.

(** ** generate_country_insights *)

Definition no_data : string := "No data available.".

Definition ind4 : string := "    ".

(** [f"{peak_hour}"]: the label is an integer when every record has an
    hour, a float otherwise. *)
Definition str_hour (as_float : bool) (h : option Z) : string :=
  match h with
  | None => "nan"
  | Some z => if as_float then str_Z z ++ ".0" else str_Z z
  end.

Definition hour_column (df : DataFrame) : list (option Z) :=
  match Hour df with
  | Some h => h
  | None => []
  end.

Definition has_nat (h : list (option Z)) : bool :=
  existsb (fun o => match o with None => true | Some _ => false end) h.

Definition insights_template (country : string)
  (ghi dni dhi tamb : value) (peak_hour : string) : list piece :=
  [ Lit (nl ++ ind4 ++ "### ");
    FldStr country;
    Lit (" Key Insights" ++ nl ++ ind4 ++ "- **Avg GHI**: ");
    Fld2f ghi;
    Lit (" W/m²" ++ nl ++ ind4 ++ "- **Avg DNI**: ");
    Fld2f dni;
    Lit (" W/m²" ++ nl ++ ind4 ++ "- **Avg DHI**: ");
    Fld2f dhi;
    Lit (" W/m²" ++ nl ++ ind4 ++ "- **Avg Temp**: ");
    Fld2f tamb;
    Lit (" °C" ++ nl ++ ind4 ++ "- **Peak Hour**: ");
    FldStr peak_hour;
    Lit (":00" ++ nl ++ ind4) ].

Section Insights.
Variable fp : Float64.

(** [df.groupby('Hour')['GHI'].mean()] *)
Definition hourly_GHI (df : DataFrame) : list (Z * value) :=
  groupby_mean fp Z.compare (hour_column df) (col cGHI df).

(** Lines 152-153: the hour column is written to the frame, then read back
    by [groupby]. *)
Definition peak_hour_of : M (option Z) :=
  hours <- try_read (fun df => dt_hour (col_Timestamp df)) ;;
  assign (set_Hour hours) ;;;
  means <- read hourly_GHI ;;
  lift (idxmax means).

(** The body of the function for an argument that is a frame. *)
Definition country_insights (country : string) : M string :=
  is_empty <- read empty ;;
  if is_empty then ret no_data
  else
    peak_hour <- peak_hour_of ;;
    as_float <- read (fun df => has_nat (hour_column df)) ;;
    ghi <- read (fun df => Series_mean fp (col cGHI df)) ;;
    dni <- read (fun df => Series_mean fp (col cDNI df)) ;;
    dhi <- read (fun df => Series_mean fp (col cDHI df)) ;;
    tamb <- read (fun df => Series_mean fp (col cTamb df)) ;;
    ret (render (insights_template country ghi dni dhi tamb
                   (str_hour as_float peak_hour))).

(** [generate_country_insights(df, country)]: the argument is [None] or a
    frame object; the result comes with the object as the call leaves it. *)
Definition generate_country_insights (df : option DataFrame) (country : string)
  : result string * option DataFrame :=
  match df with
  | None => (Ok no_data, None)
  | Some d =>
      let (r, d') := country_insights country d in
      (r, Some d')
  end.
End Insights.

(** ** The dashboard surface

    What the script shows is recorded as a trace of [ui_event]s; a chart is
    one event carrying its title. *)

Inductive ui_event : Type :=
| st_markdown (body : string)
| st_info (msg : string)
| st_error (msg : string)
| st_sidebar_title (s : string)
| st_subheader (s : string)
| st_metric (label : string) (v : string)
| st_plotly_chart (title : string)
| st_dataframe (t : PivotTable).

(** ** load_data *)

(** A Python dict with string keys: insertion-ordered, one entry per key. *)
Definition dict (A : Type) : Type := list (string * A).

Fixpoint dict_set {A} (d : dict A) (k : string) (v : A) : dict A :=
  match d with
  | [] => [(k, v)]
  | (k', v') :: t =>
      if String.eqb k' k then (k', v) :: t else (k', v') :: dict_set t k v
  end.

Definition keys {A} (d : dict A) : list string := map fst d.
Definition values {A} (d : dict A) : list A := map snd d.

Definition file_paths : dict string :=
  [ ("Benin", "src/notebooks/data1/benin.csv");
    ("Sierra Leone", "src/notebooks/data1/sierraleone.csv");
    ("Togo", "src/notebooks/data1/togo.csv") ].

(** A record as [read_csv] delivers it: the timestamp still text (or an
    empty cell), the measurements already numbers. *)
Record RawRow : Type := mkRawRow {
  raw_Timestamp : option string;
  raw_GHI : value;
  raw_DNI : value;
  raw_DHI : value;
  raw_Tamb : value
}.

(** What the script reaches through its libraries.
    - [read_csv]: the records of the file at a path, or the exception
      raised for a file that is missing, unreadable, malformed or without
      a Timestamp column.
    - [to_datetime]: [pd.to_datetime] on the Timestamp column of a file,
      taken as a whole: the column of timestamps, a cell per cell, or the
      exception raised for a column pandas does not accept.
    - [sample]: the records [DataFrame.sample(n)] draws from a frame that
      has at least [n] of them.
    - [px_scatter]: whether [px.scatter] accepts the frame it is given. *)
Record Env : Type := mkEnv {
  read_csv : string -> result (list RawRow);
  to_datetime : list (option string) -> result (list timestamp);
  to_datetime_length :
    forall cells ts, to_datetime cells = Ok ts -> length ts = length cells;
  sample : nat -> DataFrame -> DataFrame;
  px_scatter : DataFrame -> result unit
}.

Definition tag_row (country : string) (r : RawRow) (t : timestamp) : Row :=
  {| Timestamp := t; Country := country;
     GHI := raw_GHI r; DNI := raw_DNI r; DHI := raw_DHI r; Tamb := raw_Tamb r |}.

Inductive page : Type :=
| Overview | CountryComparison | IndividualCountries | KeyObservations.

Definition main_header : string :=
  "<h1 class=" ++ dquote ++ "main-header" ++ dquote
    ++ ">🌞 Cross-Country Solar Farm Analysis</h1>".

(** [st.selectbox]: the option the user picked, the first one unless
    they picked another. *)
Definition selectbox (options : list string) (choice : nat) : option string :=
  match nth_error options choice with
  | Some o => Some o
  | None => hd_error options
  end.

Definition dict_get {A} (d : dict A) (k : string) : result A :=
  match find (fun kv => String.eqb (fst kv) k) d with
  | Some kv => Ok (snd kv)
  | None => Raise (KeyError k)
  end.

Definition no_data_loaded : string := "No data loaded. Please check file paths.".

Section Loader.
Variable env : Env.

(** Lines 53-56: the part of the [try] block that can raise. *)
Definition load_country (country path : string) : result DataFrame :=
  match read_csv env path with
  | Raise e => Raise e
  | Ok raw =>
      match to_datetime env (map raw_Timestamp raw) with
      | Raise e => Raise e
      | Ok ts =>
          Ok {| rows := map (fun p => tag_row country (fst p) (snd p)) (combine raw ts);
                Hour := None |}
      end
  end.

(** The loop of lines 51-60, threading the dict and the notifications. *)
Fixpoint load_loop (paths : dict string) (countries : dict DataFrame)
  (log : list ui_event) : dict DataFrame * list ui_event :=
  match paths with
  | [] => (countries, log)
  | (country, path) :: rest =>
      match load_country country path with
      | Ok df =>
          load_loop rest (dict_set countries country df)
            (log ++ [st_info ("✓ Loaded " ++ country ++ ": "
                                ++ str_nat (len df) ++ " records")])
      | Raise e =>
          load_loop rest countries
            (log ++ [st_error ("✗ Error loading " ++ country ++ ": " ++ str_exn e)])
      end
  end.

(** [load_data] on a given path mapping: the outcome, and the
    notifications shown on the way.  Line 64 converts the Timestamp column
    of the concatenation once more, outside the [try] block. *)
Definition load_from (paths : dict string)
  : result (option DataFrame * dict DataFrame) * list ui_event :=
  let (countries, log) := load_loop paths [] [] in
  match countries with
  | [] => (Ok (None, []), log)
  | _ =>
      let comparison_df := concat (values countries) in
      match to_datetime_parsed (col_Timestamp comparison_df) with
      | Raise e => (Raise e, log)
      | Ok s => (Ok (Some (set_Timestamp s comparison_df), countries), log)
      end
  end.

Definition load_data
  : result (option DataFrame * dict DataFrame) * list ui_event :=
  load_from file_paths.

(** ** main *)

Variable fp : Float64.

(** The four branches of lines 182-221, as the events they show and the
    exception they may end with.  The Overview page assigns an Hour column
    to [comparison_df] (line 193), draws 5000 records without replacement,
    which pandas refuses on a smaller frame, and hands them to
    [px.scatter]. *)
Definition show_page (p : page) (choice : nat)
  (comparison_df : DataFrame) (countries : dict DataFrame)
  : list ui_event * result unit :=
  match p with
  | Overview =>
      let metrics3 :=
        [ st_metric "Total Records" (str_nat (len comparison_df));
          st_metric "Countries Analyzed" (str_nat (length countries));
          st_metric "Overall Avg GHI"
            (format_2f (Series_mean fp (col cGHI comparison_df)) ++ " W/m²") ] in
      match dt_hour (col_Timestamp comparison_df) with
      | Raise e => (metrics3, Raise e)
      | Ok hours =>
          if (len comparison_df <? 5000)%nat
          then (metrics3,
                Raise (ValueError "Cannot take a larger sample than population when 'replace=False'"))
          else
            match px_scatter env (sample env 5000 (set_Hour hours comparison_df)) with
            | Raise e => (metrics3, Raise e)
            | Ok _ =>
                ((metrics3 ++ [st_plotly_chart "Solar Irradiance Bubble Chart (Size = DNI)"])%list,
                 Ok tt)
            end
      end
  | CountryComparison =>
      let before :=
        [ st_subheader "Box Plots Comparison";
          st_plotly_chart "Solar Irradiance Comparison Across Countries";
          st_subheader "Summary Statistics" ] in
      match fst (summary_statistics_table fp comparison_df) with
      | Ok t => ((before ++ [st_dataframe t])%list, Ok tt)
      | Raise e => (before, Raise e)
      end
  | IndividualCountries =>
      match selectbox (keys countries) choice with
      | None => ([], Raise (KeyError "None"))
      | Some country =>
          match dict_get countries country with
          | Raise e => ([], Raise e)
          | Ok stored =>
              let df_country := copy stored in
              match fst (generate_country_insights fp (Some df_country) country) with
              | Raise e => ([], Raise e)
              | Ok insights =>
                  ([ st_markdown ("<div class=" ++ dquote ++ "country-card" ++ dquote
                                    ++ ">" ++ insights ++ "</div>");
                     st_plotly_chart (country ++ " GHI Trend (First 1000 records)") ],
                   Ok tt)
              end
          end
      end
  | KeyObservations =>
      match fst (generate_key_observations fp comparison_df) with
      | Ok text => ([st_markdown text], Ok tt)
      | Raise e => ([], Raise e)
      end
  end.

(** [main], for the page and country the user selected. *)
Definition main (p : page) (choice : nat) : list ui_event * result unit :=
  let (loaded, log) := load_data in
  let head := st_markdown main_header :: log in
  match loaded with
  | Raise e => (head, Raise e)
  | Ok (None, _) => ((head ++ [st_error no_data_loaded])%list, Ok tt)
  | Ok (Some df, countries) =>
      let (shown, r) := show_page p choice df countries in
      ((head ++ st_sidebar_title "Navigation" :: shown)%list, r)
  end.
End Loader.

(** ** The box plots

    [metric_comparison_boxplots] adds one box trace per metric and country
    to a figure of three subplots.  The figure is the list of its traces
    with the layout set at the end; the palette
    [px.colors.qualitative.Set2] is a parameter. *)

Record BoxTrace : Type := mkBoxTrace {
  box_y : list Q;
  box_name : string;
  box_marker_color : string;
  box_row : nat;
  box_col : nat
}.

Record Figure : Type := mkFigure {
  fig_subplot_titles : list string;
  fig_traces : list BoxTrace;
  fig_height : nat;
  fig_showlegend : bool;
  fig_title_text : string
}.

Definition ZeroDivisionError (msg : string) : exn :=
  Exception "ZeroDivisionError" msg.

Section Boxplots.
Variable colors : list string.

(** [colors[idx % len(colors)]] *)
Definition palette_color (idx : nat) : result string :=
  match colors with
  | [] => Raise (ZeroDivisionError "integer division or modulo by zero")
  | _ =>
      match nth_error colors (idx mod length colors) with
      | Some c => Ok c
      | None => Raise (IndexError "list index out of range")
      end
  end.

(** The inner loop of lines 85-94, [idx] counting the countries. *)
Fixpoint country_traces (metric : column) (col_idx : nat) (idx : nat)
  (countries : list string) (traces : list BoxTrace) : M (list BoxTrace) :=
  match countries with
  | [] => ret traces
  | country :: rest =>
      country_data <-
        read (fun df => dropna (col metric (where_country df country))) ;;
      color <- lift (palette_color idx) ;;
      country_traces metric col_idx (S idx) rest
        (traces ++ [ {| box_y := country_data; box_name := country;
                        box_marker_color := color;
                        box_row := 1; box_col := col_idx |} ])%list
  end.

(** The outer loop of line 84, [col_idx] counting the metrics from 1. *)
Fixpoint metric_traces (ms : list column) (col_idx : nat)
  (countries : list string) (traces : list BoxTrace) : M (list BoxTrace) :=
  match ms with
  | [] => ret traces
  | metric :: rest =>
      traces' <- country_traces metric col_idx 0 countries traces ;;
      metric_traces rest (S col_idx) countries traces'
  end.

Definition metric_comparison_boxplots : M Figure :=
  countries <- unique_countries ;;
  traces <- metric_traces metrics 1 countries [] ;;
  ret {| fig_subplot_titles :=
           ["GHI Distribution"; "DNI Distribution"; "DHI Distribution"];
         fig_traces := traces;
         fig_height := 500;
         fig_showlegend := true;
         fig_title_text := "Solar Irradiance Comparison Across Countries" |}.
End Boxplots.

(** ** Reference notions

    What the statements below compare the code with, written from the
    description of the dashboard rather than from the script. *)

(** The records of one country, in the order of the frame. *)
Definition records_of (df : DataFrame) (country : string) : list Row :=
  filter (fun r => String.eqb (Country r) country) (rows df).

(** The numbers among the cells of a column, the missing cells left out. *)
Definition numbers (s : list value) : list Q :=
  flat_map (fun v => match v with Num q => [q] | NaN => [] end) s.

(** The non-missing values a country has for a column. *)
Definition observed (df : DataFrame) (country : string) (c : column) : list Q :=
  numbers (map (cell c) (records_of df country)).

(** The number of values below [x], and of values that do not exceed it. *)
Definition count_below (x : Q) (xs : list Q) : nat :=
  length (filter (fun y => negb (Qle_bool x y)) xs).

Definition count_upto (x : Q) (xs : list Q) : nat :=
  length (filter (fun y => Qle_bool y x) xs).

(** [a] is a value of the list that stands at rank [k], counting from 0,
    when the values are put in ascending order. *)
Definition at_rank (xs : list Q) (k : nat) (a : Q) : Prop :=
  In a xs /\ (count_below a xs <= k)%nat /\ (k < count_upto a xs)%nat.

(** The least and the greatest of the values; no value, no extremum. *)
Definition is_minimum (xs : list Q) (v : value) : Prop :=
  match xs with
  | [] => v = NaN
  | _ => exists a, v = Num a /\ In a xs /\ forall x, In x xs -> (a <= x)%Q
  end.

Definition is_maximum (xs : list Q) (v : value) : Prop :=
  match xs with
  | [] => v = NaN
  | _ => exists a, v = Num a /\ In a xs /\ forall x, In x xs -> (x <= a)%Q
  end.

Section Reference.
Variable fp : Float64.

(** The mean of a list of numbers in float64: a sum of the list over its
    length; undefined for the empty list. *)
Definition mean_by (sum : list Q -> Q) (xs : list Q) : value :=
  match xs with
  | [] => NaN
  | _ => Num (fl_div fp (sum xs) (inject_Z (Z.of_nat (length xs))))
  end.

(** The mean of a column, and the mean of a group. *)
Definition average (xs : list Q) : value := mean_by (np_sum fp) xs.
Definition group_average (xs : list Q) : value := mean_by (group_sum fp) xs.

(** The sample standard deviation: the square root of the sum of the
    squared deviations from the mean over one less than the number of
    values; undefined below two values. *)
Definition sample_deviation (xs : list Q) : value :=
  match average xs with
  | NaN => NaN
  | Num m =>
      if (length xs <? 2)%nat then NaN
      else
        Num (fl_sqrt fp
               (fl_div fp
                  (np_sum fp (map (fun x => fl_mul fp (fl_sub fp x m) (fl_sub fp x m)) xs))
                  (inject_Z (Z.of_nat (length xs) - 1))))
  end.

(** The median: the middle value in ascending order, or half the sum of
    the two middle values. *)
Definition is_median (xs : list Q) (v : value) : Prop :=
  match xs with
  | [] => v = NaN
  | _ =>
      if Nat.odd (length xs)
      then exists a, at_rank xs (length xs / 2) a /\ v = Num a
      else exists a b,
             at_rank xs (length xs / 2 - 1) a /\ at_rank xs (length xs / 2) b /\
             v = Num (fl_div fp (fl_add fp a b) 2)
  end.

(** The mean of a column over the whole frame. *)
Definition column_mean (df : DataFrame) (c : column) : value :=
  average (numbers (col c df)).

(** The mean the key observations compute for a country. *)
Definition country_mean (df : DataFrame) (country : string) (c : column) : value :=
  group_average (observed df country c).

(** Distance of a mean to the 25 degrees reference. *)
Definition distance_to_25 (v : value) : value := vabs (vsub fp v (Num 25)).

(** The per-country means of a column as a Series: one entry per country
    of the frame, in ascending order of the name. *)
Definition means_of (df : DataFrame) (c : column) : list (string * value) :=
  map (fun k => (k, country_mean df k c))
      (sorted_keys String.compare (col_Country df)).

(** The mean shown for a named country: its mean if the frame has the
    country, the default otherwise. *)
Definition displayed_mean (df : DataFrame) (country : string) (c : column) : value :=
  if in_dec string_dec country (col_Country df)
  then country_mean df country c
  else Num 0.

(** The text shown for the mean of a named country: "0.00" if the frame
    does not have the country. *)
Definition shown_mean (df : DataFrame) (country : string) (c : column) : string :=
  if in_dec string_dec country (col_Country df)
  then format_2f (country_mean df country c)
  else "0.00".
End Reference.

(** A record was taken at hour [h] of the day when the seconds its wall
    clock shows since midnight lie in the [h]-th stretch of 3600. *)
Definition recorded_at (h : Z) (r : Row) : bool :=
  match Timestamp r with
  | Some d =>
      ((3600 * h <=? wall d mod 86400) && (wall d mod 86400 <? 3600 * h + 3600))%Z
  | None => false
  end.

Section ReferencePeak.
Variable fp : Float64.

(** The average GHI of the records taken at a given hour of the day. *)
Definition hour_avg (df : DataFrame) (h : Z) : value :=
  group_average fp (numbers (map GHI (filter (recorded_at h) (rows df)))).

(** [h] is the peak hour: it has an average, no hour has a larger one, and
    the hours with an equal one come later in the day. *)
Definition is_peak_hour (df : DataFrame) (h : Z) : Prop :=
  exists a, hour_avg df h = Num a /\
    forall h' a', hour_avg df h' = Num a' ->
      (a' <= a)%Q /\ ((a' == a)%Q -> (h <= h')%Z).
End ReferencePeak.

(** The timestamps of a frame are of one kind: all without a time zone,
    or all in the same one. *)
Definition same_time_zone (s : list timestamp) : Prop :=
  forall d d', In (Some d) s -> In (Some d') s -> utcoffset d = utcoffset d'.

(** Every record has a timestamp, and the timestamps are of one kind. *)
Definition parseable (df : DataFrame) : Prop :=
  (forall r, In r (rows df) -> Timestamp r <> None) /\
  same_time_zone (col_Timestamp df).

(** The column labels of the summary table: statistic by statistic, the
    metrics in ascending order of their name under each. *)
Definition summary_columns : list (string * string) :=
  flat_map (fun s => map (fun m => (stat_name s, m)) ["DHI"; "DNI"; "GHI"])
           [Mean; Median; StdDev; Min; Max].

(** The countries whose file loads, with their frame, in the order of the
    path mapping. *)
Definition loaded (env : Env) (paths : dict string) : dict DataFrame :=
  flat_map (fun cp =>
              match load_country env (fst cp) (snd cp) with
              | Ok df => [(fst cp, df)]
              | Raise _ => []
              end) paths.

(** A country of the path mapping loads into a frame. *)
Definition loads (env : Env) (paths : dict string) (c : string) (df : DataFrame)
  : Prop :=
  exists p, In (c, p) paths /\ load_country env c p = Ok df.

(** The timestamps of the frames that load are of one kind: all without a
    time zone, or all in the same one. *)
Definition loaded_in_one_time_zone (env : Env) (paths : dict string) : Prop :=
  forall c df c' df' d d',
    loads env paths c df -> loads env paths c' df' ->
    In (Some d) (col_Timestamp df) -> In (Some d') (col_Timestamp df') ->
    utcoffset d = utcoffset d'.

(** The notification a country gives rise to. *)
Definition notification (env : Env) (cp : string * string) : ui_event :=
  match load_country env (fst cp) (snd cp) with
  | Ok df =>
      st_info ("✓ Loaded " ++ fst cp ++ ": " ++ str_nat (len df) ++ " records")
  | Raise e =>
      st_error ("✗ Error loading " ++ fst cp ++ ": " ++ str_exn e)
  end.

(** The number of records of a list of frames. *)
Fixpoint total_len (dfs : list DataFrame) : nat :=
  match dfs with
  | [] => 0%nat
  | df :: t => (len df + total_len t)%nat
  end.

(** The timestamps of a list of frames, frame after frame. *)
Definition timestamps_of (dfs : list DataFrame) : list timestamp :=
  flat_map col_Timestamp dfs.

(** The subplot column of a metric. *)
Definition subplot_of (c : column) : nat :=
  match c with
  | cGHI => 1 | cDNI => 2 | cDHI => 3 | cTamb => 0
  end.

(** The traces a figure should hold for one metric: one per country, in
    order, the country at position [i] drawn in the colour [color i]. *)
Fixpoint expected_traces (df : DataFrame) (color : nat -> string)
  (metric : column) (idx : nat) (countries : list string) : list BoxTrace :=
  match countries with
  | [] => []
  | country :: rest =>
      {| box_y := observed df country metric; box_name := country;
         box_marker_color := color idx;
         box_row := 1; box_col := subplot_of metric |}
      :: expected_traces df color metric (S idx) rest
  end.

(** The colour the palette gives to the country at position [i]. *)
Definition color_at (colors : list string) (i : nat) : string :=
  nth (i mod length colors) colors "".

(** The traces named [country] in subplot column [j]. *)
Definition trace_at (country : string) (j : nat) (t : BoxTrace) : bool :=
  String.eqb (box_name t) country && Nat.eqb (box_col t) j.

(** ** Auxiliary notions

    The code's own reductions applied to the observed values, used in the
    proofs to write out what the methods build. *)

(** One of the five reductions on a list of numbers. *)
Definition stat_of (fp : Float64) (s : stat) (xs : list Q) : value :=
  match s with
  | Mean => mean_of fp xs
  | Median => median_of fp xs
  | StdDev => std_of fp xs
  | Min => min_of xs
  | Max => max_of xs
  end.

(** The summary row of a (country, metric) pair. *)
Definition expected_row (fp : Float64) (df : DataFrame) (country : string)
  (c : column) : SummaryRow :=
  {| sr_Country := country;
     sr_Metric := column_name c;
     sr_Mean := stat_of fp Mean (observed df country c);
     sr_Median := stat_of fp Median (observed df country c);
     sr_StdDev := stat_of fp StdDev (observed df country c);
     sr_Min := stat_of fp Min (observed df country c);
     sr_Max := stat_of fp Max (observed df country c) |}.

(** The rows of a summary, country by country. *)
Definition rows_for (row : string -> column -> SummaryRow) (countries : list string)
  : list SummaryRow :=
  flat_map (fun c => map (row c) metrics) countries.

(** The hours of the frame, ascending, each once. *)
Definition hours_of (df : DataFrame) : list Z :=
  sorted_keys Z.compare (present (map hour_of (col_Timestamp df))).

(** The hourly mean the code computes for an hour. *)
Definition hourly_mean (fp : Float64) (df : DataFrame) (h : Z) : value :=
  group_mean_of fp
    (dropna (group_cells Z.compare (map hour_of (col_Timestamp df)) (col cGHI df) h)).

(** ** Sample data

    Small frames and files on which the statements are exercised, and two
    arithmetics to compute with. *)

(** The floats of the machine, as rationals.  A rational with a power of
    two as denominator is taken to the float it is; any other rational, of
    numerator and denominator below [2^53], to the float nearest to it. *)
Fixpoint log2_exact (p : positive) : option Z :=
  match p with
  | xH => Some 0%Z
  | xO p' => option_map Z.succ (log2_exact p')
  | xI _ => None
  end.

Fixpoint odd_part (p : positive) : positive * Z :=
  match p with
  | xO p' => let (o, j) := odd_part p' in (o, Z.succ j)
  | _ => (p, 0%Z)
  end.

Definition float_of_pos (p : positive) : PrimFloat.float :=
  PrimFloat.of_uint63 (Uint63.of_Z (Zpos p)).

Definition float_of_Z (z : Z) : PrimFloat.float :=
  match z with
  | Z0 => PrimFloat.zero
  | Zpos p => float_of_pos p
  | Zneg p => PrimFloat.opp (float_of_pos p)
  end.

Definition float_of_Q (q : Q) : PrimFloat.float :=
  match log2_exact (Qden q) with
  | Some k =>
      match Qnum q with
      | Z0 => PrimFloat.zero
      | Zpos p => let (o, j) := odd_part p in FloatOps.Z.ldexp (float_of_pos o) (j - k)
      | Zneg p =>
          let (o, j) := odd_part p in
          PrimFloat.opp (FloatOps.Z.ldexp (float_of_pos o) (j - k))
      end
  | None => PrimFloat.div (float_of_Z (Qnum q)) (float_of_pos (Qden q))
  end.

(** The rational a finite float is, in lowest terms. *)
Definition Q_of_float (f : PrimFloat.float) : Q :=
  match FloatOps.Prim2SF f with
  | SpecFloat.S754_finite s m e =>
      let n := if s then Zneg m else Zpos m in
      Qred (match e with
            | Z0 => n # 1
            | Zpos p => (n * 2 ^ Zpos p) # 1
            | Zneg p => n # (2 ^ p)
            end)
  | _ => 0
  end.

(** The float nearest to a rational, as a rational. *)
Definition f64 (q : Q) : Q := Q_of_float (float_of_Q q).

Definition float_op (op : PrimFloat.float -> PrimFloat.float -> PrimFloat.float)
  (x y : Q) : Q :=
  Q_of_float (op (float_of_Q x) (float_of_Q y)).

Definition float_sqrt (x : Q) : Q := Q_of_float (PrimFloat.sqrt (float_of_Q x)).

Fixpoint Qsum (l : list Q) : Q :=
  match l with
  | [] => 0
  | x :: t => x + Qsum t
  end.

Lemma exact_sum_one (x : Q) : (Qred (Qsum [x]) == x)%Q.
Proof. rewrite Qred_correct. simpl. apply Qplus_0_r. Qed.

Lemma exact_div_one (x : Q) : (Qred (x / 1) == x)%Q.
Proof. rewrite Qred_correct. unfold Qdiv. apply Qmult_1_r. Qed.

(** Arithmetic without rounding, every result in lowest terms, with the
    square root of the machine.  This is what float64 computes as long as
    every sum, difference, product and quotient on the way is a float of
    moderate size; the frames it is used on below are chosen so that they
    are: their sums, means and squared deviations are whole numbers,
    halves or quarters. *)
Definition exact_arithmetic : Float64 :=
  {| fl_add := fun x y => Qred (x + y);
     fl_sub := fun x y => Qred (x - y);
     fl_mul := fun x y => Qred (x * y);
     fl_div := fun x y => Qred (x / y);
     fl_sqrt := float_sqrt;
     np_sum := fun l => Qred (Qsum l);
     group_sum := fun l => Qred (Qsum l);
     np_sum_one := exact_sum_one;
     fl_div_one := exact_div_one |}.

(** The arithmetic of the machine, for frames on which float64 rounds.
    The sums are those numpy and [groupby] make of fewer than eight cells:
    numpy adds them in order, [groupby] with Kahan's compensation. *)
Fixpoint kahan (sumx compensation : PrimFloat.float) (l : list PrimFloat.float)
  : PrimFloat.float :=
  match l with
  | [] => sumx
  | val :: rest =>
      let y := PrimFloat.sub val compensation in
      let t := PrimFloat.add sumx y in
      kahan t (PrimFloat.sub (PrimFloat.sub t sumx) y) rest
  end.

Definition binary64_div (x y : Q) : Q :=
  if Qeq_bool y 1 then x else float_op PrimFloat.div x y.

Definition binary64_sum (l : list Q) : Q :=
  match l with
  | [] => 0
  | [x] => x
  | x :: t => Q_of_float (fold_left PrimFloat.add (map float_of_Q t) (float_of_Q x))
  end.

Definition binary64_group_sum (l : list Q) : Q :=
  Q_of_float (kahan PrimFloat.zero PrimFloat.zero (map float_of_Q l)).

Lemma binary64_sum_one (x : Q) : (binary64_sum [x] == x)%Q.
Proof. reflexivity. Qed.

Lemma binary64_div_one (x : Q) : (binary64_div x 1 == x)%Q.
Proof. reflexivity. Qed.

Definition binary64 : Float64 :=
  {| fl_add := float_op PrimFloat.add;
     fl_sub := float_op PrimFloat.sub;
     fl_mul := float_op PrimFloat.mul;
     fl_div := binary64_div;
     fl_sqrt := float_sqrt;
     np_sum := binary64_sum;
     group_sum := binary64_group_sum;
     np_sum_one := binary64_sum_one;
     fl_div_one := binary64_div_one |}.

Definition naive (seconds : Z) : timestamp :=
  Some {| wall := seconds; utcoffset := None |}.

Definition sample_row (country : string) (hour : Z) (ghi dni tamb : value) : Row :=
  {| Timestamp := naive (hour * 3600); Country := country;
     GHI := ghi; DNI := dni; DHI := ghi; Tamb := tamb |}.

Definition untimed_row (country : string) (ghi : value) : Row :=
  {| Timestamp := None; Country := country;
     GHI := ghi; DNI := NaN; DHI := NaN; Tamb := NaN |}.

(** Togo is recorded first and has the larger irradiance. *)
Definition togo_first : DataFrame :=
  {| rows := [ sample_row "Togo" 12 (Num 500) (Num 300) (Num 25);
               sample_row "Benin" 12 (Num 3) (Num 2) (Num 20);
               sample_row "Togo" 13 (Num 100) NaN NaN;
               sample_row "Togo" 14 (Num 300) NaN NaN ];
     Hour := None |}.

(** The summary table of [togo_first]. *)
Definition togo_first_table : PivotTable :=
  Eval vm_compute in
    match fst (summary_statistics_table exact_arithmetic togo_first) with
    | Ok t => t
    | Raise _ => {| pt_index := []; pt_columns := []; pt_data := [] |}
    end.

(** The records of [togo_first], Benin's moved to the front. *)
Definition benin_first : DataFrame :=
  {| rows := [ sample_row "Benin" 12 (Num 3) (Num 2) (Num 20);
               sample_row "Togo" 12 (Num 500) (Num 300) (Num 25);
               sample_row "Togo" 13 (Num 100) NaN NaN;
               sample_row "Togo" 14 (Num 300) NaN NaN ];
     Hour := None |}.

(** Benin has four records: GHI readings of 100, 300 and 500 and a missing
    one, no DNI reading at all. *)
Definition spaced_readings : DataFrame :=
  {| rows := [ sample_row "Benin" 8 (Num 100) NaN (Num 30);
               sample_row "Benin" 9 NaN NaN (Num 30);
               sample_row "Togo" 9 (Num 7) (Num 1) (Num 30);
               sample_row "Benin" 10 (Num 500) NaN (Num 30);
               sample_row "Benin" 11 (Num 300) NaN (Num 30) ];
     Hour := None |}.

(** One record. *)
Definition one_record : DataFrame :=
  {| rows := [ sample_row "Benin" 9 (Num 40) (Num 10) (Num 31) ];
     Hour := None |}.

(** Sierra Leone has no temperature reading at all. *)
Definition no_temperature : DataFrame :=
  {| rows := [ sample_row "Benin" 10 (Num 3) (Num 2) (Num 20);
               sample_row "Sierra Leone" 10 (Num 4) (Num 1) NaN;
               sample_row "Togo" 11 (Num 5) (Num 6) (Num 25) ];
     Hour := None |}.

(** Benin has no temperature reading; Sierra Leone is at 25 degrees. *)
Definition benin_unmeasured : DataFrame :=
  {| rows := [ sample_row "Sierra Leone" 10 (Num 4) (Num 1) (Num 25);
               sample_row "Benin" 10 (Num 3) (Num 2) NaN;
               sample_row "Togo" 11 (Num 5) (Num 6) (Num 40) ];
     Hour := None |}.

(** The float 0.1. *)
Definition tenth : value := Num (f64 (1 # 10)).

(** Benin has three GHI readings of 0.1. *)
Definition three_tenths : DataFrame :=
  {| rows := [ sample_row "Benin" 9 tenth NaN NaN;
               sample_row "Benin" 10 tenth NaN NaN;
               sample_row "Benin" 11 tenth NaN NaN ];
     Hour := None |}.

(** One reading of 0.1 at 9 o'clock, three at 14 o'clock. *)
Definition tenths_at_two_hours : DataFrame :=
  {| rows := [ sample_row "Benin" 9 tenth NaN NaN;
               sample_row "Benin" 14 tenth NaN NaN;
               sample_row "Benin" 14 tenth NaN NaN;
               sample_row "Benin" 14 tenth NaN NaN ];
     Hour := None |}.

(** Benin has the GHI readings 0.05, 0.1 and 0.075. *)
Definition three_small_readings : DataFrame :=
  {| rows := [ sample_row "Benin" 9 (Num (f64 (5 # 100))) NaN (Num 25);
               sample_row "Benin" 10 tenth NaN (Num 25);
               sample_row "Benin" 11 (Num (f64 (75 # 1000))) NaN (Num 25) ];
     Hour := None |}.

(** Hours 9 and 14 share the largest average; hour 11 has no reading. *)
Definition tied_hours : DataFrame :=
  {| rows := [ sample_row "Benin" 14 (Num 700) NaN NaN;
               sample_row "Benin" 9 (Num 600) NaN NaN;
               sample_row "Benin" 11 NaN NaN NaN;
               sample_row "Benin" 9 (Num 800) NaN NaN;
               sample_row "Benin" 7 (Num 10) NaN NaN ];
     Hour := None |}.

(** Two records at 05:01 on a clock two hours ahead of UTC. *)
Definition two_hours_ahead : DataFrame :=
  {| rows := [ {| Timestamp := Some {| wall := (5 * 3600 + 60)%Z; utcoffset := Some 7200%Z |};
                  Country := "Togo";
                  GHI := Num 1; DNI := NaN; DHI := NaN; Tamb := NaN |};
               {| Timestamp := Some {| wall := (86400 + 5 * 3600 + 60)%Z;
                                       utcoffset := Some 7200%Z |};
                  Country := "Togo";
                  GHI := Num 3; DNI := NaN; DHI := NaN; Tamb := NaN |} ];
     Hour := None |}.

(** A tz-naive record followed by a tz-aware one. *)
Definition mixed_zones : DataFrame :=
  {| rows := [ sample_row "Togo" 9 (Num 600) NaN NaN;
               {| Timestamp := Some {| wall := (14 * 3600)%Z; utcoffset := Some 3600%Z |};
                  Country := "Togo";
                  GHI := Num 500; DNI := NaN; DHI := NaN; Tamb := NaN |} ];
     Hour := None |}.

(** The second record has an empty timestamp cell. *)
Definition one_unparsed : DataFrame :=
  {| rows := [ sample_row "Togo" 9 (Num 600) NaN NaN;
               untimed_row "Togo" (Num 1000);
               sample_row "Togo" 14 (Num 500) NaN NaN ];
     Hour := None |}.

(** No record has a timestamp. *)
Definition none_parsed : DataFrame :=
  {| rows := [ untimed_row "Togo" (Num 900) ];
     Hour := None |}.

Definition no_frame : DataFrame := {| rows := []; Hour := None |}.

(** The eight colours of the Set2 palette. *)
Definition Set2 : list string :=
  [ "rgb(102,194,165)"; "rgb(252,141,98)"; "rgb(141,160,203)";
    "rgb(231,138,195)"; "rgb(166,216,84)"; "rgb(255,217,47)";
    "rgb(229,196,148)"; "rgb(179,179,179)" ].

(** The files of the examples. *)
Definition sample_raw (t : string) (ghi : Q) : RawRow :=
  {| raw_Timestamp := Some t; raw_GHI := Num ghi; raw_DNI := NaN;
     raw_DHI := NaN; raw_Tamb := Num 30 |}.

Definition file_not_found (path : string) : exn :=
  Exception "FileNotFoundError"
    ("[Errno 2] No such file or directory: '" ++ path ++ "'").

(** The file of Sierra Leone is missing. *)
Definition sample_read_csv (path : string) : result (list RawRow) :=
  if String.eqb path "src/notebooks/data1/benin.csv"
  then Ok [sample_raw "2021-08-09 00:01" 1; sample_raw "2021-08-09 00:02" 2]
  else if String.eqb path "src/notebooks/data1/togo.csv"
  then Ok [sample_raw "2021-10-25 00:01" 3]
  else Raise (file_not_found path).

(** The same, the timestamp of Togo's file written with a UTC offset. *)
Definition mixed_read_csv (path : string) : result (list RawRow) :=
  if String.eqb path "src/notebooks/data1/benin.csv"
  then Ok [sample_raw "2021-08-09 00:01" 1; sample_raw "2021-08-09 00:02" 2]
  else if String.eqb path "src/notebooks/data1/togo.csv"
  then Ok [sample_raw "2021-10-25 00:01+01:00" 3]
  else Raise (file_not_found path).

(** The three files lie in a [data] folder, as the comment above
    [load_data] has it, and not under [src/notebooks/data1]. *)
Definition data_folder_read_csv (path : string) : result (list RawRow) :=
  if String.eqb path "data/benin.csv"
  then Ok [sample_raw "2021-08-09 00:01" 1; sample_raw "2021-08-09 00:02" 2]
  else if String.eqb path "data/sierraleone.csv"
  then Ok [sample_raw "2021-10-25 00:01" 2]
  else if String.eqb path "data/togo.csv"
  then Ok [sample_raw "2021-10-25 00:01" 3]
  else Raise (file_not_found path).

(** Every file is missing. *)
Definition no_file (path : string) : result (list RawRow) :=
  Raise (file_not_found path).

(** Every file holds its header line and no record. *)
Definition header_only (path : string) : result (list RawRow) := Ok [].

(** The timestamps written in the files of the examples. *)
Definition known_dates : list (string * datetime) :=
  [ ("2021-08-09 00:01", {| wall := 1628467260%Z; utcoffset := None |});
    ("2021-08-09 00:02", {| wall := 1628467320%Z; utcoffset := None |});
    ("2021-10-25 00:01", {| wall := 1635120060%Z; utcoffset := None |});
    ("2021-10-25 00:01+01:00", {| wall := 1635120060%Z; utcoffset := Some 3600%Z |}) ].

Definition known_date (s : string) : option datetime :=
  option_map snd (find (fun p => String.eqb (fst p) s) known_dates).

(** A conversion that knows these timestamps and stops at the first cell
    with any other text. *)
Fixpoint sample_to_datetime_from (i : nat) (cells : list (option string))
  : result (list timestamp) :=
  match cells with
  | [] => Ok []
  | c :: t =>
      match c with
      | None =>
          match sample_to_datetime_from (S i) t with
          | Ok ts => Ok (None :: ts)
          | Raise e => Raise e
          end
      | Some s =>
          match known_date s with
          | Some d =>
              match sample_to_datetime_from (S i) t with
              | Ok ts => Ok (Some d :: ts)
              | Raise e => Raise e
              end
          | None =>
              Raise (ValueError
                       ("Unknown datetime string format, unable to parse: " ++ s
                          ++ at_position i))
          end
      end
  end.

Definition sample_to_datetime (cells : list (option string)) : result (list timestamp) :=
  sample_to_datetime_from 0 cells.

Lemma sample_to_datetime_length (cells : list (option string)) (ts : list timestamp) :
  sample_to_datetime cells = Ok ts -> length ts = length cells.
Proof.
  unfold sample_to_datetime. generalize 0%nat. revert ts.
  induction cells as [|c t IH]; intros ts i H; simpl in H.
  - inversion H. reflexivity.
  - destruct c as [s|].
    + destruct (known_date s); [|discriminate].
      destruct (sample_to_datetime_from (S i) t) as [ts'|e] eqn:E; [|discriminate].
      inversion H. simpl. now rewrite (IH ts' (S i) E).
    + destruct (sample_to_datetime_from (S i) t) as [ts'|e] eqn:E; [|discriminate].
      inversion H. simpl. now rewrite (IH ts' (S i) E).
Qed.

(** A draw that takes the first records, and a chart that accepts every
    frame. *)
Definition first_records (n : nat) (df : DataFrame) : DataFrame :=
  {| rows := firstn n (rows df); Hour := option_map (firstn n) (Hour df) |}.

Definition sample_env : Env :=
  {| read_csv := sample_read_csv;
     to_datetime := sample_to_datetime;
     to_datetime_length := sample_to_datetime_length;
     sample := first_records;
     px_scatter := fun _ => Ok tt |}.

Definition mixed_env : Env :=
  {| read_csv := mixed_read_csv;
     to_datetime := sample_to_datetime;
     to_datetime_length := sample_to_datetime_length;
     sample := first_records;
     px_scatter := fun _ => Ok tt |}.

Definition data_folder_env : Env :=
  {| read_csv := data_folder_read_csv;
     to_datetime := sample_to_datetime;
     to_datetime_length := sample_to_datetime_length;
     sample := first_records;
     px_scatter := fun _ => Ok tt |}.

Definition no_file_env : Env :=
  {| read_csv := no_file;
     to_datetime := sample_to_datetime;
     to_datetime_length := sample_to_datetime_length;
     sample := first_records;
     px_scatter := fun _ => Ok tt |}.

Definition header_only_env : Env :=
  {| read_csv := header_only;
     to_datetime := sample_to_datetime;
     to_datetime_length := sample_to_datetime_length;
     sample := first_records;
     px_scatter := fun _ => Ok tt |}.
(** * Properties *)

(** ** Key lists *)

Section SortedKeysFacts.
Variable K : Type.
Variable cmp : K -> K -> comparison.
Hypothesis cmp_eq : forall a b, cmp a b = Eq <-> a = b.
Hypothesis cmp_antisym : forall a b, cmp a b = CompOpp (cmp b a).
Hypothesis cmp_trans : forall a b c, cmp a b = Lt -> cmp b c = Lt -> cmp a c = Lt.

Lemma key_eqb_true (a b : K) : key_eqb cmp a b = true <-> a = b.
Proof.
  unfold key_eqb. rewrite <- cmp_eq.
  destruct (cmp a b); split; intro H; congruence.
Qed.

Lemma key_eqb_refl (a : K) : key_eqb cmp a a = true.
Proof. now apply key_eqb_true. Qed.

Lemma In_insert_key (x k : K) (l : list K) :
  In x (insert_key cmp k l) <-> x = k \/ In x l.
Proof.
  induction l as [|y t IH]; simpl.
  - intuition.
  - destruct (cmp k y) eqn:E; simpl.
    + apply cmp_eq in E. subst y. intuition.
    + intuition.
    + rewrite IH. intuition.
Qed.

Lemma In_sorted_keys (x : K) (l : list K) :
  In x (sorted_keys cmp l) <-> In x l.
Proof.
  induction l as [|y t IH]; simpl.
  - tauto.
  - rewrite In_insert_key, IH. intuition.
Qed.

Lemma ascending_insert_key (k : K) (l : list K) :
  ascending cmp l -> ascending cmp (insert_key cmp k l).
Proof.
  induction l as [|y t IH]; simpl.
  - intros _. split; [intros ? []|exact I].
  - intros [Hy Ht]. destruct (cmp k y) eqn:E.
    + simpl. auto.
    + simpl. split; [|split; assumption].
      intros z [<-|Hz]; [assumption|].
      eapply cmp_trans; eauto.
    + simpl. split; [|auto].
      intros z Hz. apply In_insert_key in Hz. destruct Hz as [->|Hz]; [|auto].
      rewrite cmp_antisym, E. reflexivity.
Qed.

Lemma ascending_sorted_keys (l : list K) : ascending cmp (sorted_keys cmp l).
Proof.
  induction l as [|y t IH]; simpl; [exact I|].
  now apply ascending_insert_key.
Qed.

Lemma cmp_irrefl (a : K) : cmp a a <> Lt.
Proof.
  assert (H : cmp a a = Eq) by now apply cmp_eq.
  congruence.
Qed.

Lemma ascending_NoDup (l : list K) : ascending cmp l -> NoDup l.
Proof.
  induction l as [|y t IH]; simpl; intros H; constructor.
  - intros Hin. destruct H as [H _]. apply (cmp_irrefl (H _ Hin)).
  - apply IH, H.
Qed.

Lemma NoDup_sorted_keys (l : list K) : NoDup (sorted_keys cmp l).
Proof. apply ascending_NoDup, ascending_sorted_keys. Qed.

Lemma existsb_key_eqb (x : K) (l : list K) :
  existsb (key_eqb cmp x) l = true <-> In x l.
Proof.
  rewrite existsb_exists. split.
  - intros [y [Hy E]]. apply key_eqb_true in E. now subst.
  - intros H. exists x. split; [assumption|apply key_eqb_refl].
Qed.

Lemma In_unique_from (x : K) (seen l : list K) :
  In x (unique_from cmp seen l) <-> In x l /\ ~ In x seen.
Proof.
  revert seen. induction l as [|y t IH]; intros seen; simpl.
  - tauto.
  - destruct (existsb (key_eqb cmp y) seen) eqn:E.
    + apply existsb_key_eqb in E. rewrite IH.
      split; [tauto|]. intros [[->|H] Hn]; tauto.
    + assert (Hy : ~ In y seen).
      { intros H. apply existsb_key_eqb in H. congruence. }
      simpl. rewrite IH. simpl. split.
      * intros [<-|[H Hn]]; [tauto|]. split; [tauto|]. intros Hs. apply Hn. now right.
      * intros [[->|H] Hn]; [tauto|].
        destruct (existsb (key_eqb cmp y) [x]) eqn:Ex.
        -- apply existsb_key_eqb in Ex. destruct Ex as [->|[]]. now left.
        -- right. split; [assumption|]. intros [->|Hs]; [|tauto].
           simpl in Ex. rewrite key_eqb_refl in Ex. discriminate.
Qed.

Lemma NoDup_unique_from (seen l : list K) : NoDup (unique_from cmp seen l).
Proof.
  revert seen. induction l as [|y t IH]; intros seen; simpl.
  - constructor.
  - destruct (existsb (key_eqb cmp y) seen); [apply IH|].
    constructor; [|apply IH].
    rewrite In_unique_from. simpl. tauto.
Qed.

Lemma In_unique (x : K) (l : list K) : In x (unique cmp l) <-> In x l.
Proof. unfold unique. rewrite In_unique_from. simpl. tauto. Qed.

Lemma NoDup_unique (l : list K) : NoDup (unique cmp l).
Proof. apply NoDup_unique_from. Qed.

End SortedKeysFacts.

(** The two key orders of the script: country names and hours. *)

Lemma string_cmp_eq (a b : string) : String.compare a b = Eq <-> a = b.
Proof. apply String_as_OT.cmp_eq. Qed.

Lemma string_cmp_trans (a b c : string) :
  String.compare a b = Lt -> String.compare b c = Lt -> String.compare a c = Lt.
Proof.
  intros H1 H2. apply String_as_OT.cmp_lt.
  apply String_as_OT.cmp_lt in H1. apply String_as_OT.cmp_lt in H2.
  eapply String_as_OT.lt_trans; eassumption.
Qed.

Lemma key_eqb_string (a b : string) :
  key_eqb String.compare a b = String.eqb a b.
Proof.
  destruct (String.eqb a b) eqn:E.
  - apply String.eqb_eq in E. now apply key_eqb_true; [apply string_cmp_eq|].
  - destruct (key_eqb String.compare a b) eqn:E'; [|reflexivity].
    apply (key_eqb_true _ string_cmp_eq) in E'.
    apply String.eqb_neq in E. contradiction.
Qed.

Lemma Z_cmp_eq (a b : Z) : Z.compare a b = Eq <-> a = b.
Proof. apply Z.compare_eq_iff. Qed.

Lemma Z_cmp_trans (a b c : Z) :
  Z.compare a b = Lt -> Z.compare b c = Lt -> Z.compare a c = Lt.
Proof. rewrite !Z.compare_lt_iff. lia. Qed.

Lemma key_eqb_Z (a b : Z) : key_eqb Z.compare a b = Z.eqb a b.
Proof.
  unfold key_eqb. destruct (Z.compare_spec a b) as [->|H|H].
  - now rewrite Z.eqb_refl.
  - symmetry. apply Z.eqb_neq. lia.
  - symmetry. apply Z.eqb_neq. lia.
Qed.

Unset Implicit Arguments.
Local Open Scope list_scope.

(** ** Frames and Series *)

Lemma select_map {A B} (f : A -> bool) (g : A -> B) (l : list A) :
  select (map f l) (map g l) = map g (filter f l).
Proof.
  induction l as [|x t IH]; simpl; [reflexivity|].
  destruct (f x); simpl; now rewrite IH.
Qed.

Lemma select_filter {A} (f : A -> bool) (l : list A) :
  select (map f l) l = filter f l.
Proof.
  rewrite <- (map_id l) at 2. rewrite select_map. apply map_id.
Qed.

Lemma rows_where_country (df : DataFrame) (c : string) :
  rows (where_country df c) = records_of df c.
Proof.
  unfold where_country, records_of, col_Country. simpl.
  rewrite map_map. apply select_filter.
Qed.

Lemma col_where_country (df : DataFrame) (c : string) (m : column) :
  col m (where_country df c) = map (cell m) (records_of df c).
Proof. unfold col. now rewrite rows_where_country. Qed.

Lemma group_cells_country (df : DataFrame) (c : string) (m : column) :
  group_cells String.compare (map Some (col_Country df)) (col m df) c
  = map (cell m) (records_of df c).
Proof.
  unfold group_cells, col_Country, col, records_of.
  rewrite !map_map. simpl.
  rewrite <- select_map. f_equal.
  apply map_ext. intros r. apply key_eqb_string.
Qed.

Lemma present_map_Some {K} (l : list K) : present (map Some l) = l.
Proof. induction l as [|x t IH]; simpl; congruence. Qed.

(** Dropping the missing cells leaves the numbers of the column. *)
Lemma dropna_numbers (s : list value) : dropna s = numbers s.
Proof.
  unfold numbers. induction s as [|[|q] t IH]; simpl; congruence.
Qed.

Lemma dropna_where_country (df : DataFrame) (c : string) (m : column) :
  dropna (col m (where_country df c)) = observed df c m.
Proof. unfold observed. now rewrite col_where_country, dropna_numbers. Qed.

(** The reductions of the code against the notions of the description. *)
Lemma mean_of_average (fp : Float64) (xs : list Q) : mean_of fp xs = average fp xs.
Proof. destruct xs; reflexivity. Qed.

Lemma group_mean_of_average (fp : Float64) (xs : list Q) :
  group_mean_of fp xs = group_average fp xs.
Proof. destruct xs; reflexivity. Qed.

Lemma Series_mean_column (fp : Float64) (df : DataFrame) (c : column) :
  Series_mean fp (col c df) = column_mean fp df c.
Proof.
  unfold Series_mean, column_mean. now rewrite dropna_numbers, mean_of_average.
Qed.

(** The per-country means of a column are the means of the observed values,
    one entry per country, in ascending order of the name. *)
Lemma country_means_spec (fp : Float64) (m : column) (df : DataFrame) :
  country_means fp m df = (Ok (means_of fp df m), df).
Proof.
  unfold country_means, read, groupby_mean, means_of. rewrite present_map_Some.
  f_equal. f_equal. apply map_ext. intros k.
  unfold country_mean, observed.
  now rewrite group_cells_country, dropna_numbers, group_mean_of_average.
Qed.

Lemma Series_get_map {A} (f : string -> A) (ks : list string) (c : string) (d : A) :
  Series_get (map (fun k => (k, f k)) ks) c d =
  if in_dec string_dec c ks then f c else d.
Proof.
  induction ks as [|k t IH]; simpl; [reflexivity|].
  destruct (String.eqb k c) eqn:E.
  - apply String.eqb_eq in E. subst k.
    destruct (string_dec c c); [reflexivity|contradiction].
  - apply String.eqb_neq in E. rewrite IH.
    destruct (string_dec k c); [contradiction|].
    destruct (in_dec string_dec c t); reflexivity.
Qed.

Lemma In_country_keys (df : DataFrame) (c : string) :
  In c (sorted_keys String.compare (col_Country df)) <-> In c (col_Country df).
Proof. apply In_sorted_keys, string_cmp_eq. Qed.

(** What [.get(country, 0)] returns on the means of a column. *)
Lemma Series_get_country_means (fp : Float64) (m : column) (df : DataFrame)
  (c : string) :
  Series_get (means_of fp df m) c (Num 0) = displayed_mean fp df c m.
Proof.
  unfold means_of, displayed_mean. rewrite Series_get_map.
  destruct (in_dec string_dec c (sorted_keys String.compare (col_Country df))) as [H|H];
    destruct (in_dec string_dec c (col_Country df)) as [H'|H']; try reflexivity;
    rewrite In_country_keys in H; contradiction.
Qed.

Lemma format_displayed_mean (fp : Float64) (df : DataFrame) (c : string) (m : column) :
  format_2f (displayed_mean fp df c m) = shown_mean fp df c m.
Proof.
  unfold displayed_mean, shown_mean.
  destruct (in_dec string_dec c (col_Country df)); reflexivity.
Qed.

(** ** Timestamps *)

Lemma In_present {K} (k : K) (l : list (option K)) :
  In k (present l) <-> In (Some k) l.
Proof.
  induction l as [|[x|] t IH]; simpl.
  - tauto.
  - rewrite IH. split; intros [H|H]; auto; left; congruence.
  - rewrite IH. split; [auto|]. intros [H|H]; [discriminate|assumption].
Qed.

Lemma tz_eqb_eq (a b : option Z) : tz_eqb a b = true <-> a = b.
Proof.
  destruct a as [x|], b as [y|]; simpl; try (split; congruence).
  rewrite Z.eqb_eq. split; congruence.
Qed.

(** A column is a datetime64 column exactly when its timestamps are of one
    kind. *)
Lemma one_time_zone_iff (s : list timestamp) :
  one_time_zone s = true <-> same_time_zone s.
Proof.
  unfold one_time_zone, same_time_zone.
  destruct (present s) as [|d0 t] eqn:E.
  - split; [|reflexivity]. intros _ d d' Hd _.
    apply In_present in Hd. rewrite E in Hd. destruct Hd.
  - rewrite forallb_forall. split.
    + intros H d d' Hd Hd'.
      assert (Hto : forall x, In (Some x) s -> utcoffset x = utcoffset d0).
      { intros x Hx. apply In_present in Hx. rewrite E in Hx.
        destruct Hx as [<-|Hx]; [reflexivity|]. now apply tz_eqb_eq, H. }
      now rewrite (Hto d Hd), (Hto d' Hd').
    + intros H x Hx. apply tz_eqb_eq. apply H; apply In_present; rewrite E.
      * now right.
      * now left.
Qed.

Lemma one_time_zone_false (s : list timestamp) :
  one_time_zone s = false <-> ~ same_time_zone s.
Proof.
  rewrite <- one_time_zone_iff. destruct (one_time_zone s); split; congruence.
Qed.

(** The hour of a timestamp is the hour the record was taken at. *)
Lemma hour_of_wall (w h : Z) :
  ((w / 3600) mod 24 = h <->
   3600 * h <= w mod 86400 /\ w mod 86400 < 3600 * h + 3600)%Z.
Proof.
  pose proof (Z.div_mod w 3600 ltac:(lia)) as H1.
  pose proof (Z.mod_pos_bound w 3600 ltac:(lia)) as B1.
  pose proof (Z.div_mod (w / 3600) 24 ltac:(lia)) as H2.
  pose proof (Z.mod_pos_bound (w / 3600) 24 ltac:(lia)) as B2.
  pose proof (Z.div_mod w 86400 ltac:(lia)) as H3.
  pose proof (Z.mod_pos_bound w 86400 ltac:(lia)) as B3.
  lia.
Qed.

Lemma recorded_at_hour_of (h : Z) (r : Row) :
  recorded_at h r = true <-> hour_of (Timestamp r) = Some h.
Proof.
  unfold recorded_at, hour_of. destruct (Timestamp r) as [d|].
  - rewrite andb_true_iff, Z.leb_le, Z.ltb_lt, <- hour_of_wall.
    split; congruence.
  - split; discriminate.
Qed.

Lemma hour_of_range (t : timestamp) (h : Z) :
  hour_of t = Some h -> (0 <= h <= 23)%Z.
Proof.
  unfold hour_of. destruct t as [d|]; [|discriminate]. intros H.
  inversion H. pose proof (Z.mod_pos_bound (wall d / 3600) 24). lia.
Qed.

(** The second conversion of line 64 goes through exactly when the column
    is of one kind, and then hands the column back. *)
Lemma check_datetimes_naive (s : list timestamp) :
  forall i,
    check_datetimes true None i s = None <->
    forall d, In (Some d) s -> utcoffset d = None.
Proof.
  induction s as [|[d|] t IH]; intros i; simpl.
  - split; [intros _ d []|reflexivity].
  - destruct (utcoffset d) as [o|] eqn:E.
    + split; [discriminate|]. intros H.
      specialize (H d (or_introl eq_refl)). congruence.
    + rewrite IH. split.
      * intros H d' [Hd|Hd]; [inversion Hd; now subst|now apply H].
      * intros H d' Hd. apply H. now right.
  - rewrite IH. split.
    + intros H d [Hd|Hd]; [discriminate|now apply H].
    + intros H d Hd. apply H. now right.
Qed.

Lemma check_datetimes_aware (s : list timestamp) (o : Z) :
  forall i,
    check_datetimes false (Some o) i s = None <->
    forall d, In (Some d) s -> utcoffset d = Some o.
Proof.
  induction s as [|[d|] t IH]; intros i; simpl.
  - split; [intros _ d []|reflexivity].
  - destruct (utcoffset d) as [o'|] eqn:E.
    + destruct (Z.eqb_spec o o') as [<-|Hn].
      * rewrite IH. split.
        -- intros H d' [Hd|Hd]; [inversion Hd; now subst|now apply H].
        -- intros H d' Hd. apply H. now right.
      * split; [discriminate|]. intros H.
        specialize (H d (or_introl eq_refl)). congruence.
    + split; [discriminate|]. intros H.
      specialize (H d (or_introl eq_refl)). congruence.
  - rewrite IH. split.
    + intros H d [Hd|Hd]; [discriminate|now apply H].
    + intros H d Hd. apply H. now right.
Qed.

Lemma check_datetimes_start (s : list timestamp) :
  forall i, check_datetimes false None i s = None <-> same_time_zone s.
Proof.
  unfold same_time_zone. induction s as [|[d|] t IH]; intros i; simpl.
  - split; [intros _ d d' []|reflexivity].
  - destruct (utcoffset d) as [o|] eqn:E.
    + rewrite check_datetimes_aware. split.
      * intros H d1 d2 [H1|H1] [H2|H2].
        -- congruence.
        -- inversion H1; subst. now rewrite (H _ H2).
        -- inversion H2; subst. now rewrite (H _ H1).
        -- now rewrite (H _ H1), (H _ H2).
      * intros H d' Hd. rewrite <- E. apply H; [now right|now left].
    + rewrite check_datetimes_naive. split.
      * intros H d1 d2 [H1|H1] [H2|H2].
        -- congruence.
        -- inversion H1; subst. now rewrite (H _ H2).
        -- inversion H2; subst. now rewrite (H _ H1).
        -- now rewrite (H _ H1), (H _ H2).
      * intros H d' Hd. rewrite <- E. apply H; [now right|now left].
  - rewrite IH. split.
    + intros H d1 d2 [H1|H1] [H2|H2]; try discriminate. now apply H.
    + intros H d1 d2 H1 H2. apply H; now right.
Qed.

Lemma to_datetime_parsed_Ok (s : list timestamp) :
  same_time_zone s -> to_datetime_parsed s = Ok s.
Proof.
  intros H. unfold to_datetime_parsed.
  now rewrite (proj2 (check_datetimes_start s 0) H).
Qed.

Lemma to_datetime_parsed_Raise (s : list timestamp) :
  ~ same_time_zone s -> exists msg, to_datetime_parsed s = Raise (ValueError msg).
Proof.
  intros H. unfold to_datetime_parsed.
  destruct (check_datetimes false None 0 s) as [e|] eqn:E.
  - assert (Hv : forall fn tz i l e',
               check_datetimes fn tz i l = Some e' -> exists msg, e' = ValueError msg).
    { clear. intros fn tz i l. revert fn tz i.
      induction l as [|[d|] t IH]; intros fn tz i e'; simpl; [discriminate| |apply IH].
      destruct (utcoffset d) as [o|].
      - destruct fn; [intros H; inversion H; eauto|].
        destruct tz as [o'|]; [|apply IH].
        destruct (Z.eqb o' o); [apply IH|intros H; inversion H; eauto].
      - destruct tz; [intros H; inversion H; eauto|apply IH]. }
    destruct (Hv _ _ _ _ _ E) as [msg ->]. now exists msg.
  - exfalso. apply H. now apply (check_datetimes_start s 0).
Qed.

Lemma with_Timestamp_id (r : Row) : with_Timestamp r (Timestamp r) = r.
Proof. destruct r. reflexivity. Qed.

Lemma set_Timestamp_id (df : DataFrame) : set_Timestamp (col_Timestamp df) df = df.
Proof.
  destruct df as [rs h]. unfold set_Timestamp, col_Timestamp. cbn [rows Hour].
  f_equal. induction rs as [|r t IH]; simpl; [reflexivity|].
  now rewrite with_Timestamp_id, IH.
Qed.

(** ** The monad *)

Lemma read_only_ret {A} (a : A) : read_only (ret a).
Proof. intros df. reflexivity. Qed.

Lemma read_only_read {A} (f : DataFrame -> A) : read_only (read f).
Proof. intros df. reflexivity. Qed.

Lemma read_only_lift {A} (r : result A) : read_only (lift r).
Proof. intros df. reflexivity. Qed.

Lemma read_only_bind {A B} (m : M A) (k : A -> M B) :
  read_only m -> (forall a, read_only (k a)) -> read_only (bind m k).
Proof.
  intros Hm Hk df. unfold bind. specialize (Hm df).
  destruct (m df) as [[a|e] df']; simpl in *; subst df'.
  - apply Hk.
  - reflexivity.
Qed.

Create HintDb readonly.
#[local] Hint Resolve read_only_ret read_only_read read_only_lift : readonly.
#[local] Hint Extern 2 (read_only (bind _ _)) =>
  apply read_only_bind; [|intro] : readonly.

Lemma bind_ok {A B} (m : M A) (k : A -> M B) (df df' : DataFrame) (a : A) :
  m df = (Ok a, df') -> bind m k df = k a df'.
Proof. intros H. unfold bind. now rewrite H. Qed.

(** ** Effects on the frame *)

Lemma read_only_summary_loop (fp : Float64) (countries : list string) :
  forall acc, read_only (summary_loop fp countries acc).
Proof.
  induction countries as [|c t IH]; intros acc; simpl.
  - auto with readonly.
  - apply read_only_bind; [apply read_only_read|]. intros d. apply IH.
Qed.

Lemma read_only_summary_statistics_table (fp : Float64) :
  read_only (summary_statistics_table fp).
Proof.
  unfold summary_statistics_table, summary_data, unique_countries.
  apply read_only_bind.
  - apply read_only_bind; [apply read_only_read|].
    intros cs. apply read_only_summary_loop.
  - intros data. apply read_only_lift.
Qed.

Lemma read_only_key_observations (fp : Float64) : read_only (key_observations fp).
Proof.
  unfold key_observations, country_means.
  repeat (apply read_only_bind; [auto with readonly|intro]).
  apply read_only_ret.
Qed.

Lemma read_only_generate_key_observations (fp : Float64) :
  read_only (generate_key_observations fp).
Proof.
  unfold generate_key_observations.
  apply read_only_bind; [apply read_only_key_observations|].
  intros ps. apply read_only_ret.
Qed.

Lemma dt_hour_Ok (s : list timestamp) :
  same_time_zone s -> dt_hour s = Ok (map hour_of s).
Proof.
  intros H. unfold dt_hour. now rewrite (proj2 (one_time_zone_iff s) H).
Qed.

Lemma dt_hour_Raise (s : list timestamp) :
  ~ same_time_zone s ->
  dt_hour s = Raise (AttributeError "Can only use .dt accessor with datetimelike values").
Proof.
  intros H. unfold dt_hour. now rewrite (proj2 (one_time_zone_false s) H).
Qed.

(** From the assignment of line 152 on, the function only reads. *)
Lemma country_insights_frame (fp : Float64) (country : string) (df : DataFrame) :
  rows df <> [] -> same_time_zone (col_Timestamp df) ->
  snd (country_insights fp country df) = set_Hour (map hour_of (col_Timestamp df)) df.
Proof.
  intros Hne Hz. unfold country_insights, bind at 1, read at 1, empty.
  destruct (rows df) as [|r t] eqn:E; [contradiction|].
  unfold peak_hour_of, bind, try_read, read, assign, lift, ret.
  rewrite (dt_hour_Ok _ Hz).
  destruct (idxmax _); reflexivity.
Qed.

(** On a Timestamp column that is not a datetime64 column, line 152 raises
    before anything is assigned. *)
Lemma country_insights_mixed (fp : Float64) (country : string) (df : DataFrame) :
  rows df <> [] -> ~ same_time_zone (col_Timestamp df) ->
  country_insights fp country df
  = (Raise (AttributeError "Can only use .dt accessor with datetimelike values"), df).
Proof.
  intros Hne Hz. unfold country_insights, bind at 1, read at 1, empty.
  destruct (rows df) as [|r t] eqn:E; [contradiction|].
  unfold peak_hour_of, bind, try_read.
  now rewrite (dt_hour_Raise _ Hz).
Qed.

(** C9, amended: the summary computation and the key observations leave the
    frame they work on as it was, whatever their outcome; the per-country
    insight leaves an absent or empty frame as it was; on a frame with
    records whose timestamps are of one kind it sets the Hour column to
    the hour of each timestamp and leaves the records as they were; on a
    frame whose timestamps mix time zones it raises before it assigns
    anything. *)
Theorem frame_effects (fp : Float64) (df : DataFrame) (country : string) :
  snd (summary_statistics_table fp df) = df /\
  snd (generate_key_observations fp df) = df /\
  snd (generate_country_insights fp None country) = None /\
  (rows df = [] ->
   snd (generate_country_insights fp (Some df) country) = Some df) /\
  (rows df <> [] -> same_time_zone (col_Timestamp df) ->
   exists df',
     snd (generate_country_insights fp (Some df) country) = Some df' /\
     rows df' = rows df /\
     Hour df' = Some (map hour_of (col_Timestamp df))) /\
  (rows df <> [] -> ~ same_time_zone (col_Timestamp df) ->
   generate_country_insights fp (Some df) country
   = (Raise (AttributeError "Can only use .dt accessor with datetimelike values"),
      Some df)).
Proof.
  split; [apply read_only_summary_statistics_table|].
  split; [apply read_only_generate_key_observations|].
  split; [reflexivity|].
  split; [|split].
  - intros E. unfold generate_country_insights, country_insights, bind, read, empty.
    rewrite E. reflexivity.
  - intros Hne Hz. exists (set_Hour (map hour_of (col_Timestamp df)) df).
    split; [|split; reflexivity].
    unfold generate_country_insights.
    rewrite <- (country_insights_frame fp country df Hne Hz).
    destruct (country_insights fp country df); reflexivity.
  - intros Hne Hz. unfold generate_country_insights.
    now rewrite (country_insights_mixed fp country df Hne Hz).
Qed.

Lemma one_record_same_time_zone : same_time_zone (col_Timestamp one_record).
Proof. now apply one_time_zone_iff. Qed.

(** In [one_record] the reading was taken at 9 o'clock. *)
Lemma frame_effects_witness :
  (exists df',
     snd (generate_country_insights exact_arithmetic (Some one_record) "Benin")
     = Some df' /\
     rows df' = rows one_record /\
     Hour df' = Some (map hour_of (col_Timestamp one_record))) /\
  snd (generate_country_insights exact_arithmetic (Some one_record) "Benin")
  = Some {| rows := rows one_record; Hour := Some [Some 9%Z] |}.
Proof.
  split.
  - apply (frame_effects exact_arithmetic one_record "Benin").
    + simpl. discriminate.
    + exact one_record_same_time_zone.
  - vm_compute. reflexivity.
Defined.

(** C9 as stated fails: the per-country insight hands back a frame that is
    not the one it was given. *)
Lemma per_country_insight_changes_its_argument :
  snd (generate_country_insights exact_arithmetic (Some one_record) "Benin")
  <> Some one_record.
Proof. vm_compute. discriminate. Qed.

(** A frame that mixes a tz-naive and a tz-aware timestamp is handed back
    as it was, with the AttributeError of the [.dt] accessor. *)
Lemma insight_on_mixed_zones :
  generate_country_insights exact_arithmetic (Some mixed_zones) "Togo"
  = (Raise (AttributeError "Can only use .dt accessor with datetimelike values"),
     Some mixed_zones).
Proof. vm_compute. reflexivity. Qed.

(** ** The per-country insight on no data *)

(** C5: on [None] and on a frame without records the function returns the
    placeholder text, raises nothing, and leaves the argument as it was. *)
Theorem no_data_placeholder (fp : Float64) (country : string) :
  generate_country_insights fp None country = (Ok "No data available.", None) /\
  forall hour,
    generate_country_insights fp (Some {| rows := []; Hour := hour |}) country
    = (Ok "No data available.", Some {| rows := []; Hour := hour |}).
Proof. split; [reflexivity|]. intros hour. reflexivity. Qed.
(** ** Positional access *)

Lemma getitem_nat {A} (l : list A) (i : nat) (x : A) :
  nth_error l i = Some x -> getitem l (Z.of_nat i) = Ok x.
Proof.
  intros H. unfold getitem.
  assert (Hlt : (i < length l)%nat) by (apply nth_error_Some; congruence).
  destruct (Z.ltb_spec (Z.of_nat i) 0); [lia|].
  destruct (Z.leb_spec 0 (Z.of_nat i)); [|lia].
  destruct (Z.ltb_spec (Z.of_nat i) (Z.of_nat (length l))); [|lia].
  simpl. now rewrite Nat2Z.id, H.
Qed.

Lemma getitem_in_range {A} (l : list A) (i : Z) :
  (- Z.of_nat (length l) <= i < Z.of_nat (length l))%Z ->
  exists x, getitem l i = Ok x /\ In x l.
Proof.
  intros H. unfold getitem.
  set (n := Z.of_nat (length l)) in *.
  set (j := if (i <? 0)%Z then (i + n)%Z else i).
  assert (Hj : (0 <= j < n)%Z).
  { unfold j. destruct (Z.ltb_spec i 0); lia. }
  destruct (Z.leb_spec 0 j); [|lia].
  destruct (Z.ltb_spec j n); [|lia]. simpl.
  destruct (nth_error l (Z.to_nat j)) as [x|] eqn:E.
  - exists x. split; [reflexivity|]. eapply nth_error_In; eassumption.
  - apply nth_error_None in E. unfold n in *. lia.
Qed.

(** ** [argsort] *)

Lemma In_arg_insert (p x : nat * Q) (l : list (nat * Q)) :
  In x (arg_insert p l) <-> x = p \/ In x l.
Proof.
  induction l as [|y t IH]; simpl.
  - intuition.
  - destruct (Qle_bool (snd p) (snd y)); simpl; [intuition|].
    rewrite IH. intuition.
Qed.

Lemma In_arg_sorted (x : nat * Q) (l : list (nat * Q)) :
  In x (fold_right arg_insert [] l) <-> In x l.
Proof.
  induction l as [|y t IH]; simpl; [tauto|].
  rewrite In_arg_insert, IH. intuition.
Qed.

Lemma length_arg_insert (p : nat * Q) (l : list (nat * Q)) :
  length (arg_insert p l) = S (length l).
Proof.
  induction l as [|y t IH]; simpl; [reflexivity|].
  destruct (Qle_bool (snd p) (snd y)); simpl; congruence.
Qed.

Lemma length_arg_sorted (l : list (nat * Q)) :
  length (fold_right arg_insert [] l) = length l.
Proof.
  induction l as [|y t IH]; simpl; [reflexivity|].
  now rewrite length_arg_insert, IH.
Qed.

Lemma length_argsort (xs : list Q) : length (argsort xs) = length xs.
Proof.
  unfold argsort.
  rewrite length_map, length_arg_sorted, length_combine, length_seq.
  apply Nat.min_id.
Qed.

(** The pairs that [argsort] orders are the positions with their values. *)
Lemma In_combine_seq (xs : list Q) (a i : nat) (q : Q) :
  In (i, q) (combine (seq a (length xs)) xs) <->
  (a <= i)%nat /\ nth_error xs (i - a) = Some q.
Proof.
  revert a. induction xs as [|x t IH]; intros a; simpl.
  - split; [tauto|]. intros [_ H]. destruct (i - a)%nat; discriminate.
  - rewrite IH. split.
    + intros [H|[H1 H2]].
      * inversion H; subst. split; [lia|]. now rewrite Nat.sub_diag.
      * split; [lia|]. replace (i - a)%nat with (S (i - S a)) by lia. exact H2.
    + intros [H1 H2]. destruct (i - a)%nat as [|n] eqn:E.
      * left. simpl in H2. inversion H2. f_equal. lia.
      * right. split; [lia|]. simpl in H2.
        replace (i - S a)%nat with n by lia. exact H2.
Qed.

Lemma In_argsort_lt (xs : list Q) (i : nat) :
  In i (argsort xs) -> (i < length xs)%nat.
Proof.
  unfold argsort. rewrite in_map_iff. intros [[j q] [<- H]].
  apply In_arg_sorted, In_combine_seq in H. destruct H as [_ H].
  simpl. rewrite Nat.sub_0_r in H. apply nth_error_Some. congruence.
Qed.



Lemma length_scatter (s : list value) :
  forall idx, length idx = length (dropna s) -> length (scatter s idx) = length s.
Proof.
  induction s as [|[|q] t IH]; intros idx H; simpl in *.
  - reflexivity.
  - now rewrite IH.
  - destruct idx as [|i idx']; [discriminate|]. simpl. rewrite IH; [reflexivity|].
    now inversion H.
Qed.

Lemma In_scatter (s : list value) (x : Z) :
  forall idx, In x (scatter s idx) -> x = (-1)%Z \/ In x idx.
Proof.
  induction s as [|[|q] t IH]; intros idx H; simpl in *.
  - destruct H.
  - destruct H as [<-|H]; [now left|now apply IH].
  - destruct idx as [|i idx']; [destruct H|].
    destruct H as [<-|H]; [right; now left|].
    destruct (IH _ H) as [->|H']; [now left|right; now right].
Qed.

Lemma length_dropna_le (s : list value) : (length (dropna s) <= length s)%nat.
Proof. induction s as [|[|q] t IH]; simpl; lia. Qed.

Lemma length_Series_argsort (s : list value) :
  length (Series_argsort s) = length s.
Proof.
  unfold Series_argsort. destruct (existsb isna s) eqn:E.
  - apply length_scatter. now rewrite length_map, length_argsort.
  - rewrite length_map, length_argsort.
    induction s as [|[|q] t IH]; simpl in *; [reflexivity|discriminate|].
    now rewrite IH.
Qed.

Lemma Series_argsort_range (s : list value) (x : Z) :
  In x (Series_argsort s) -> (-1 <= x < Z.of_nat (length s))%Z.
Proof.
  unfold Series_argsort. intros H.
  assert (Hs : In x (map Z.of_nat (argsort (dropna s))) ->
               (-1 <= x < Z.of_nat (length s))%Z).
  { rewrite in_map_iff. intros [i [<- Hi]]. apply In_argsort_lt in Hi.
    pose proof (length_dropna_le s). lia. }
  destruct (existsb isna s) eqn:E; [|auto].
  apply In_scatter in H. destruct H as [->|H]; [|auto].
  destruct s; [discriminate|]. simpl length. lia.
Qed.

(** ** The key observations *)

Lemma getitem_map {A B} (f : A -> B) (l : list A) (i : Z) :
  getitem (map f l) i =
  match getitem l i with
  | Ok x => Ok (f x)
  | Raise e => Raise e
  end.
Proof.
  unfold getitem. rewrite length_map.
  destruct ((0 <=? _)%Z && _)%bool; [|reflexivity].
  rewrite nth_error_map.
  destruct (nth_error l _); reflexivity.
Qed.


(** The method, with the groupby means replaced by what they are. *)
Lemma key_observations_unfold (fp : Float64) (df : DataFrame) :
  fst (key_observations fp df) =
  match getitem (Series_argsort
                   (map (distance_to_25 fp) (map snd (means_of fp df cTamb)))) 0 with
  | Raise e => Raise e
  | Ok i =>
      match getitem (means_of fp df cTamb) i with
      | Raise e => Raise e
      | Ok (c, v) =>
          Ok (observations_template
                (displayed_mean fp df "Benin" cGHI) (displayed_mean fp df "Togo" cGHI)
                (displayed_mean fp df "Sierra Leone" cGHI)
                (displayed_mean fp df "Benin" cDNI)
                c v)
      end
  end.
Proof.
  unfold key_observations.
  rewrite (@bind_ok _ _ _ _ _ _ _ (country_means_spec fp cTamb df)).
  change (fun v => vabs (vsub fp v (Num 25))) with (distance_to_25 fp).
  unfold bind at 1, lift at 1.
  destruct (getitem (Series_argsort _) 0) as [i|e]; [|reflexivity].
  unfold bind at 1, lift at 1. rewrite getitem_map.
  destruct (getitem (means_of fp df cTamb) i) as [[c v]|e] eqn:E; [|reflexivity].
  unfold bind at 1, lift at 1. rewrite getitem_map, E.
  rewrite (@bind_ok _ _ _ _ _ _ _ (country_means_spec fp cGHI df)).
  rewrite (@bind_ok _ _ _ _ _ _ _ (country_means_spec fp cDNI df)).
  rewrite (@bind_ok _ _ _ _ _ _ _ (country_means_spec fp cDHI df)).
  unfold ret. simpl fst.
  rewrite !Series_get_country_means. reflexivity.
Qed.

Lemma means_of_nonempty (fp : Float64) (df : DataFrame) (c : column) :
  rows df <> [] -> means_of fp df c <> [].
Proof.
  intros Hne E. unfold means_of in E. apply map_eq_nil in E.
  destruct (rows df) as [|r t] eqn:Er; [congruence|].
  assert (H : In (Country r) (sorted_keys String.compare (col_Country df))).
  { apply In_country_keys. unfold col_Country. rewrite Er. now left. }
  rewrite E in H. destruct H.
Qed.

(** On a frame with at least one record the method returns: the position
    [argsort] yields is -1 or a valid position. *)
Lemma key_observations_selection (fp : Float64) (df : DataFrame) :
  rows df <> [] ->
  exists i c v,
    getitem (Series_argsort
               (map (distance_to_25 fp) (map snd (means_of fp df cTamb)))) 0 = Ok i /\
    getitem (means_of fp df cTamb) i = Ok (c, v) /\ In (c, v) (means_of fp df cTamb).
Proof.
  intros Hne. pose proof (means_of_nonempty fp df cTamb Hne) as Hm.
  set (tm := means_of fp df cTamb) in *.
  set (s := map (distance_to_25 fp) (map snd tm)).
  assert (Hlen : length s = length tm) by (unfold s; now rewrite !length_map).
  assert (Hpos : (0 < length tm)%nat).
  { destruct tm; [congruence|simpl; lia]. }
  destruct (@getitem_in_range _ (Series_argsort s) 0) as [i [Hi Hin]].
  { rewrite length_Series_argsort, Hlen. lia. }
  apply Series_argsort_range in Hin. rewrite Hlen in Hin.
  destruct (@getitem_in_range _ tm i) as [[c v] [Hc Hcin]]; [lia|].
  exists i, c, v. auto.
Qed.

Lemma generate_key_observations_render (fp : Float64) (df : DataFrame) :
  fst (generate_key_observations fp df) =
  match fst (key_observations fp df) with
  | Ok ps => Ok (render ps)
  | Raise e => Raise e
  end.
Proof.
  unfold generate_key_observations, bind, ret.
  destruct (key_observations fp df) as [[ps|e] df']; reflexivity.
Qed.

Lemma In_means_of (fp : Float64) (df : DataFrame) (m : column) (c : string) (v : value) :
  In (c, v) (means_of fp df m) <->
  In c (col_Country df) /\ v = country_mean fp df c m.
Proof.
  unfold means_of. rewrite in_map_iff. split.
  - intros [k [E Hk]]. inversion E; subst. split; [|reflexivity].
    now apply In_country_keys.
  - intros [Hc ->]. exists c. split; [reflexivity|]. now apply In_country_keys.
Qed.

(** The text of the key observations, read off the f-string. *)
Lemma render_observations (g1 g2 g3 d : value) (c : string) (v : value) :
  render (observations_template g1 g2 g3 d c v)
  = (nl ++ "        📊 SOLAR POTENTIAL RANKING:" ++ nl
     ++ "        1. Benin: Avg GHI " ++ format_2f g1 ++ " W/m²" ++ nl
     ++ "        2. Togo: Avg GHI " ++ format_2f g2 ++ " W/m²" ++ nl
     ++ "        3. Sierra Leone: Avg GHI " ++ format_2f g3 ++ " W/m²" ++ nl
     ++ "        " ++ nl
     ++ "        🎯 TOP INSIGHTS:" ++ nl
     ++ "        1. Highest Solar Potential: Benin (" ++ format_2f g1
     ++ " W/m² GHI)" ++ nl
     ++ "        2. Best DNI: Benin (" ++ format_2f d ++ " W/m²)" ++ nl
     ++ "        3. Optimal Temperature: " ++ c ++ " (" ++ format_2f v ++ "°C)" ++ nl
     ++ "        ")%string.
Proof. reflexivity. Qed.

(** What the method returns on a frame with at least one record. *)
Lemma key_observations_text (fp : Float64) (df : DataFrame) :
  rows df <> [] ->
  exists c,
    In c (col_Country df) /\
    fst (generate_key_observations fp df) =
    Ok (render (observations_template
                  (displayed_mean fp df "Benin" cGHI) (displayed_mean fp df "Togo" cGHI)
                  (displayed_mean fp df "Sierra Leone" cGHI)
                  (displayed_mean fp df "Benin" cDNI)
                  c (country_mean fp df c cTamb))).
Proof.
  intros Hne.
  destruct (key_observations_selection fp df Hne) as [i [c [v [Hi [Hc Hin]]]]].
  apply In_means_of in Hin. destruct Hin as [Hcin ->].
  exists c. split; [exact Hcin|].
  now rewrite generate_key_observations_render, key_observations_unfold, Hi, Hc.
Qed.

Lemma key_observations_raise_without_records (fp : Float64) (df : DataFrame) :
  rows df = [] ->
  fst (generate_key_observations fp df)
  = Raise (IndexError "index 0 is out of bounds for axis 0 with size 0").
Proof.
  intros E. rewrite generate_key_observations_render, key_observations_unfold.
  unfold means_of, col_Country. rewrite E. reflexivity.
Qed.

(** C1: whatever the frame, a text that comes out reads as follows: the
    ranking lists Benin, Togo and Sierra Leone in that order, the highest
    potential and the best DNI go to Benin, and next to each name stands
    the mean looked up for that name, whatever the means are.  Only the
    last line names a country taken from the data, a country of the frame
    with its own mean temperature.  A text comes out for every frame with
    at least one record. *)
Theorem ranking_is_literal (fp : Float64) (df : DataFrame) :
  (forall text,
     fst (generate_key_observations fp df) = Ok text ->
     exists c,
       In c (col_Country df) /\
       text
       = (nl ++ "        📊 SOLAR POTENTIAL RANKING:" ++ nl
          ++ "        1. Benin: Avg GHI " ++ shown_mean fp df "Benin" cGHI
          ++ " W/m²" ++ nl
          ++ "        2. Togo: Avg GHI " ++ shown_mean fp df "Togo" cGHI
          ++ " W/m²" ++ nl
          ++ "        3. Sierra Leone: Avg GHI " ++ shown_mean fp df "Sierra Leone" cGHI
          ++ " W/m²" ++ nl
          ++ "        " ++ nl
          ++ "        🎯 TOP INSIGHTS:" ++ nl
          ++ "        1. Highest Solar Potential: Benin ("
          ++ shown_mean fp df "Benin" cGHI ++ " W/m² GHI)" ++ nl
          ++ "        2. Best DNI: Benin (" ++ shown_mean fp df "Benin" cDNI
          ++ " W/m²)" ++ nl
          ++ "        3. Optimal Temperature: " ++ c ++ " ("
          ++ format_2f (country_mean fp df c cTamb) ++ "°C)" ++ nl
          ++ "        ")%string) /\
  (rows df <> [] ->
   exists text, fst (generate_key_observations fp df) = Ok text).
Proof.
  split.
  - intros text H.
    destruct (rows df) as [|r0 t0] eqn:Er.
    + rewrite (key_observations_raise_without_records fp df Er) in H. discriminate.
    + destruct (key_observations_text fp df) as [c [Hc Ht]].
      { rewrite Er. discriminate. }
      rewrite Ht in H. inversion H as [Htext]. exists c. split; [exact Hc|].
      rewrite render_observations, !format_displayed_mean. reflexivity.
  - intros Hne. destruct (key_observations_text fp df Hne) as [c [_ Ht]].
    eexists. exact Ht.
Qed.

(** Togo has the larger mean GHI and the larger mean DNI in [togo_first];
    the text ranks Benin first all the same. *)
Lemma ranking_is_literal_witness :
  shown_mean exact_arithmetic togo_first "Benin" cGHI = "3.00"%string /\
  shown_mean exact_arithmetic togo_first "Togo" cGHI = "300.00"%string /\
  fst (generate_key_observations exact_arithmetic togo_first)
  = Ok (nl ++ "        📊 SOLAR POTENTIAL RANKING:" ++ nl
        ++ "        1. Benin: Avg GHI 3.00 W/m²" ++ nl
        ++ "        2. Togo: Avg GHI 300.00 W/m²" ++ nl
        ++ "        3. Sierra Leone: Avg GHI 0.00 W/m²" ++ nl
        ++ "        " ++ nl
        ++ "        🎯 TOP INSIGHTS:" ++ nl
        ++ "        1. Highest Solar Potential: Benin (3.00 W/m² GHI)" ++ nl
        ++ "        2. Best DNI: Benin (2.00 W/m²)" ++ nl
        ++ "        3. Optimal Temperature: Togo (25.00°C)" ++ nl
        ++ "        ")%string /\
  exists c,
    In c (col_Country togo_first) /\
    (nl ++ "        📊 SOLAR POTENTIAL RANKING:" ++ nl
     ++ "        1. Benin: Avg GHI 3.00 W/m²" ++ nl
     ++ "        2. Togo: Avg GHI 300.00 W/m²" ++ nl
     ++ "        3. Sierra Leone: Avg GHI 0.00 W/m²" ++ nl
     ++ "        " ++ nl
     ++ "        🎯 TOP INSIGHTS:" ++ nl
     ++ "        1. Highest Solar Potential: Benin (3.00 W/m² GHI)" ++ nl
     ++ "        2. Best DNI: Benin (2.00 W/m²)" ++ nl
     ++ "        3. Optimal Temperature: Togo (25.00°C)" ++ nl
     ++ "        ")%string
    = (nl ++ "        📊 SOLAR POTENTIAL RANKING:" ++ nl
       ++ "        1. Benin: Avg GHI " ++ shown_mean exact_arithmetic togo_first "Benin" cGHI
       ++ " W/m²" ++ nl
       ++ "        2. Togo: Avg GHI " ++ shown_mean exact_arithmetic togo_first "Togo" cGHI
       ++ " W/m²" ++ nl
       ++ "        3. Sierra Leone: Avg GHI "
       ++ shown_mean exact_arithmetic togo_first "Sierra Leone" cGHI
       ++ " W/m²" ++ nl
       ++ "        " ++ nl
       ++ "        🎯 TOP INSIGHTS:" ++ nl
       ++ "        1. Highest Solar Potential: Benin ("
       ++ shown_mean exact_arithmetic togo_first "Benin" cGHI ++ " W/m² GHI)" ++ nl
       ++ "        2. Best DNI: Benin (" ++ shown_mean exact_arithmetic togo_first "Benin" cDNI
       ++ " W/m²)" ++ nl
       ++ "        3. Optimal Temperature: " ++ c ++ " ("
       ++ format_2f (country_mean exact_arithmetic togo_first c cTamb) ++ "°C)" ++ nl
       ++ "        ")%string.
Proof.
  split; [vm_compute; reflexivity|]. split; [vm_compute; reflexivity|].
  split; [vm_compute; reflexivity|].
  apply (proj1 (ranking_is_literal exact_arithmetic togo_first)).
  vm_compute. reflexivity.
Defined.

(** C6, amended: on a frame with at least one record the text is returned,
    and for each of Benin, Togo and Sierra Leone that has no record in the
    frame the lookup of its mean yields the default 0, shown as "0.00",
    instead of raising. *)
Theorem absent_country_shows_zero (fp : Float64) (df : DataFrame) :
  rows df <> [] ->
  exists g1 g2 g3 d c v,
    fst (generate_key_observations fp df)
    = Ok (nl ++ "        📊 SOLAR POTENTIAL RANKING:" ++ nl
          ++ "        1. Benin: Avg GHI " ++ g1 ++ " W/m²" ++ nl
          ++ "        2. Togo: Avg GHI " ++ g2 ++ " W/m²" ++ nl
          ++ "        3. Sierra Leone: Avg GHI " ++ g3 ++ " W/m²" ++ nl
          ++ "        " ++ nl
          ++ "        🎯 TOP INSIGHTS:" ++ nl
          ++ "        1. Highest Solar Potential: Benin (" ++ g1 ++ " W/m² GHI)" ++ nl
          ++ "        2. Best DNI: Benin (" ++ d ++ " W/m²)" ++ nl
          ++ "        3. Optimal Temperature: " ++ c ++ " (" ++ v ++ "°C)" ++ nl
          ++ "        ")%string /\
    (~ In "Benin"%string (col_Country df) -> g1 = "0.00"%string /\ d = "0.00"%string) /\
    (~ In "Togo"%string (col_Country df) -> g2 = "0.00"%string) /\
    (~ In "Sierra Leone"%string (col_Country df) -> g3 = "0.00"%string).
Proof.
  intros Hne. destruct (key_observations_text fp df Hne) as [c [_ Ht]].
  exists (shown_mean fp df "Benin" cGHI), (shown_mean fp df "Togo" cGHI),
    (shown_mean fp df "Sierra Leone" cGHI), (shown_mean fp df "Benin" cDNI),
    c, (format_2f (country_mean fp df c cTamb)).
  split.
  { rewrite Ht, render_observations, !format_displayed_mean. reflexivity. }
  unfold shown_mean.
  split; [|split]; intros Habs.
  - destruct (in_dec string_dec "Benin"%string (col_Country df)); [contradiction|].
    split; reflexivity.
  - destruct (in_dec string_dec "Togo"%string (col_Country df)); [contradiction|].
    reflexivity.
  - destruct (in_dec string_dec "Sierra Leone"%string (col_Country df));
      [contradiction|]. reflexivity.
Qed.

(** In [one_record] only Benin has a record. *)
Lemma absent_country_shows_zero_witness :
  (exists g1 g2 g3 d c v,
     fst (generate_key_observations exact_arithmetic one_record)
     = Ok (nl ++ "        📊 SOLAR POTENTIAL RANKING:" ++ nl
           ++ "        1. Benin: Avg GHI " ++ g1 ++ " W/m²" ++ nl
           ++ "        2. Togo: Avg GHI " ++ g2 ++ " W/m²" ++ nl
           ++ "        3. Sierra Leone: Avg GHI " ++ g3 ++ " W/m²" ++ nl
           ++ "        " ++ nl
           ++ "        🎯 TOP INSIGHTS:" ++ nl
           ++ "        1. Highest Solar Potential: Benin (" ++ g1 ++ " W/m² GHI)" ++ nl
           ++ "        2. Best DNI: Benin (" ++ d ++ " W/m²)" ++ nl
           ++ "        3. Optimal Temperature: " ++ c ++ " (" ++ v ++ "°C)" ++ nl
           ++ "        ")%string /\
     (~ In "Benin"%string (col_Country one_record) ->
      g1 = "0.00"%string /\ d = "0.00"%string) /\
     (~ In "Togo"%string (col_Country one_record) -> g2 = "0.00"%string) /\
     (~ In "Sierra Leone"%string (col_Country one_record) -> g3 = "0.00"%string)) /\
  fst (generate_key_observations exact_arithmetic one_record)
  = Ok (nl ++ "        📊 SOLAR POTENTIAL RANKING:" ++ nl
        ++ "        1. Benin: Avg GHI 40.00 W/m²" ++ nl
        ++ "        2. Togo: Avg GHI 0.00 W/m²" ++ nl
        ++ "        3. Sierra Leone: Avg GHI 0.00 W/m²" ++ nl
        ++ "        " ++ nl
        ++ "        🎯 TOP INSIGHTS:" ++ nl
        ++ "        1. Highest Solar Potential: Benin (40.00 W/m² GHI)" ++ nl
        ++ "        2. Best DNI: Benin (10.00 W/m²)" ++ nl
        ++ "        3. Optimal Temperature: Benin (31.00°C)" ++ nl
        ++ "        ")%string.
Proof.
  split.
  - apply (absent_country_shows_zero exact_arithmetic one_record). discriminate.
  - vm_compute. reflexivity.
Defined.

(** C6 as stated fails on a frame without records: each of the three
    countries is absent from the means, and the method raises, at
    [argsort()[0]], before it reaches a lookup.  Three files that hold
    their header line only load into such a frame. *)
Lemma no_record_raises_before_the_lookup :
  (exists countries log,
     load_data header_only_env = (Ok (Some no_frame, countries), log)) /\
  ~ In "Benin"%string (col_Country no_frame) /\
  ~ In "Togo"%string (col_Country no_frame) /\
  ~ In "Sierra Leone"%string (col_Country no_frame) /\
  fst (generate_key_observations exact_arithmetic no_frame)
  = Raise (IndexError "index 0 is out of bounds for axis 0 with size 0").
Proof.
  split; [do 2 eexists; vm_compute; reflexivity|].
  repeat split; simpl; tauto.
Qed.

(** ** The country closest to 25 degrees *)

(** C2, at a frame where the code departs from it.  In [no_temperature]
    the mean temperature of Togo is 25, strictly closest to 25, the mean of
    Benin is 20, and Sierra Leone has no temperature reading and so no
    mean.  [Series.argsort] numbers the positions within the two means
    that are numbers and writes -1 at the position of the missing one; the
    position it puts first, 1, is then read in the Series of the three
    countries, and the text names Sierra Leone, not Togo. *)
Theorem closest_temperature_missed :
  country_mean exact_arithmetic no_temperature "Benin" cTamb = Num 20 /\
  country_mean exact_arithmetic no_temperature "Sierra Leone" cTamb = NaN /\
  country_mean exact_arithmetic no_temperature "Togo" cTamb = Num 25 /\
  distance_to_25 exact_arithmetic (Num 25) = Num 0 /\
  Series_argsort
    (map (distance_to_25 exact_arithmetic)
       (map snd (means_of exact_arithmetic no_temperature cTamb)))
  = [1; -1; 0]%Z /\
  fst (generate_key_observations exact_arithmetic no_temperature)
  = Ok (nl ++ "        📊 SOLAR POTENTIAL RANKING:" ++ nl
        ++ "        1. Benin: Avg GHI 3.00 W/m²" ++ nl
        ++ "        2. Togo: Avg GHI 5.00 W/m²" ++ nl
        ++ "        3. Sierra Leone: Avg GHI 4.00 W/m²" ++ nl
        ++ "        " ++ nl
        ++ "        🎯 TOP INSIGHTS:" ++ nl
        ++ "        1. Highest Solar Potential: Benin (3.00 W/m² GHI)" ++ nl
        ++ "        2. Best DNI: Benin (2.00 W/m²)" ++ nl
        ++ "        3. Optimal Temperature: Sierra Leone (nan°C)" ++ nl
        ++ "        ")%string.
Proof. repeat split; vm_compute; reflexivity. Qed.





(** ** More on the key observations *)

(** X9: on a frame with at least one record the text is returned, and the
    country it names in its last line is a country that has records in the
    frame, shown with that country's own mean temperature. *)
Theorem optimal_country_is_in_frame (fp : Float64) (df : DataFrame) :
  rows df <> [] ->
  exists c,
    In c (col_Country df) /\
    fst (generate_key_observations fp df) =
    Ok (render (observations_template
                  (displayed_mean fp df "Benin" cGHI) (displayed_mean fp df "Togo" cGHI)
                  (displayed_mean fp df "Sierra Leone" cGHI)
                  (displayed_mean fp df "Benin" cDNI)
                  c (country_mean fp df c cTamb))).
Proof. apply key_observations_text. Qed.

(** In [no_temperature] the country named is Sierra Leone. *)
Lemma optimal_country_is_in_frame_witness :
  (exists c,
     In c (col_Country no_temperature) /\
     fst (generate_key_observations exact_arithmetic no_temperature) =
     Ok (render (observations_template
                   (displayed_mean exact_arithmetic no_temperature "Benin" cGHI)
                   (displayed_mean exact_arithmetic no_temperature "Togo" cGHI)
                   (displayed_mean exact_arithmetic no_temperature "Sierra Leone" cGHI)
                   (displayed_mean exact_arithmetic no_temperature "Benin" cDNI)
                   c (country_mean exact_arithmetic no_temperature c cTamb)))) /\
  col_Country no_temperature = ["Benin"; "Sierra Leone"; "Togo"]%string /\
  fst (generate_key_observations exact_arithmetic no_temperature)
  = Ok (nl ++ "        📊 SOLAR POTENTIAL RANKING:" ++ nl
        ++ "        1. Benin: Avg GHI 3.00 W/m²" ++ nl
        ++ "        2. Togo: Avg GHI 5.00 W/m²" ++ nl
        ++ "        3. Sierra Leone: Avg GHI 4.00 W/m²" ++ nl
        ++ "        " ++ nl
        ++ "        🎯 TOP INSIGHTS:" ++ nl
        ++ "        1. Highest Solar Potential: Benin (3.00 W/m² GHI)" ++ nl
        ++ "        2. Best DNI: Benin (2.00 W/m²)" ++ nl
        ++ "        3. Optimal Temperature: Sierra Leone (nan°C)" ++ nl
        ++ "        ")%string.
Proof.
  split; [|split; [reflexivity|vm_compute; reflexivity]].
  apply (optimal_country_is_in_frame exact_arithmetic no_temperature). discriminate.
Defined.

Lemma nth_pred_length_last {A} (l : list A) (d : A) :
  nth (length l - 1) l d = last l d.
Proof.
  induction l as [|x t IH]; [reflexivity|].
  destruct t as [|y t']; [reflexivity|].
  change (last (x :: y :: t') d) with (last (y :: t') d).
  rewrite <- IH. simpl. now rewrite Nat.sub_0_r.
Qed.

Lemma getitem_last {A} (l : list A) (d : A) :
  l <> [] -> getitem l (-1) = Ok (last l d).
Proof.
  intros Hne. unfold getitem.
  assert (Hpos : (0 < length l)%nat) by (destruct l; [congruence|simpl; lia]).
  change (-1 <? 0)%Z with true. cbn iota.
  destruct (Z.leb_spec 0 (-1 + Z.of_nat (length l))); [|lia].
  destruct (Z.ltb_spec (-1 + Z.of_nat (length l)) (Z.of_nat (length l))); [|lia].
  cbn [andb].
  replace (Z.to_nat (-1 + Z.of_nat (length l))) with (length l - 1)%nat by lia.
  rewrite (nth_error_nth' l d) by lia.
  f_equal. apply nth_pred_length_last.
Qed.

Lemma In_last {A} (l : list A) (d : A) : l <> [] -> In (last l d) l.
Proof.
  intros Hne. destruct (@exists_last _ l Hne) as [l' [a E]].
  rewrite E, last_last. apply in_or_app. right. now left.
Qed.

Lemma ascending_last {K} (cmp : K -> K -> comparison) (l : list K) (d : K) :
  ascending cmp l ->
  forall x, In x l -> x <> last l d -> cmp x (last l d) = Lt.
Proof.
  induction l as [|y t IH]; [intros _ x []|]. intros [Hy Ht] x Hx Hn.
  destruct t as [|z t'].
  - destruct Hx as [<-|[]]. simpl in Hn. congruence.
  - change (last (y :: z :: t') d) with (last (z :: t') d) in *.
    destruct Hx as [<-|Hx].
    + apply Hy. apply In_last. discriminate.
    + now apply IH.
Qed.

Lemma getitem_head {A} (x : A) (l : list A) : getitem (x :: l) 0 = Ok x.
Proof. change 0%Z with (Z.of_nat 0). now apply getitem_nat. Qed.

Lemma string_cmp_asym (a b : string) :
  String.compare a b = Lt -> String.compare b a = Lt -> False.
Proof.
  intros H1 H2. rewrite String.compare_antisym, H2 in H1. discriminate.
Qed.

(** X10: when the country that comes first in alphabetical order has no
    temperature reading at all, [Series.argsort] puts -1 at the first
    position, and the text names the country that comes last in
    alphabetical order, whatever the means of the others. *)
Theorem missing_first_mean_names_last (fp : Float64) (df : DataFrame)
  (c_first c_last : string) :
  In c_first (col_Country df) ->
  (forall c, In c (col_Country df) -> c <> c_first -> String.compare c_first c = Lt) ->
  country_mean fp df c_first cTamb = NaN ->
  In c_last (col_Country df) ->
  (forall c, In c (col_Country df) -> c <> c_last -> String.compare c c_last = Lt) ->
  fst (generate_key_observations fp df) =
  Ok (render (observations_template
                (displayed_mean fp df "Benin" cGHI) (displayed_mean fp df "Togo" cGHI)
                (displayed_mean fp df "Sierra Leone" cGHI) (displayed_mean fp df "Benin" cDNI)
                c_last (country_mean fp df c_last cTamb))).
Proof.
  intros Hf Hfmin Hnan Hl Hlmax.
  rewrite generate_key_observations_render, key_observations_unfold.
  unfold means_of.
  pose proof (@ascending_sorted_keys _ String.compare string_cmp_eq
                String.compare_antisym string_cmp_trans (col_Country df)) as Hasc.
  pose proof (proj2 (In_country_keys df c_first) Hf) as Hfk.
  pose proof (proj2 (In_country_keys df c_last) Hl) as Hlk.
  set (ks := sorted_keys String.compare (col_Country df)) in *.
  assert (Hlast : List.last ks c_first = c_last).
  { destruct (string_dec (List.last ks c_first) c_last) as [E|Hn]; [exact E|].
    exfalso.
    assert (HL : In (List.last ks c_first) ks).
    { apply In_last. intros E. rewrite E in Hfk. destruct Hfk. }
    apply (string_cmp_asym c_last (List.last ks c_first)).
    - apply ascending_last; [exact Hasc|exact Hlk|congruence].
    - apply Hlmax; [now apply In_country_keys|exact Hn]. }
  destruct ks as [|k0 t] eqn:Eks; [destruct Hfk|].
  assert (Hk0 : k0 = c_first).
  { destruct Hfk as [E|Hin]; [exact E|]. exfalso.
    destruct (string_dec k0 c_first) as [E|Hn]; [subst; destruct Hasc as [H _];
      specialize (H _ Hin); rewrite (proj2 (string_cmp_eq c_first c_first) eq_refl) in H;
      discriminate|].
    apply (string_cmp_asym k0 c_first).
    - destruct Hasc as [H _]. now apply H.
    - apply Hfmin; [|exact Hn]. apply In_country_keys. fold ks. rewrite Eks. now left. }
  subst k0. cbn [map snd]. rewrite Hnan.
  unfold Series_argsort. cbn [distance_to_25 vsub vabs existsb isna orb dropna scatter].
  rewrite getitem_head.
  assert (Hmap : (c_first, NaN) :: map (fun k => (k, country_mean fp df k cTamb)) t
                 = map (fun k => (k, country_mean fp df k cTamb)) (c_first :: t)).
  { cbn [map]. now rewrite Hnan. }
  rewrite Hmap, getitem_map, (getitem_last (c_first :: t) c_first) by discriminate.
  rewrite Hlast. reflexivity.
Qed.

(** In [benin_unmeasured] Sierra Leone is at 25 degrees and Togo at 40:
    Togo is named. *)
Lemma missing_first_mean_names_last_witness :
  fst (generate_key_observations exact_arithmetic benin_unmeasured) =
  Ok (render (observations_template
                (displayed_mean exact_arithmetic benin_unmeasured "Benin" cGHI)
                (displayed_mean exact_arithmetic benin_unmeasured "Togo" cGHI)
                (displayed_mean exact_arithmetic benin_unmeasured "Sierra Leone" cGHI)
                (displayed_mean exact_arithmetic benin_unmeasured "Benin" cDNI)
                "Togo" (country_mean exact_arithmetic benin_unmeasured "Togo" cTamb))) /\
  fst (generate_key_observations exact_arithmetic benin_unmeasured)
  = Ok (nl ++ "        📊 SOLAR POTENTIAL RANKING:" ++ nl
        ++ "        1. Benin: Avg GHI 3.00 W/m²" ++ nl
        ++ "        2. Togo: Avg GHI 5.00 W/m²" ++ nl
        ++ "        3. Sierra Leone: Avg GHI 4.00 W/m²" ++ nl
        ++ "        " ++ nl
        ++ "        🎯 TOP INSIGHTS:" ++ nl
        ++ "        1. Highest Solar Potential: Benin (3.00 W/m² GHI)" ++ nl
        ++ "        2. Best DNI: Benin (2.00 W/m²)" ++ nl
        ++ "        3. Optimal Temperature: Togo (40.00°C)" ++ nl
        ++ "        ")%string.
Proof.
  split; [|vm_compute; reflexivity].
  apply (missing_first_mean_names_last exact_arithmetic benin_unmeasured "Benin" "Togo").
  - simpl. tauto.
  - intros c Hc Hn. simpl in Hc.
    destruct Hc as [<-|[<-|[<-|[]]]]; try contradiction; reflexivity.
  - reflexivity.
  - simpl. tauto.
  - intros c Hc Hn. simpl in Hc.
    destruct Hc as [<-|[<-|[<-|[]]]]; try contradiction; reflexivity.
Defined.




(** ** The peak hour *)

Lemma ascending_app_r {K} (cmp : K -> K -> comparison) (l1 l2 : list K) :
  ascending cmp (l1 ++ l2) -> ascending cmp l2.
Proof. induction l1 as [|x t IH]; simpl; [auto|]. intros [_ H]. auto. Qed.

(** What [first_max] returns, started from a running best. *)
Lemma first_max_spec {K} (s : list (K * value)) :
  forall best,
    match first_max best s with
    | None => best = None /\ forall k v, In (k, v) s -> v = NaN
    | Some (k, q) =>
        (forall k' q', In (k', Num q') s -> (q' <= q)%Q) /\
        (forall b, best = Some b -> (snd b <= q)%Q) /\
        (best = Some (k, q) \/
         exists l1 l2,
           s = l1 ++ (k, Num q) :: l2 /\
           (forall k' q', In (k', Num q') l1 -> (q' < q)%Q) /\
           (forall b, best = Some b -> (snd b < q)%Q))
    end.
Proof.
  induction s as [|[k0 [|q0]] t IH]; intros best; simpl.
  - destruct best as [[k q]|].
    + split; [intros ? ? []|]. split; [|now left].
      intros b Hb. inversion Hb. apply Qle_refl.
    + split; [reflexivity|]. intros ? ? [].
  - specialize (IH best). destruct (first_max best t) as [[k q]|].
    + destruct IH as [H1 [H2 H3]]. split; [|split; [exact H2|]].
      * intros k' q' [H|H]; [discriminate|eauto].
      * destruct H3 as [H3|[l1 [l2 [E [Hl Hb]]]]]; [now left|right].
        exists ((k0, NaN) :: l1), l2. split; [now rewrite E|].
        split; [|exact Hb]. intros k' q' [H|H]; [discriminate|eauto].
    + destruct IH as [H1 H2]. split; [exact H1|].
      intros k v [H|H]; [now inversion H|eauto].
  - destruct best as [[kb b]|].
    + destruct (Qle_bool q0 b) eqn:Le.
      * apply Qle_bool_iff in Le. specialize (IH (Some (kb, b))).
        destruct (first_max (Some (kb, b)) t) as [[k q]|].
        -- destruct IH as [H1 [H2 H3]].
           assert (Hbq : (b <= q)%Q) by apply (H2 (kb, b) eq_refl).
           split; [|split; [exact H2|]].
           ++ intros k' q' [H|H]; [|eauto].
              inversion H; subst. eapply Qle_trans; eassumption.
           ++ destruct H3 as [H3|[l1 [l2 [E [Hl Hb]]]]]; [now left|right].
              exists ((k0, Num q0) :: l1), l2. split; [now rewrite E|].
              split; [|exact Hb]. intros k' q' [H|H]; [|eauto].
              inversion H; subst. eapply Qle_lt_trans; [exact Le|].
              apply (Hb (kb, b) eq_refl).
        -- destruct IH as [H1 _]. discriminate.
      * assert (Lt : (b < q0)%Q).
        { apply Qnot_le_lt. intros H. apply Qle_bool_iff in H. congruence. }
        specialize (IH (Some (k0, q0))).
        destruct (first_max (Some (k0, q0)) t) as [[k q]|].
        -- destruct IH as [H1 [H2 H3]].
           assert (Hq : (q0 <= q)%Q) by apply (H2 (k0, q0) eq_refl).
           split; [|split].
           ++ intros k' q' [H|H]; [|eauto]. now inversion H; subst.
           ++ intros b' Hb'. inversion Hb'; subst. simpl.
              apply Qlt_le_weak. eapply Qlt_le_trans; eassumption.
           ++ right. destruct H3 as [H3|[l1 [l2 [E [Hl Hb]]]]].
              ** inversion H3; subst. exists [], t. split; [reflexivity|].
                 split; [intros ? ? []|]. intros b' Hb'. now inversion Hb'; subst.
              ** exists ((k0, Num q0) :: l1), l2. split; [now rewrite E|].
                 assert (Hq0 : (q0 < q)%Q) by apply (Hb (k0, q0) eq_refl).
                 split.
                 --- intros k' q' [H|H]; [|eauto]. now inversion H; subst.
                 --- intros b' Hb'. inversion Hb'; subst. simpl.
                     eapply Qlt_trans; eassumption.
        -- destruct IH as [H1 _]. discriminate.
    + specialize (IH (Some (k0, q0))).
      destruct (first_max (Some (k0, q0)) t) as [[k q]|].
      * destruct IH as [H1 [H2 H3]].
        assert (Hq : (q0 <= q)%Q) by apply (H2 (k0, q0) eq_refl).
        split; [|split; [intros ? H; discriminate|]].
        -- intros k' q' [H|H]; [|eauto]. now inversion H; subst.
        -- right. destruct H3 as [H3|[l1 [l2 [E [Hl Hb]]]]].
           ++ inversion H3; subst. exists [], t. split; [reflexivity|].
              split; [intros ? ? []|]. intros ? H; discriminate.
           ++ exists ((k0, Num q0) :: l1), l2. split; [now rewrite E|].
              assert (Hq0 : (q0 < q)%Q) by apply (Hb (k0, q0) eq_refl).
              split; [|intros ? H; discriminate].
              intros k' q' [H|H]; [|eauto]. now inversion H; subst.
      * destruct IH as [H1 _]. discriminate.
Qed.

Lemma in_group_recorded_at (h : Z) (r : Row) :
  in_group Z.compare h (hour_of (Timestamp r)) = recorded_at h r.
Proof.
  destruct (recorded_at h r) eqn:E.
  - apply recorded_at_hour_of in E. rewrite E. simpl. apply key_eqb_refl, Z_cmp_eq.
  - destruct (hour_of (Timestamp r)) as [h'|] eqn:Eh; [|reflexivity].
    simpl. rewrite key_eqb_Z. destruct (Z.eqb_spec h' h) as [->|Hn]; [|reflexivity].
    apply recorded_at_hour_of in Eh. congruence.
Qed.

(** The cells [groupby('Hour')] puts in the group of an hour are the GHI
    cells of the records taken at that hour. *)
Lemma group_cells_hour (df : DataFrame) (h : Z) :
  group_cells Z.compare (map hour_of (col_Timestamp df)) (col cGHI df) h
  = map GHI (filter (recorded_at h) (rows df)).
Proof.
  unfold group_cells, col_Timestamp, col. rewrite !map_map.
  change (map (cell cGHI) (rows df)) with (map GHI (rows df)).
  rewrite <- select_map. f_equal. apply map_ext. intros r.
  apply in_group_recorded_at.
Qed.

Lemma hourly_mean_hour_avg (fp : Float64) (df : DataFrame) (h : Z) :
  hourly_mean fp df h = hour_avg fp df h.
Proof.
  unfold hourly_mean, hour_avg.
  now rewrite group_cells_hour, dropna_numbers, group_mean_of_average.
Qed.

Lemma hourly_GHI_spec (fp : Float64) (df : DataFrame) :
  hourly_GHI fp (set_Hour (map hour_of (col_Timestamp df)) df)
  = map (fun h => (h, hour_avg fp df h)) (hours_of df).
Proof.
  unfold hourly_GHI, hour_column, groupby_mean, hours_of. simpl.
  apply map_ext. intros h.
  change (col cGHI (set_Hour (map hour_of (col_Timestamp df)) df)) with (col cGHI df).
  f_equal. apply hourly_mean_hour_avg.
Qed.

Lemma In_hours_of (df : DataFrame) (h : Z) :
  In h (hours_of df) <-> exists r, In r (rows df) /\ recorded_at h r = true.
Proof.
  unfold hours_of. rewrite (@In_sorted_keys _ _ Z_cmp_eq), In_present.
  unfold col_Timestamp. rewrite map_map, in_map_iff.
  split; intros [r [H1 H2]]; exists r.
  - split; [exact H2|]. now apply recorded_at_hour_of.
  - split; [|exact H1]. now apply recorded_at_hour_of.
Qed.

Lemma hour_avg_Num_occurs (fp : Float64) (df : DataFrame) (h : Z) (a : Q) :
  hour_avg fp df h = Num a -> In h (hours_of df).
Proof.
  unfold hour_avg. intros H. apply In_hours_of.
  destruct (filter (recorded_at h) (rows df)) as [|r t] eqn:E; [discriminate|].
  assert (Hr : In r (filter (recorded_at h) (rows df))) by (rewrite E; now left).
  apply filter_In in Hr. destruct Hr as [Hr Hh]. exists r. now split.
Qed.

Lemma hours_of_range (df : DataFrame) (h : Z) :
  In h (hours_of df) -> (0 <= h <= 23)%Z.
Proof.
  intros H. apply In_hours_of in H. destruct H as [r [_ H]].
  apply recorded_at_hour_of in H. eapply hour_of_range. exact H.
Qed.

Lemma In_map_pair {K} (f : K -> value) (ks : list K) (k : K) (v : value) :
  In (k, v) (map (fun h => (h, f h)) ks) <-> In k ks /\ v = f k.
Proof.
  rewrite in_map_iff. split.
  - intros [x [E H]]. inversion E; subst. auto.
  - intros [H ->]. exists k. auto.
Qed.

(** The label [idxmax] picks among the hourly means is the peak hour, and
    only the peak hour is picked. *)
Lemma first_max_peak (fp : Float64) (df : DataFrame) (h : Z) :
  option_map fst (first_max None (map (fun h => (h, hour_avg fp df h)) (hours_of df)))
  = Some h <-> is_peak_hour fp df h.
Proof.
  set (s := map (fun h => (h, hour_avg fp df h)) (hours_of df)).
  assert (Hasc : ascending Z.compare (map fst s)).
  { unfold s. rewrite map_map. simpl. rewrite map_id.
    apply ascending_sorted_keys;
      [exact Z_cmp_eq|intros a b; apply Z.compare_antisym|exact Z_cmp_trans]. }
  assert (Hin : forall k a, hour_avg fp df k = Num a -> In (k, Num a) s).
  { intros k a Hk. apply In_map_pair. split; [|now rewrite Hk].
    eapply hour_avg_Num_occurs; eassumption. }
  assert (Hfwd : forall k q, first_max None s = Some (k, q) -> is_peak_hour fp df k).
  { intros k q E. pose proof (first_max_spec s None) as Hs. rewrite E in Hs.
    destruct Hs as [Hmax [_ [Hb|[l1 [l2 [Es [Hl _]]]]]]]; [discriminate|].
    exists q. split.
    - assert (H : In (k, Num q) s) by (rewrite Es; apply in_elt).
      apply In_map_pair in H. now destruct H as [_ ->].
    - intros h' a' Ha'. pose proof (Hin _ _ Ha') as Hs'. split; [eauto|].
      intros Heq. rewrite Es in Hs'. apply in_app_or in Hs'.
      destruct Hs' as [H1|[H2|H3]].
      + exfalso. apply (Qlt_not_eq _ _ (Hl _ _ H1)). exact Heq.
      + inversion H2. lia.
      + rewrite Es, map_app in Hasc. apply ascending_app_r in Hasc.
        simpl in Hasc. destruct Hasc as [Hlt _].
        assert (Hc : (k ?= h')%Z = Lt).
        { apply Hlt. change h' with (fst (h', Num a')). now apply in_map. }
        assert (Hk : (k < h')%Z) by (apply Z.compare_lt_iff; exact Hc). lia. }
  split.
  - intros E. destruct (first_max None s) as [[k q]|] eqn:Ef; simpl in E; [|discriminate].
    inversion E; subst. eapply Hfwd; reflexivity.
  - intros Hp. destruct Hp as [a [Ha Hbest]].
    destruct (first_max None s) as [[k q]|] eqn:Ef.
    + simpl. f_equal.
      destruct (Hfwd _ _ eq_refl) as [a2 [Ha2 Hbest2]].
      destruct (Hbest _ _ Ha2) as [L1 T1]. destruct (Hbest2 _ _ Ha) as [L2 T2].
      assert (Heq : (a == a2)%Q) by (apply Qle_antisym; assumption).
      specialize (T2 Heq). symmetry in Heq. specialize (T1 Heq). lia.
    + exfalso. pose proof (first_max_spec s None) as Hs. rewrite Ef in Hs.
      destruct Hs as [_ Hnan]. specialize (Hnan _ _ (Hin _ _ Ha)). discriminate.
Qed.

Lemma has_nat_iff (df : DataFrame) :
  has_nat (map hour_of (col_Timestamp df)) = true <->
  exists r, In r (rows df) /\ Timestamp r = None.
Proof.
  unfold has_nat, col_Timestamp. rewrite map_map, existsb_exists. split.
  - intros [o [Ho Hn]]. apply in_map_iff in Ho. destruct Ho as [r [<- Hr]].
    exists r. split; [exact Hr|].
    destruct (Timestamp r); [discriminate|reflexivity].
  - intros [r [Hr Hn]]. exists (hour_of (Timestamp r)).
    split; [exact (in_map (fun x => hour_of (Timestamp x)) _ _ Hr)|]. now rewrite Hn.
Qed.

Lemma has_nat_parseable (df : DataFrame) :
  parseable df -> has_nat (map hour_of (col_Timestamp df)) = false.
Proof.
  intros [Hp _]. destruct (has_nat _) eqn:E; [|reflexivity].
  apply has_nat_iff in E. destruct E as [r [Hr Hn]]. now destruct (Hp r Hr).
Qed.

Lemma hours_of_some_parsed (df : DataFrame) :
  (exists r, In r (rows df) /\ Timestamp r <> None) -> hours_of df <> [].
Proof.
  intros [r [Hr Hp]] E. destruct (Timestamp r) as [d|] eqn:Et; [|contradiction].
  assert (H : In ((wall d / 3600) mod 24)%Z (hours_of df)).
  { apply In_hours_of. exists r. split; [exact Hr|].
    apply recorded_at_hour_of. now rewrite Et. }
  rewrite E in H. destruct H.
Qed.

Lemma hours_of_none_parsed (df : DataFrame) :
  (forall r, In r (rows df) -> Timestamp r = None) -> hours_of df = [].
Proof.
  intros H. destruct (hours_of df) as [|h t] eqn:E; [reflexivity|]. exfalso.
  assert (Hin : In h (hours_of df)) by (rewrite E; now left).
  apply In_hours_of in Hin. destruct Hin as [r [Hr Hh]].
  apply recorded_at_hour_of in Hh. rewrite (H r Hr) in Hh. discriminate.
Qed.

(** The text of the insight, read off the f-string. *)
Lemma render_insights (country : string) (ghi dni dhi tamb : value) (peak : string) :
  render (insights_template country ghi dni dhi tamb peak)
  = (nl ++ "    ### " ++ country ++ " Key Insights" ++ nl
     ++ "    - **Avg GHI**: " ++ format_2f ghi ++ " W/m²" ++ nl
     ++ "    - **Avg DNI**: " ++ format_2f dni ++ " W/m²" ++ nl
     ++ "    - **Avg DHI**: " ++ format_2f dhi ++ " W/m²" ++ nl
     ++ "    - **Avg Temp**: " ++ format_2f tamb ++ " °C" ++ nl
     ++ "    - **Peak Hour**: " ++ peak ++ ":00" ++ nl
     ++ "    ")%string.
Proof. reflexivity. Qed.

(** The function on a frame with records and a datetime column: the Hour
    column is assigned, and the outcome is that of [idxmax] on the hourly
    averages. *)
Lemma country_insights_unfold (fp : Float64) (country : string) (df : DataFrame) :
  rows df <> [] -> same_time_zone (col_Timestamp df) ->
  country_insights fp country df
  = (match idxmax (map (fun h => (h, hour_avg fp df h)) (hours_of df)) with
     | Ok peak =>
         Ok (render (insights_template country
                       (column_mean fp df cGHI) (column_mean fp df cDNI)
                       (column_mean fp df cDHI) (column_mean fp df cTamb)
                       (str_hour (has_nat (map hour_of (col_Timestamp df))) peak)))
     | Raise e => Raise e
     end,
     set_Hour (map hour_of (col_Timestamp df)) df).
Proof.
  intros Hne Hz. unfold country_insights, bind at 1, read at 1, empty.
  destruct (rows df) as [|r t] eqn:Er; [congruence|].
  unfold peak_hour_of, bind, try_read, read, assign, lift, ret.
  rewrite (dt_hour_Ok _ Hz), hourly_GHI_spec.
  destruct (idxmax _) as [peak|e]; [|reflexivity].
  cbn [hour_column Hour set_Hour].
  change (col cGHI (set_Hour (map hour_of (col_Timestamp df)) df)) with (col cGHI df).
  change (col cDNI (set_Hour (map hour_of (col_Timestamp df)) df)) with (col cDNI df).
  change (col cDHI (set_Hour (map hour_of (col_Timestamp df)) df)) with (col cDHI df).
  change (col cTamb (set_Hour (map hour_of (col_Timestamp df)) df)) with (col cTamb df).
  now rewrite !Series_mean_column.
Qed.

Lemma generate_country_insights_Some (fp : Float64) (df : DataFrame) (country : string) :
  generate_country_insights fp (Some df) country
  = (fst (country_insights fp country df), Some (snd (country_insights fp country df))).
Proof.
  unfold generate_country_insights. now destruct (country_insights fp country df).
Qed.

(** C4: on a frame with records whose Timestamp column is a datetime column
    without a missing cell, the insight text is returned and its last line
    reports the peak hour: the hour of the day, between 0 and 23, at which
    the records taken have the largest average GHI, the earliest such hour
    if several share that average.  If no hour has an average (no record
    has a GHI reading) the line reads nan. *)
Theorem peak_hour_reported (fp : Float64) (df : DataFrame) (country : string) :
  rows df <> [] -> parseable df ->
  exists peak : option Z,
    fst (generate_country_insights fp (Some df) country)
    = Ok (nl ++ "    ### " ++ country ++ " Key Insights" ++ nl
          ++ "    - **Avg GHI**: " ++ format_2f (column_mean fp df cGHI) ++ " W/m²" ++ nl
          ++ "    - **Avg DNI**: " ++ format_2f (column_mean fp df cDNI) ++ " W/m²" ++ nl
          ++ "    - **Avg DHI**: " ++ format_2f (column_mean fp df cDHI) ++ " W/m²" ++ nl
          ++ "    - **Avg Temp**: " ++ format_2f (column_mean fp df cTamb) ++ " °C" ++ nl
          ++ "    - **Peak Hour**: "
          ++ match peak with Some h => str_Z h | None => "nan" end
          ++ ":00" ++ nl
          ++ "    ")%string /\
    (forall h, peak = Some h <-> is_peak_hour fp df h) /\
    (forall h, peak = Some h -> (0 <= h <= 23)%Z).
Proof.
  intros Hne Hp.
  exists (option_map fst
            (first_max None (map (fun h => (h, hour_avg fp df h)) (hours_of df)))).
  split; [|split].
  - rewrite generate_country_insights_Some.
    rewrite (country_insights_unfold fp country df Hne (proj2 Hp)). cbn [fst].
    assert (Hh : hours_of df <> []).
    { apply hours_of_some_parsed. destruct (rows df) as [|r t] eqn:Er; [congruence|].
      exists r. split; [now left|]. apply (proj1 Hp). rewrite Er. now left. }
    unfold idxmax. destruct (hours_of df) as [|h0 hs] eqn:Eh; [congruence|].
    cbn [map]. rewrite (has_nat_parseable df Hp), render_insights.
    destruct (option_map fst _); reflexivity.
  - intros h. apply first_max_peak.
  - intros h E. apply first_max_peak in E. destruct E as [a [Ha _]].
    eapply hours_of_range, hour_avg_Num_occurs; eassumption.
Qed.

Lemma tied_hours_parseable : parseable tied_hours.
Proof.
  split.
  - intros r H. simpl in H.
    destruct H as [<-|[<-|[<-|[<-|[<-|[]]]]]]; discriminate.
  - now apply one_time_zone_iff.
Qed.

(** In [tied_hours] the hours 9 and 14 both average 700, hour 7 averages
    10 and hour 11 has no reading: 9 is reported. *)
Lemma peak_hour_reported_witness :
  (exists peak : option Z,
     fst (generate_country_insights exact_arithmetic (Some tied_hours) "Benin")
     = Ok (nl ++ "    ### " ++ "Benin" ++ " Key Insights" ++ nl
           ++ "    - **Avg GHI**: "
           ++ format_2f (column_mean exact_arithmetic tied_hours cGHI) ++ " W/m²" ++ nl
           ++ "    - **Avg DNI**: "
           ++ format_2f (column_mean exact_arithmetic tied_hours cDNI) ++ " W/m²" ++ nl
           ++ "    - **Avg DHI**: "
           ++ format_2f (column_mean exact_arithmetic tied_hours cDHI) ++ " W/m²" ++ nl
           ++ "    - **Avg Temp**: "
           ++ format_2f (column_mean exact_arithmetic tied_hours cTamb) ++ " °C" ++ nl
           ++ "    - **Peak Hour**: "
           ++ match peak with Some h => str_Z h | None => "nan" end
           ++ ":00" ++ nl
           ++ "    ")%string /\
     (forall h, peak = Some h <-> is_peak_hour exact_arithmetic tied_hours h) /\
     (forall h, peak = Some h -> (0 <= h <= 23)%Z)) /\
  hour_avg exact_arithmetic tied_hours 9 = Num 700 /\
  hour_avg exact_arithmetic tied_hours 14 = Num 700 /\
  hour_avg exact_arithmetic tied_hours 7 = Num 10 /\
  hour_avg exact_arithmetic tied_hours 11 = NaN /\
  fst (generate_country_insights exact_arithmetic (Some tied_hours) "Benin")
  = Ok (nl ++ "    ### Benin Key Insights" ++ nl
        ++ "    - **Avg GHI**: 527.50 W/m²" ++ nl
        ++ "    - **Avg DNI**: nan W/m²" ++ nl
        ++ "    - **Avg DHI**: 527.50 W/m²" ++ nl
        ++ "    - **Avg Temp**: nan °C" ++ nl
        ++ "    - **Peak Hour**: 9:00" ++ nl
        ++ "    ")%string.
Proof.
  split.
  - apply (peak_hour_reported exact_arithmetic tied_hours "Benin").
    + discriminate.
    + exact tied_hours_parseable.
  - repeat split; vm_compute; reflexivity.
Defined.

(** The hour is the hour the clock of the record shows: two readings at
    05:01 on a clock two hours ahead of UTC are reported at hour 5. *)
Lemma hour_on_the_clock_of_the_record :
  fst (generate_country_insights exact_arithmetic (Some two_hours_ahead) "Togo")
  = Ok (nl ++ "    ### Togo Key Insights" ++ nl
        ++ "    - **Avg GHI**: 2.00 W/m²" ++ nl
        ++ "    - **Avg DNI**: nan W/m²" ++ nl
        ++ "    - **Avg DHI**: nan W/m²" ++ nl
        ++ "    - **Avg Temp**: nan °C" ++ nl
        ++ "    - **Peak Hour**: 5:00" ++ nl
        ++ "    ")%string.
Proof. vm_compute. reflexivity. Qed.

(** In float64 the average of three readings of 0.1 is larger than the
    average of one: with one reading of 0.1 at 9 o'clock and three at 14
    o'clock the insight reports hour 14, where exact arithmetic has a tie
    and reports hour 9. *)
Lemma float_averages_break_a_tie :
  (exists a b,
     hour_avg binary64 tenths_at_two_hours 9 = Num a /\
     hour_avg binary64 tenths_at_two_hours 14 = Num b /\ (a < b)%Q) /\
  hour_avg exact_arithmetic tenths_at_two_hours 9
  = hour_avg exact_arithmetic tenths_at_two_hours 14 /\
  fst (generate_country_insights binary64 (Some tenths_at_two_hours) "Benin")
  = Ok (nl ++ "    ### Benin Key Insights" ++ nl
        ++ "    - **Avg GHI**: 0.10 W/m²" ++ nl
        ++ "    - **Avg DNI**: nan W/m²" ++ nl
        ++ "    - **Avg DHI**: 0.10 W/m²" ++ nl
        ++ "    - **Avg Temp**: nan °C" ++ nl
        ++ "    - **Peak Hour**: 14:00" ++ nl
        ++ "    ")%string /\
  fst (generate_country_insights exact_arithmetic (Some tenths_at_two_hours) "Benin")
  = Ok (nl ++ "    ### Benin Key Insights" ++ nl
        ++ "    - **Avg GHI**: 0.10 W/m²" ++ nl
        ++ "    - **Avg DNI**: nan W/m²" ++ nl
        ++ "    - **Avg DHI**: 0.10 W/m²" ++ nl
        ++ "    - **Avg Temp**: nan °C" ++ nl
        ++ "    - **Peak Hour**: 9:00" ++ nl
        ++ "    ")%string.
Proof.
  split; [do 2 eexists; repeat split; vm_compute; reflexivity|].
  repeat split; vm_compute; reflexivity.
Qed.

(** ** More on the per-country insight *)

(** X11: as soon as one record has a timestamp, the Timestamp column being
    a datetime column, the text is returned.  The records without a
    timestamp are left out of the hourly grouping: the peak hour is still
    the earliest hour of the day with the largest average GHI among the
    records taken at an hour.  If some record has no timestamp the hour
    column holds floats, and the peak hour is printed with a trailing
    ".0"; if every record has one it is printed as an integer. *)
Theorem insight_with_missing_timestamps (fp : Float64) (df : DataFrame)
  (country : string) :
  (exists r, In r (rows df) /\ Timestamp r <> None) ->
  same_time_zone (col_Timestamp df) ->
  exists (peak : option Z) (shown : string),
    fst (generate_country_insights fp (Some df) country)
    = Ok (nl ++ "    ### " ++ country ++ " Key Insights" ++ nl
          ++ "    - **Avg GHI**: " ++ format_2f (column_mean fp df cGHI) ++ " W/m²" ++ nl
          ++ "    - **Avg DNI**: " ++ format_2f (column_mean fp df cDNI) ++ " W/m²" ++ nl
          ++ "    - **Avg DHI**: " ++ format_2f (column_mean fp df cDHI) ++ " W/m²" ++ nl
          ++ "    - **Avg Temp**: " ++ format_2f (column_mean fp df cTamb) ++ " °C" ++ nl
          ++ "    - **Peak Hour**: " ++ shown ++ ":00" ++ nl
          ++ "    ")%string /\
    (forall h, peak = Some h <-> is_peak_hour fp df h) /\
    (peak = None -> shown = "nan"%string) /\
    ((exists r, In r (rows df) /\ Timestamp r = None) ->
     forall h, peak = Some h -> shown = (str_Z h ++ ".0")%string) /\
    ((forall r, In r (rows df) -> Timestamp r <> None) ->
     forall h, peak = Some h -> shown = str_Z h).
Proof.
  intros Hsome Hz.
  exists (option_map fst
            (first_max None (map (fun h => (h, hour_avg fp df h)) (hours_of df)))).
  exists (str_hour (has_nat (map hour_of (col_Timestamp df)))
            (option_map fst
               (first_max None (map (fun h => (h, hour_avg fp df h)) (hours_of df))))).
  split; [|split; [|split; [|split]]].
  - pose proof (hours_of_some_parsed df Hsome) as Hh.
    assert (Hne : rows df <> []).
    { destruct Hsome as [r [Hr _]]. intros E. rewrite E in Hr. destruct Hr. }
    rewrite generate_country_insights_Some.
    rewrite (country_insights_unfold fp country df Hne Hz). cbn [fst].
    unfold idxmax. destruct (hours_of df) as [|h0 hs] eqn:Eh; [congruence|].
    cbn [map]. now rewrite render_insights.
  - intros h. apply first_max_peak.
  - intros E. rewrite E. reflexivity.
  - intros Hnat h E. rewrite (proj2 (has_nat_iff df) Hnat), E. reflexivity.
  - intros Hall h E.
    assert (Hn : has_nat (map hour_of (col_Timestamp df)) = false).
    { destruct (has_nat _) eqn:En; [|reflexivity].
      apply has_nat_iff in En. destruct En as [r [Hr Hnone]].
      now destruct (Hall r Hr). }
    rewrite Hn, E. reflexivity.
Qed.

(** In [one_unparsed] the record with the largest GHI has no timestamp: the
    peak is hour 9, printed as a float. *)
Lemma insight_with_missing_timestamps_witness :
  (exists (peak : option Z) (shown : string),
     fst (generate_country_insights exact_arithmetic (Some one_unparsed) "Togo")
     = Ok (nl ++ "    ### " ++ "Togo" ++ " Key Insights" ++ nl
           ++ "    - **Avg GHI**: "
           ++ format_2f (column_mean exact_arithmetic one_unparsed cGHI) ++ " W/m²" ++ nl
           ++ "    - **Avg DNI**: "
           ++ format_2f (column_mean exact_arithmetic one_unparsed cDNI) ++ " W/m²" ++ nl
           ++ "    - **Avg DHI**: "
           ++ format_2f (column_mean exact_arithmetic one_unparsed cDHI) ++ " W/m²" ++ nl
           ++ "    - **Avg Temp**: "
           ++ format_2f (column_mean exact_arithmetic one_unparsed cTamb) ++ " °C" ++ nl
           ++ "    - **Peak Hour**: " ++ shown ++ ":00" ++ nl
           ++ "    ")%string /\
     (forall h, peak = Some h <-> is_peak_hour exact_arithmetic one_unparsed h) /\
     (peak = None -> shown = "nan"%string) /\
     ((exists r, In r (rows one_unparsed) /\ Timestamp r = None) ->
      forall h, peak = Some h -> shown = (str_Z h ++ ".0")%string) /\
     ((forall r, In r (rows one_unparsed) -> Timestamp r <> None) ->
      forall h, peak = Some h -> shown = str_Z h)) /\
  hour_avg exact_arithmetic one_unparsed 9 = Num 600 /\
  hour_avg exact_arithmetic one_unparsed 14 = Num 500 /\
  fst (generate_country_insights exact_arithmetic (Some one_unparsed) "Togo")
  = Ok (nl ++ "    ### Togo Key Insights" ++ nl
        ++ "    - **Avg GHI**: 700.00 W/m²" ++ nl
        ++ "    - **Avg DNI**: nan W/m²" ++ nl
        ++ "    - **Avg DHI**: 550.00 W/m²" ++ nl
        ++ "    - **Avg Temp**: nan °C" ++ nl
        ++ "    - **Peak Hour**: 9.0:00" ++ nl
        ++ "    ")%string.
Proof.
  split.
  - apply (insight_with_missing_timestamps exact_arithmetic one_unparsed "Togo").
    + eexists. split; [simpl; left; reflexivity|discriminate].
    + now apply one_time_zone_iff.
  - repeat split; vm_compute; reflexivity.
Defined.

(** X12: on a frame with records none of which has a timestamp the
    function raises ValueError (the hourly means are an empty Series), and
    the frame it was given has received its Hour column all the same. *)
Theorem insight_without_any_timestamp (fp : Float64) (df : DataFrame)
  (country : string) :
  rows df <> [] ->
  (forall r, In r (rows df) -> Timestamp r = None) ->
  generate_country_insights fp (Some df) country
  = (Raise (ValueError "attempt to get argmax of an empty sequence"),
     Some (set_Hour (map hour_of (col_Timestamp df)) df)).
Proof.
  intros Hne Hnone. pose proof (hours_of_none_parsed df Hnone) as Hh.
  assert (Hz : same_time_zone (col_Timestamp df)).
  { intros d d' Hd _. unfold col_Timestamp in Hd. apply in_map_iff in Hd.
    destruct Hd as [r [Hr Hin]]. rewrite (Hnone r Hin) in Hr. discriminate. }
  rewrite generate_country_insights_Some.
  rewrite (country_insights_unfold fp country df Hne Hz), Hh. reflexivity.
Qed.

Lemma insight_without_any_timestamp_witness :
  generate_country_insights exact_arithmetic (Some none_parsed) "Togo"
  = (Raise (ValueError "attempt to get argmax of an empty sequence"),
     Some (set_Hour (map hour_of (col_Timestamp none_parsed)) none_parsed)) /\
  set_Hour (map hour_of (col_Timestamp none_parsed)) none_parsed
  = {| rows := rows none_parsed; Hour := Some [None] |}.
Proof.
  split; [|reflexivity].
  apply (insight_without_any_timestamp exact_arithmetic none_parsed "Togo").
  - discriminate.
  - intros r [<-|[]]. reflexivity.
Defined.

(** X13: calling the function again on the frame it has left behind gives
    the same result and leaves that frame as it is. *)
Theorem insight_twice (fp : Float64) (df : option DataFrame) (country : string) :
  generate_country_insights fp (snd (generate_country_insights fp df country)) country
  = generate_country_insights fp df country.
Proof.
  destruct df as [[rs hour]|]; [|reflexivity].
  destruct rs as [|r t]; [reflexivity|].
  set (d := {| rows := r :: t; Hour := hour |}).
  destruct (one_time_zone (col_Timestamp d)) eqn:Ez.
  - apply one_time_zone_iff in Ez.
    pose proof (country_insights_frame fp country d ltac:(discriminate) Ez) as Hs.
    assert (H2 : country_insights fp country (set_Hour (map hour_of (col_Timestamp d)) d)
                 = country_insights fp country d).
    { rewrite (country_insights_unfold fp country d ltac:(discriminate) Ez).
      now rewrite (country_insights_unfold fp country
                     (set_Hour (map hour_of (col_Timestamp d)) d)
                     ltac:(discriminate) Ez). }
    unfold generate_country_insights.
    destruct (country_insights fp country d) as [r1 s1] eqn:E.
    cbn [snd] in Hs. subst s1. cbn [snd]. rewrite H2. reflexivity.
  - apply one_time_zone_false in Ez.
    pose proof (country_insights_mixed fp country d ltac:(discriminate) Ez) as Hs.
    unfold generate_country_insights. rewrite Hs. cbn [snd]. now rewrite Hs.
Qed.

(** On [tied_hours] the second call returns the text of the first. *)
Lemma insight_twice_on_tied_hours :
  fst (generate_country_insights exact_arithmetic
         (snd (generate_country_insights exact_arithmetic (Some tied_hours) "Benin"))
         "Benin")
  = Ok (nl ++ "    ### Benin Key Insights" ++ nl
        ++ "    - **Avg GHI**: 527.50 W/m²" ++ nl
        ++ "    - **Avg DNI**: nan W/m²" ++ nl
        ++ "    - **Avg DHI**: 527.50 W/m²" ++ nl
        ++ "    - **Avg Temp**: nan °C" ++ nl
        ++ "    - **Peak Hour**: 9:00" ++ nl
        ++ "    ")%string.
Proof. vm_compute. reflexivity. Qed.

(** ** The summary table *)

Lemma summary_row_expected (fp : Float64) (df : DataFrame) (c : string) (m : column) :
  summary_row fp c (where_country df c) m = expected_row fp df c m.
Proof.
  unfold summary_row, expected_row, stat_of.
  unfold Series_mean, Series_median, Series_std, Series_min, Series_max.
  now rewrite dropna_where_country.
Qed.

Lemma summary_loop_spec (fp : Float64) (df : DataFrame) (countries : list string) :
  forall acc,
    summary_loop fp countries acc df
    = (Ok (acc ++ rows_for (expected_row fp df) countries), df).
Proof.
  induction countries as [|c t IH]; intros acc; simpl.
  - unfold ret. now rewrite app_nil_r.
  - unfold bind, country_frame, read. rewrite IH.
    unfold rows_for, metrics. simpl.
    rewrite <- app_assoc, !summary_row_expected. reflexivity.
Qed.

Lemma summary_data_spec (fp : Float64) (df : DataFrame) :
  summary_data fp df
  = (Ok (rows_for (expected_row fp df) (unique String.compare (col_Country df))), df).
Proof.
  unfold summary_data, bind, unique_countries, read.
  now rewrite summary_loop_spec.
Qed.

(** Facts on the rows of a summary whose rows carry their country and
    metric. *)
Section RowsFor.
Variable row : string -> column -> SummaryRow.
Hypothesis row_Country : forall c m, sr_Country (row c m) = c.
Hypothesis row_Metric : forall c m, sr_Metric (row c m) = column_name m.

Lemma rows_for_cons (c : string) (t : list string) :
  rows_for row (c :: t) = map (row c) metrics ++ rows_for row t.
Proof. reflexivity. Qed.

Lemma sr_at_row (c c' : string) (m m' : column) :
  sr_at c (column_name m) (row c' m')
  = (String.eqb c' c && String.eqb (column_name m') (column_name m))%bool.
Proof. unfold sr_at. now rewrite row_Country, row_Metric. Qed.

Lemma In_rows_for (r : SummaryRow) (countries : list string) :
  In r (rows_for row countries) <->
  exists c m, In c countries /\ In m metrics /\ r = row c m.
Proof.
  unfold rows_for. rewrite in_flat_map. split.
  - intros [c [Hc Hr]]. apply in_map_iff in Hr. destruct Hr as [m [<- Hm]].
    exists c, m. auto.
  - intros [c [m [Hc [Hm ->]]]]. exists c. split; [exact Hc|].
    now apply in_map.
Qed.

Lemma existsb_sr_at_absent (c n : string) (countries : list string) :
  ~ In c countries -> existsb (sr_at c n) (rows_for row countries) = false.
Proof.
  intros Hc. destruct (existsb _ _) eqn:E; [|reflexivity].
  apply existsb_exists in E. destruct E as [r [Hr Hat]].
  apply In_rows_for in Hr. destruct Hr as [c' [m [Hc' [_ ->]]]].
  unfold sr_at in Hat. rewrite row_Country in Hat.
  apply andb_prop in Hat. destruct Hat as [Hat _].
  apply String.eqb_eq in Hat. subst. contradiction.
Qed.

Lemma filter_sr_at_absent (c n : string) (countries : list string) :
  ~ In c countries -> filter (sr_at c n) (rows_for row countries) = [].
Proof.
  intros Hc. induction countries as [|c' t IH]; [reflexivity|].
  rewrite rows_for_cons, filter_app, IH by (intros H; apply Hc; now right).
  assert (Hn : String.eqb c' c = false).
  { apply String.eqb_neq. intros ->. apply Hc. now left. }
  unfold metrics. simpl. unfold sr_at. rewrite !row_Country, Hn. reflexivity.
Qed.

Lemma has_duplicate_entries_rows_for (countries : list string) :
  NoDup countries -> has_duplicate_entries (rows_for row countries) = false.
Proof.
  induction 1 as [|c t Hc Hnd IH]; [reflexivity|].
  rewrite rows_for_cons. unfold metrics. simpl.
  rewrite IH, !row_Country, !row_Metric.
  rewrite !(existsb_sr_at_absent _ _ _ Hc).
  unfold sr_at. rewrite !row_Country, !row_Metric, String.eqb_refl.
  reflexivity.
Qed.

(** Exactly one row for a pair of the summary. *)
Lemma one_row_per_pair (countries : list string) (c : string) (m : column) :
  NoDup countries -> In c countries -> In m metrics ->
  filter (sr_at c (column_name m)) (rows_for row countries) = [row c m].
Proof.
  intros Hnd. induction Hnd as [|c' t Hc' Hnd IH]; intros Hc Hm; [destruct Hc|].
  rewrite rows_for_cons, filter_app. destruct (string_dec c' c) as [->|Hn].
  - rewrite (filter_sr_at_absent _ _ _ Hc'), app_nil_r.
    unfold metrics in *. simpl. rewrite !sr_at_row, String.eqb_refl.
    destruct Hm as [<-|[<-|[<-|[]]]]; reflexivity.
  - destruct Hc as [Hc|Hc]; [contradiction|].
    rewrite (IH Hc Hm).
    assert (Hf : String.eqb c' c = false) by now apply String.eqb_neq.
    unfold metrics. simpl. rewrite !sr_at_row, Hf. reflexivity.
Qed.

Lemma find_sr_at (countries : list string) (c : string) (m : column) :
  NoDup countries -> In c countries -> In m metrics ->
  find (sr_at c (column_name m)) (rows_for row countries) = Some (row c m).
Proof.
  intros Hnd Hc Hm. pose proof (one_row_per_pair countries c m Hnd Hc Hm) as H.
  induction (rows_for row countries) as [|r t IH]; [discriminate|].
  simpl in *. destruct (sr_at c (column_name m) r).
  - now inversion H.
  - auto.
Qed.

Lemma map_sr_Country_rows_for (countries : list string) :
  map sr_Country (rows_for row countries)
  = flat_map (fun c => map (fun _ => c) metrics) countries.
Proof.
  induction countries as [|c t IH]; [reflexivity|].
  rewrite rows_for_cons, map_app, IH. unfold metrics. simpl.
  now rewrite !row_Country.
Qed.

Lemma map_sr_Metric_rows_for (countries : list string) :
  map sr_Metric (rows_for row countries)
  = flat_map (fun _ => map column_name metrics) countries.
Proof.
  induction countries as [|c t IH]; [reflexivity|].
  rewrite rows_for_cons, map_app, IH. unfold metrics. simpl.
  now rewrite !row_Metric.
Qed.
End RowsFor.

Lemma sorted_metric_names (countries : list string) :
  countries <> [] ->
  sorted_keys String.compare (flat_map (fun _ => map column_name metrics) countries)
  = ["DHI"; "DNI"; "GHI"]%string.
Proof.
  induction countries as [|c t IH]; [congruence|]. intros _.
  destruct t as [|c' t'].
  - reflexivity.
  - change (flat_map (fun _ => map column_name metrics) (c :: c' :: t'))
      with (map column_name metrics
              ++ flat_map (fun _ => map column_name metrics) (c' :: t')).
    unfold sorted_keys in *. rewrite fold_right_app, IH by discriminate.
    reflexivity.
Qed.

Lemma position_In (c : string) (l : list string) :
  In c l -> exists i, position String.eqb c l = Some i /\ nth_error l i = Some c.
Proof.
  induction l as [|x t IH]; [intros []|]. intros H. simpl.
  destruct (String.eqb x c) eqn:E.
  - apply String.eqb_eq in E. subst. exists 0%nat. auto.
  - destruct H as [->|H]; [rewrite String.eqb_refl in E; discriminate|].
    destruct (IH H) as [i [Hp Hn]]. exists (S i). rewrite Hp. auto.
Qed.

(** The table [pivot] builds from a summary with one row per pair. *)
Lemma pivot_rows_for (row : string -> column -> SummaryRow) (countries : list string) :
  (forall c m, sr_Country (row c m) = c) ->
  (forall c m, sr_Metric (row c m) = column_name m) ->
  NoDup countries -> countries <> [] ->
  pivot (rows_for row countries) [Mean; Median; StdDev; Min; Max]
  = Ok {| pt_index := sorted_keys String.compare (map sr_Country (rows_for row countries));
          pt_columns := summary_columns;
          pt_data :=
            map (fun c =>
                   flat_map
                     (fun s => map (fun m => pivot_cell (rows_for row countries) c m s)
                                 ["DHI"; "DNI"; "GHI"]%string)
                     [Mean; Median; StdDev; Min; Max])
                (sorted_keys String.compare (map sr_Country (rows_for row countries))) |}.
Proof.
  intros HC HM Hnd Hne. unfold pivot.
  rewrite (has_duplicate_entries_rows_for row HC HM countries Hnd).
  rewrite (map_sr_Metric_rows_for row HM countries).
  rewrite (sorted_metric_names countries Hne).
  destruct (rows_for row countries) as [|r d] eqn:E; [|reflexivity].
  destruct countries as [|c t]; [congruence|discriminate].
Qed.

Lemma pt_loc_pivot (data : list SummaryRow) (index : list string)
  (c : string) (s : stat) (m : column) :
  In c index -> In m metrics ->
  pt_loc {| pt_index := index;
            pt_columns := summary_columns;
            pt_data :=
              map (fun c =>
                     flat_map
                       (fun s => map (fun m => pivot_cell data c m s)
                                   ["DHI"; "DNI"; "GHI"]%string)
                       [Mean; Median; StdDev; Min; Max])
                  index |}
         c (stat_name s, column_name m)
  = Some (pivot_cell data c (column_name m) s).
Proof.
  intros Hc Hm. unfold pt_loc. cbn [pt_index pt_columns pt_data].
  destruct (position_In c index Hc) as [i [Hp Hn]]. rewrite Hp.
  rewrite nth_error_map, Hn. cbn [option_map].
  unfold metrics in Hm.
  destruct Hm as [<-|[<-|[<-|[]]]]; destruct s; reflexivity.
Qed.

Lemma expected_row_Country (fp : Float64) (df : DataFrame) (c : string) (m : column) :
  sr_Country (expected_row fp df c m) = c.
Proof. reflexivity. Qed.

Lemma expected_row_Metric (fp : Float64) (df : DataFrame) (c : string) (m : column) :
  sr_Metric (expected_row fp df c m) = column_name m.
Proof. reflexivity. Qed.

Lemma sr_stat_expected_row (fp : Float64) (df : DataFrame) (c : string)
  (m : column) (s : stat) :
  sr_stat s (expected_row fp df c m) = stat_of fp s (observed df c m).
Proof. destruct s; reflexivity. Qed.

Lemma unique_countries_nonempty (df : DataFrame) (c : string) :
  In c (col_Country df) -> unique String.compare (col_Country df) <> [].
Proof.
  intros H E. apply (proj2 (@In_unique _ _ string_cmp_eq c _)) in H.
  rewrite E in H. destruct H.
Qed.

Lemma In_summary_index (fp : Float64) (df : DataFrame) (c : string) :
  In c (sorted_keys String.compare
          (map sr_Country
             (rows_for (expected_row fp df) (unique String.compare (col_Country df)))))
  <-> In c (col_Country df).
Proof.
  rewrite (@In_sorted_keys _ _ string_cmp_eq).
  rewrite (map_sr_Country_rows_for _ (expected_row_Country fp df)).
  rewrite in_flat_map. split.
  - intros [c' [Hc' H]]. apply (proj1 (@In_unique _ _ string_cmp_eq c' _)) in Hc'.
    unfold metrics in H. simpl in H. destruct H as [<-|[<-|[<-|[]]]]; exact Hc'.
  - intros H. exists c. split; [now apply (proj2 (@In_unique _ _ string_cmp_eq c _))|].
    unfold metrics. simpl. now left.
Qed.

(** The method pivots the expected rows of the countries of the frame. *)
Lemma summary_statistics_table_spec (fp : Float64) (df : DataFrame) :
  fst (summary_statistics_table fp df)
  = pivot (rows_for (expected_row fp df) (unique String.compare (col_Country df)))
          [Mean; Median; StdDev; Min; Max].
Proof.
  unfold summary_statistics_table, bind. rewrite summary_data_spec.
  reflexivity.
Qed.

Lemma summary_table_Ok (fp : Float64) (df : DataFrame) :
  unique String.compare (col_Country df) <> [] ->
  fst (summary_statistics_table fp df)
  = Ok {| pt_index :=
            sorted_keys String.compare
              (map sr_Country
                 (rows_for (expected_row fp df) (unique String.compare (col_Country df))));
          pt_columns := summary_columns;
          pt_data :=
            map (fun c =>
                   flat_map
                     (fun s =>
                        map (fun m =>
                               pivot_cell
                                 (rows_for (expected_row fp df)
                                    (unique String.compare (col_Country df))) c m s)
                            ["DHI"; "DNI"; "GHI"]%string)
                     [Mean; Median; StdDev; Min; Max])
                (sorted_keys String.compare
                   (map sr_Country
                      (rows_for (expected_row fp df)
                         (unique String.compare (col_Country df))))) |}.
Proof.
  intros Hne. rewrite summary_statistics_table_spec.
  apply pivot_rows_for; auto using expected_row_Country, expected_row_Metric.
  apply (@NoDup_unique _ _ string_cmp_eq).
Qed.

Lemma summary_table_Ok_inv (fp : Float64) (df : DataFrame) (t : PivotTable) :
  fst (summary_statistics_table fp df) = Ok t ->
  unique String.compare (col_Country df) <> [].
Proof.
  rewrite summary_statistics_table_spec. intros H E. rewrite E in H. discriminate.
Qed.

(** ** The reductions *)

Lemma Qmin_list_spec (l : list Q) :
  forall x, In (Qmin_list x l) (x :: l) /\
            forall y, In y (x :: l) -> (Qmin_list x l <= y)%Q.
Proof.
  induction l as [|z t IH]; intros x; unfold Qmin_list; simpl.
  - split; [now left|]. intros y [<-|[]]. apply Qle_refl.
  - fold (Qmin_list (if Qle_bool x z then x else z) t).
    destruct (IH (if Qle_bool x z then x else z)) as [Hin Hle].
    destruct (Qle_bool x z) eqn:E.
    + apply Qle_bool_iff in E. split.
      * destruct Hin as [H|H]; [now left|right; now right].
      * intros y [<-|[<-|Hy]].
        -- apply Hle. now left.
        -- eapply Qle_trans; [apply Hle; now left|exact E].
        -- apply Hle. now right.
    + assert (Hlt : (z < x)%Q).
      { apply Qnot_le_lt. intros H. apply Qle_bool_iff in H. congruence. }
      split.
      * destruct Hin as [H|H]; [right; now left|right; now right].
      * intros y [<-|[<-|Hy]].
        -- eapply Qle_trans; [apply Hle; now left|now apply Qlt_le_weak].
        -- apply Hle. now left.
        -- apply Hle. now right.
Qed.

Lemma Qmax_list_spec (l : list Q) :
  forall x, In (Qmax_list x l) (x :: l) /\
            forall y, In y (x :: l) -> (y <= Qmax_list x l)%Q.
Proof.
  induction l as [|z t IH]; intros x; unfold Qmax_list; simpl.
  - split; [now left|]. intros y [<-|[]]. apply Qle_refl.
  - fold (Qmax_list (if Qle_bool z x then x else z) t).
    destruct (IH (if Qle_bool z x then x else z)) as [Hin Hle].
    destruct (Qle_bool z x) eqn:E.
    + apply Qle_bool_iff in E. split.
      * destruct Hin as [H|H]; [now left|right; now right].
      * intros y [<-|[<-|Hy]].
        -- apply Hle. now left.
        -- eapply Qle_trans; [exact E|apply Hle; now left].
        -- apply Hle. now right.
    + assert (Hlt : (x < z)%Q).
      { apply Qnot_le_lt. intros H. apply Qle_bool_iff in H. congruence. }
      split.
      * destruct Hin as [H|H]; [right; now left|right; now right].
      * intros y [<-|[<-|Hy]].
        -- eapply Qle_trans; [apply Qlt_le_weak; exact Hlt|apply Hle; now left].
        -- apply Hle. now left.
        -- apply Hle. now right.
Qed.

Lemma In_Qinsert (x y : Q) (l : list Q) : In y (Qinsert x l) <-> y = x \/ In y l.
Proof.
  induction l as [|z t IH]; simpl.
  - intuition.
  - destruct (Qle_bool x z); simpl; [intuition|]. rewrite IH. intuition.
Qed.

Lemma In_Qsort (y : Q) (l : list Q) : In y (Qsort l) <-> In y l.
Proof.
  induction l as [|x t IH]; simpl; [tauto|].
  rewrite In_Qinsert, IH. intuition.
Qed.

Lemma length_Qinsert (x : Q) (l : list Q) : length (Qinsert x l) = S (length l).
Proof.
  induction l as [|z t IH]; simpl; [reflexivity|].
  destruct (Qle_bool x z); simpl; congruence.
Qed.

Lemma length_Qsort (l : list Q) : length (Qsort l) = length l.
Proof.
  induction l as [|x t IH]; simpl; [reflexivity|].
  now rewrite length_Qinsert, IH.
Qed.

Lemma Qinsert_perm (x : Q) (l : list Q) : Permutation (Qinsert x l) (x :: l).
Proof.
  induction l as [|y t IH]; simpl; [reflexivity|].
  destruct (Qle_bool x y); [reflexivity|].
  rewrite IH. apply perm_swap.
Qed.

Lemma Qsort_perm (l : list Q) : Permutation (Qsort l) l.
Proof.
  induction l as [|x t IH]; simpl; [reflexivity|].
  rewrite Qinsert_perm. now constructor.
Qed.

Lemma Qinsert_sorted (x : Q) (l : list Q) :
  StronglySorted Qle l -> StronglySorted Qle (Qinsert x l).
Proof.
  induction 1 as [|y t Ht IH Hy]; simpl.
  - constructor; constructor.
  - destruct (Qle_bool x y) eqn:E.
    + apply Qle_bool_iff in E. constructor; [now constructor|].
      constructor; [exact E|].
      eapply Forall_impl; [|exact Hy]. intros z Hz. eapply Qle_trans; eassumption.
    + assert (Hlt : (y < x)%Q).
      { apply Qnot_le_lt. intros H. apply Qle_bool_iff in H. congruence. }
      constructor; [exact IH|].
      apply Forall_forall. intros z Hz. apply In_Qinsert in Hz.
      destruct Hz as [->|Hz]; [now apply Qlt_le_weak|].
      revert z Hz. now apply Forall_forall.
Qed.

Lemma Qsort_sorted (l : list Q) : StronglySorted Qle (Qsort l).
Proof.
  induction l as [|x t IH]; simpl; [constructor|]. now apply Qinsert_sorted.
Qed.

Lemma length_filter_perm (f : Q -> bool) (l l' : list Q) :
  Permutation l l' -> length (filter f l) = length (filter f l').
Proof.
  induction 1 as [|x l l' _ IH|x y l|l l' l'' _ IH1 _ IH2]; simpl.
  - reflexivity.
  - destruct (f x); simpl; congruence.
  - destruct (f x), (f y); reflexivity.
  - congruence.
Qed.

Lemma count_below_least (y : Q) (t : list Q) :
  Forall (Qle y) t -> count_below y t = 0%nat.
Proof.
  unfold count_below. induction 1 as [|z t Hz _ IH]; simpl; [reflexivity|].
  apply Qle_bool_iff in Hz. rewrite Hz. exact IH.
Qed.

(** The value at position [k] of a sorted list stands at rank [k]. *)
Lemma sorted_rank (s : list Q) :
  StronglySorted Qle s ->
  forall k, (k < length s)%nat ->
    (count_below (nth k s 0%Q) s <= k)%nat /\ (k < count_upto (nth k s 0%Q) s)%nat.
Proof.
  induction 1 as [|y t Ht IH Hy]; intros k Hk; [simpl in Hk; lia|].
  destruct k as [|k]; cbn [nth].
  - unfold count_below, count_upto. cbn [filter].
    rewrite (proj2 (Qle_bool_iff y y) (Qle_refl y)). cbn [negb length].
    fold (count_below y t). rewrite (count_below_least y t Hy). lia.
  - simpl in Hk. assert (Hk' : (k < length t)%nat) by lia.
    destruct (IH k Hk') as [Hb Hu].
    assert (Hya : (y <= nth k t 0)%Q).
    { assert (Hin : In (nth k t 0) t) by now apply nth_In.
      revert Hin. now apply Forall_forall. }
    unfold count_below, count_upto in *. cbn [filter].
    rewrite (proj2 (Qle_bool_iff _ _) Hya).
    destruct (negb (Qle_bool (nth k t 0) y)); cbn [length]; lia.
Qed.

Lemma Qsort_rank (xs : list Q) (k : nat) :
  (k < length xs)%nat -> at_rank xs k (nth k (Qsort xs) 0).
Proof.
  intros Hk. pose proof (length_Qsort xs) as Hl.
  assert (Hk' : (k < length (Qsort xs))%nat) by lia.
  destruct (sorted_rank (Qsort xs) (Qsort_sorted xs) k Hk') as [Hb Hu].
  unfold at_rank. split; [apply In_Qsort; now apply nth_In|].
  unfold count_below, count_upto in *.
  rewrite <- (length_filter_perm _ _ _ (Qsort_perm xs)).
  rewrite <- (length_filter_perm (fun y => Qle_bool y (nth k (Qsort xs) 0)) _ _
                (Qsort_perm xs)).
  now split.
Qed.

(** The reductions of the code against the notions of the description. *)
Lemma median_of_is_median (fp : Float64) (xs : list Q) :
  is_median fp xs (median_of fp xs).
Proof.
  unfold median_of, is_median. rewrite length_Qsort.
  destruct xs as [|x t]; [reflexivity|].
  set (n := length (x :: t)).
  assert (Hn : (0 < n)%nat) by (unfold n; simpl; lia).
  destruct n as [|n'] eqn:En; [lia|]. rewrite <- En.
  destruct (Nat.odd n) eqn:Eo.
  - exists (nth (n / 2) (Qsort (x :: t)) 0). split; [|reflexivity].
    apply Qsort_rank. fold n. apply Nat.div_lt; lia.
  - assert (H2 : (2 <= n)%nat).
    { destruct n as [|[|n'']]; [lia|discriminate|lia]. }
    exists (nth (n / 2 - 1) (Qsort (x :: t)) 0), (nth (n / 2) (Qsort (x :: t)) 0).
    split; [|split; [|reflexivity]].
    + apply Qsort_rank. fold n. pose proof (Nat.div_lt n 2). lia.
    + apply Qsort_rank. fold n. apply Nat.div_lt; lia.
Qed.

Lemma Qlen_pred (xs : list Q) :
  (Qlen xs - 1)%Q = inject_Z (Z.of_nat (length xs) - 1).
Proof.
  unfold Qlen, Qminus, Qplus, Qopp, inject_Z. cbn [Qnum Qden].
  now rewrite !Z.mul_1_r.
Qed.

Lemma std_of_sample_deviation (fp : Float64) (xs : list Q) :
  std_of fp xs = sample_deviation fp xs.
Proof.
  destruct xs as [|x [|y t]]; [reflexivity|reflexivity|].
  unfold std_of, sample_deviation, average, mean_by.
  change (length (x :: y :: t) <? 2)%nat with false. cbv iota.
  now rewrite Qlen_pred.
Qed.

Lemma min_of_is_minimum (xs : list Q) : is_minimum xs (min_of xs).
Proof.
  destruct xs as [|x t]; [reflexivity|]. simpl.
  destruct (Qmin_list_spec t x) as [Hin Hle].
  exists (Qmin_list x t). auto.
Qed.

Lemma max_of_is_maximum (xs : list Q) : is_maximum xs (max_of xs).
Proof.
  destruct xs as [|x t]; [reflexivity|]. simpl.
  destruct (Qmax_list_spec t x) as [Hin Hle].
  exists (Qmax_list x t). auto.
Qed.

(** ** The cells of the summary table *)

Section AscendingFacts.
Variable K : Type.
Variable cmp : K -> K -> comparison.
Hypothesis cmp_eq : forall a b, cmp a b = Eq <-> a = b.
Hypothesis cmp_antisym : forall a b, cmp a b = CompOpp (cmp b a).
Hypothesis cmp_trans : forall a b c, cmp a b = Lt -> cmp b c = Lt -> cmp a c = Lt.

Lemma cmp_asym (a b : K) : cmp a b = Lt -> cmp b a = Lt -> False.
Proof.
  intros H1 H2. rewrite cmp_antisym, H2 in H1. discriminate.
Qed.

(** Two ascending lists with the same elements are the same list. *)
Lemma ascending_ext (l1 l2 : list K) :
  ascending cmp l1 -> ascending cmp l2 ->
  (forall x, In x l1 <-> In x l2) -> l1 = l2.
Proof.
  revert l2. induction l1 as [|x1 t1 IH]; intros l2 H1 H2 Hin.
  - destruct l2 as [|x2 t2]; [reflexivity|].
    exfalso. apply (proj2 (Hin x2)). now left.
  - destruct l2 as [|x2 t2].
    + exfalso. apply (proj1 (Hin x1)). now left.
    + destruct H1 as [Hx1 Ht1]. destruct H2 as [Hx2 Ht2].
      assert (Hx : x1 = x2).
      { destruct (proj1 (Hin x1) (or_introl eq_refl)) as [E|E1]; [now symmetry|].
        destruct (proj2 (Hin x2) (or_introl eq_refl)) as [E|E2]; [exact E|].
        exfalso. apply (cmp_asym x1 x2); auto. }
      subst x2. f_equal. apply IH; [exact Ht1|exact Ht2|].
      intros x. split; intros Hx.
      * destruct (proj1 (Hin x) (or_intror Hx)) as [E|E]; [|exact E].
        subst x. exfalso. apply (@cmp_irrefl _ cmp cmp_eq x1). now apply Hx1.
      * destruct (proj2 (Hin x) (or_intror Hx)) as [E|E]; [|exact E].
        subst x. exfalso. apply (@cmp_irrefl _ cmp cmp_eq x1). now apply Hx2.
Qed.

Lemma sorted_keys_ext (l1 l2 : list K) :
  (forall x, In x l1 <-> In x l2) -> sorted_keys cmp l1 = sorted_keys cmp l2.
Proof.
  intros H. apply ascending_ext.
  - now apply ascending_sorted_keys.
  - now apply ascending_sorted_keys.
  - intros x. rewrite !(@In_sorted_keys _ cmp cmp_eq). apply H.
Qed.
End AscendingFacts.

Lemma country_keys_ext (l1 l2 : list string) :
  (forall x, In x l1 <-> In x l2) ->
  sorted_keys String.compare l1 = sorted_keys String.compare l2.
Proof.
  apply sorted_keys_ext;
    [exact string_cmp_eq|exact String.compare_antisym|exact string_cmp_trans].
Qed.

(** The row of the table for a country, written with the observed values. *)
Lemma pivot_cell_expected (fp : Float64) (df : DataFrame) (c : string)
  (m : column) (s : stat) :
  In c (col_Country df) -> In m metrics ->
  pivot_cell (rows_for (expected_row fp df) (unique String.compare (col_Country df)))
             c (column_name m) s
  = stat_of fp s (observed df c m).
Proof.
  intros Hc Hm. unfold pivot_cell.
  rewrite (find_sr_at _ (expected_row_Country fp df) (expected_row_Metric fp df)
             _ c m (@NoDup_unique _ _ string_cmp_eq _)
             (proj2 (@In_unique _ _ string_cmp_eq c _) Hc) Hm).
  apply sr_stat_expected_row.
Qed.

(** The table the method returns, written out: the countries in ascending
    order, and for each the statistics of the observed values. *)
Lemma summary_table_closed_form (fp : Float64) (df : DataFrame) :
  rows df <> [] ->
  fst (summary_statistics_table fp df)
  = Ok {| pt_index := sorted_keys String.compare (col_Country df);
          pt_columns := summary_columns;
          pt_data :=
            map (fun c =>
                   flat_map
                     (fun s => map (fun m => stat_of fp s (observed df c m))
                                 [cDHI; cDNI; cGHI])
                     [Mean; Median; StdDev; Min; Max])
                (sorted_keys String.compare (col_Country df)) |}.
Proof.
  intros Hne.
  assert (Hu : unique String.compare (col_Country df) <> []).
  { destruct (rows df) as [|r t] eqn:E; [congruence|].
    apply (unique_countries_nonempty df (Country r)).
    unfold col_Country. rewrite E. now left. }
  rewrite (summary_table_Ok fp df Hu).
  assert (Hidx : sorted_keys String.compare
                   (map sr_Country
                      (rows_for (expected_row fp df)
                         (unique String.compare (col_Country df))))
                 = sorted_keys String.compare (col_Country df)).
  { apply country_keys_ext. intros c.
    rewrite <- (In_summary_index fp df c).
    symmetry. apply (@In_sorted_keys _ _ string_cmp_eq). }
  rewrite Hidx. do 2 f_equal.
  apply map_ext_in. intros c Hc. apply In_country_keys in Hc.
  cbn [flat_map map app].
  change "DHI"%string with (column_name cDHI).
  change "DNI"%string with (column_name cDNI).
  change "GHI"%string with (column_name cGHI).
  rewrite !(pivot_cell_expected fp df c _ _ Hc) by (unfold metrics; simpl; tauto).
  reflexivity.
Qed.

(** The cells of a pair, as the reductions of its observed values. *)
Lemma summary_cells (fp : Float64) (df : DataFrame) (c : string) (m : column) :
  In c (col_Country df) -> In m metrics ->
  exists t,
    fst (summary_statistics_table fp df) = Ok t /\
    forall s, pt_loc t c (stat_name s, column_name m)
              = Some (stat_of fp s (observed df c m)).
Proof.
  intros Hc Hm.
  pose proof (unique_countries_nonempty df c Hc) as Hne.
  eexists. split; [apply summary_table_Ok; exact Hne|].
  intros s. rewrite pt_loc_pivot; [|now apply In_summary_index|exact Hm].
  now rewrite pivot_cell_expected.
Qed.

(** C3: for a country of the frame and one of the metrics GHI, DNI, DHI,
    the method returns a table, raising nothing; the summary it is pivoted
    from has exactly one row for the pair, and rows for such pairs only;
    the table has one index entry per country of the frame, and its cells
    for the pair are the cells of that row.  Of the values the country has
    for the metric, the missing ones left out, the row holds the mean, a
    median (the value of middle rank, or half the sum of the two values of
    middle rank), the sample standard deviation, the least and the
    greatest.  When the country has no value for the metric, the five are
    NaN. *)
Theorem summary_table_rows (fp : Float64) (df : DataFrame) (c : string) (m : column) :
  In c (col_Country df) -> In m metrics ->
  exists data t row,
    fst (summary_data fp df) = Ok data /\
    fst (summary_statistics_table fp df) = Ok t /\
    filter (sr_at c (column_name m)) data = [row] /\
    (forall r, In r data ->
       In (sr_Country r) (col_Country df) /\
       exists m', In m' metrics /\ sr_Metric r = column_name m') /\
    NoDup (pt_index t) /\
    (forall c', In c' (pt_index t) <-> In c' (col_Country df)) /\
    pt_columns t = summary_columns /\
    pt_loc t c ("Mean", column_name m)%string = Some (sr_Mean row) /\
    pt_loc t c ("Median", column_name m)%string = Some (sr_Median row) /\
    pt_loc t c ("Std Dev", column_name m)%string = Some (sr_StdDev row) /\
    pt_loc t c ("Min", column_name m)%string = Some (sr_Min row) /\
    pt_loc t c ("Max", column_name m)%string = Some (sr_Max row) /\
    sr_Mean row = average fp (observed df c m) /\
    is_median fp (observed df c m) (sr_Median row) /\
    sr_StdDev row = sample_deviation fp (observed df c m) /\
    is_minimum (observed df c m) (sr_Min row) /\
    is_maximum (observed df c m) (sr_Max row) /\
    (observed df c m = [] ->
     sr_Mean row = NaN /\ sr_Median row = NaN /\ sr_StdDev row = NaN /\
     sr_Min row = NaN /\ sr_Max row = NaN).
Proof.
  intros Hc Hm.
  pose proof (@NoDup_unique _ String.compare string_cmp_eq (col_Country df)) as Hnd.
  assert (Hcu : In c (unique String.compare (col_Country df))).
  { now apply (proj2 (@In_unique _ _ string_cmp_eq c _)). }
  destruct (summary_cells fp df c m Hc Hm) as [t [Ht Hcell]].
  exists (rows_for (expected_row fp df) (unique String.compare (col_Country df))).
  exists t, (expected_row fp df c m).
  split; [rewrite summary_data_spec; reflexivity|].
  split; [exact Ht|].
  split.
  { apply one_row_per_pair;
      auto using expected_row_Country, expected_row_Metric. }
  split.
  { intros r Hr. apply In_rows_for in Hr. destruct Hr as [c' [m' [Hc' [Hm' ->]]]].
    split; [now apply (proj1 (@In_unique _ _ string_cmp_eq c' _))|].
    exists m'. auto. }
  pose proof (unique_countries_nonempty df c Hc) as Hne.
  pose proof Ht as Ht'. rewrite (summary_table_Ok fp df Hne) in Ht'.
  inversion Ht' as [Et]. rewrite Et.
  split.
  { rewrite <- Et. cbn [pt_index]. apply NoDup_sorted_keys;
      [exact string_cmp_eq|exact String.compare_antisym|exact string_cmp_trans]. }
  split; [intros c'; rewrite <- Et; cbn [pt_index]; apply In_summary_index|].
  split; [rewrite <- Et; reflexivity|].
  split; [exact (Hcell Mean)|]. split; [exact (Hcell Median)|].
  split; [exact (Hcell StdDev)|]. split; [exact (Hcell Min)|].
  split; [exact (Hcell Max)|].
  cbn [expected_row sr_Mean sr_Median sr_StdDev sr_Min sr_Max stat_of].
  split; [apply mean_of_average|].
  split; [apply median_of_is_median|].
  split; [apply std_of_sample_deviation|].
  split; [apply min_of_is_minimum|].
  split; [apply max_of_is_maximum|].
  intros E. rewrite E. repeat split; reflexivity.
Qed.

(** In [spaced_readings] Benin has the GHI readings 100, 500 and 300 and a
    missing one, and no DNI reading. *)
Lemma summary_table_rows_witness :
  (exists data t row,
     fst (summary_data exact_arithmetic spaced_readings) = Ok data /\
     fst (summary_statistics_table exact_arithmetic spaced_readings) = Ok t /\
     filter (sr_at "Benin" (column_name cGHI)) data = [row] /\
     (forall r, In r data ->
        In (sr_Country r) (col_Country spaced_readings) /\
        exists m', In m' metrics /\ sr_Metric r = column_name m') /\
     NoDup (pt_index t) /\
     (forall c', In c' (pt_index t) <-> In c' (col_Country spaced_readings)) /\
     pt_columns t = summary_columns /\
     pt_loc t "Benin" ("Mean", column_name cGHI)%string = Some (sr_Mean row) /\
     pt_loc t "Benin" ("Median", column_name cGHI)%string = Some (sr_Median row) /\
     pt_loc t "Benin" ("Std Dev", column_name cGHI)%string = Some (sr_StdDev row) /\
     pt_loc t "Benin" ("Min", column_name cGHI)%string = Some (sr_Min row) /\
     pt_loc t "Benin" ("Max", column_name cGHI)%string = Some (sr_Max row) /\
     sr_Mean row = average exact_arithmetic (observed spaced_readings "Benin" cGHI) /\
     is_median exact_arithmetic (observed spaced_readings "Benin" cGHI) (sr_Median row) /\
     sr_StdDev row
     = sample_deviation exact_arithmetic (observed spaced_readings "Benin" cGHI) /\
     is_minimum (observed spaced_readings "Benin" cGHI) (sr_Min row) /\
     is_maximum (observed spaced_readings "Benin" cGHI) (sr_Max row) /\
     (observed spaced_readings "Benin" cGHI = [] ->
      sr_Mean row = NaN /\ sr_Median row = NaN /\ sr_StdDev row = NaN /\
      sr_Min row = NaN /\ sr_Max row = NaN)) /\
  observed spaced_readings "Benin" cGHI = [100; 500; 300] /\
  observed spaced_readings "Benin" cDNI = [] /\
  exists t,
    fst (summary_statistics_table exact_arithmetic spaced_readings) = Ok t /\
    pt_index t = ["Benin"; "Togo"]%string /\
    pt_loc t "Benin" ("Mean", "GHI")%string = Some (Num 300) /\
    pt_loc t "Benin" ("Median", "GHI")%string = Some (Num 300) /\
    pt_loc t "Benin" ("Std Dev", "GHI")%string = Some (Num 200) /\
    pt_loc t "Benin" ("Min", "GHI")%string = Some (Num 100) /\
    pt_loc t "Benin" ("Max", "GHI")%string = Some (Num 500) /\
    pt_loc t "Benin" ("Mean", "DNI")%string = Some NaN /\
    pt_loc t "Benin" ("Median", "DNI")%string = Some NaN /\
    pt_loc t "Benin" ("Std Dev", "DNI")%string = Some NaN /\
    pt_loc t "Benin" ("Min", "DNI")%string = Some NaN /\
    pt_loc t "Benin" ("Max", "DNI")%string = Some NaN.
Proof.
  split.
  - apply (summary_table_rows exact_arithmetic spaced_readings "Benin" cGHI).
    + simpl. now left.
    + simpl. now left.
  - split; [reflexivity|]. split; [reflexivity|].
    eexists. repeat split; vm_compute; reflexivity.
Defined.

(** A missing reading is left out, not counted as a zero: Togo has one
    DNI reading of 300 and two missing in [togo_first], and the mean is
    300, not 100. *)
Lemma missing_is_not_zero :
  exists t,
    fst (summary_statistics_table exact_arithmetic togo_first) = Ok t /\
    pt_loc t "Togo" ("Mean", "DNI")%string = Some (Num 300).
Proof. eexists. split; vm_compute; reflexivity. Qed.

(** A frame without records has no country to pivot on: the method
    raises. *)
Lemma summary_of_no_record :
  fst (summary_statistics_table exact_arithmetic no_frame) = Raise (KeyError "Country").
Proof. reflexivity. Qed.

(** ** Order of the summary *)

(** C10, amended: the rows of the summary are built country by country in
    the order in which the countries first appear in the frame; the index
    of the table that is returned holds the same countries in ascending
    order of their name. *)
Theorem summary_order (fp : Float64) (df : DataFrame) :
  (exists data,
     fst (summary_data fp df) = Ok data /\
     map sr_Country data
     = flat_map (fun c => map (fun _ => c) metrics)
                (unique String.compare (col_Country df))) /\
  (forall t, fst (summary_statistics_table fp df) = Ok t ->
     ascending String.compare (pt_index t) /\
     Permutation (pt_index t) (unique String.compare (col_Country df))).
Proof.
  split.
  - eexists. split; [rewrite summary_data_spec; reflexivity|].
    apply map_sr_Country_rows_for. apply expected_row_Country.
  - intros t Ht. pose proof (summary_table_Ok_inv fp df t Ht) as Hne.
    rewrite (summary_table_Ok fp df Hne) in Ht. inversion Ht; subst t; clear Ht.
    cbn [pt_index].
    assert (Hasc : ascending String.compare
                     (sorted_keys String.compare
                        (map sr_Country
                           (rows_for (expected_row fp df)
                              (unique String.compare (col_Country df)))))).
    { apply ascending_sorted_keys;
        [exact string_cmp_eq|exact String.compare_antisym|exact string_cmp_trans]. }
    split; [exact Hasc|].
    apply NoDup_Permutation.
    + apply (@ascending_NoDup _ String.compare string_cmp_eq). exact Hasc.
    + apply (@NoDup_unique _ _ string_cmp_eq).
    + intros c. rewrite In_summary_index.
      symmetry. apply (@In_unique _ _ string_cmp_eq).
Qed.

Lemma summary_order_witness :
  ascending String.compare (pt_index togo_first_table) /\
  Permutation (pt_index togo_first_table)
    (unique String.compare (col_Country togo_first)).
Proof.
  apply (proj2 (summary_order exact_arithmetic togo_first) togo_first_table).
  vm_compute. reflexivity.
Defined.

(** C10 as stated fails: Togo appears first in [togo_first], Benin comes
    first in the index of its summary table. *)
Lemma summary_index_not_in_order_of_appearance :
  fst (summary_statistics_table exact_arithmetic togo_first) = Ok togo_first_table /\
  pt_index togo_first_table = ["Benin"; "Togo"]%string /\
  unique String.compare (col_Country togo_first) = ["Togo"; "Benin"]%string /\
  pt_index togo_first_table <> unique String.compare (col_Country togo_first).
Proof.
  split; [vm_compute; reflexivity|].
  split; [reflexivity|]. split; [reflexivity|].
  vm_compute. discriminate.
Qed.

(** ** The analyzer on edge frames *)

Lemma summary_raises_without_records (fp : Float64) (df : DataFrame) :
  rows df = [] ->
  fst (summary_statistics_table fp df) = Raise (KeyError "Country").
Proof.
  intros E. rewrite summary_statistics_table_spec.
  unfold col_Country. rewrite E. reflexivity.
Qed.

(** X4: on a frame without records both computing methods raise and leave
    the frame as it was: the summary has no column to pivot on (KeyError),
    and the key observations find no first position in an empty [argsort]
    (IndexError). *)
Theorem analyzer_on_no_record (fp : Float64) (df : DataFrame) :
  rows df = [] ->
  summary_statistics_table fp df = (Raise (KeyError "Country"), df) /\
  generate_key_observations fp df
  = (Raise (IndexError "index 0 is out of bounds for axis 0 with size 0"), df).
Proof.
  intros E. split.
  - rewrite (surjective_pairing (summary_statistics_table fp df)).
    rewrite read_only_summary_statistics_table, summary_statistics_table_spec.
    unfold col_Country. rewrite E. reflexivity.
  - rewrite (surjective_pairing (generate_key_observations fp df)).
    rewrite read_only_generate_key_observations.
    rewrite generate_key_observations_render, key_observations_unfold.
    unfold means_of, col_Country. rewrite E. reflexivity.
Qed.

Lemma analyzer_on_no_record_witness :
  summary_statistics_table exact_arithmetic no_frame
  = (Raise (KeyError "Country"), no_frame) /\
  generate_key_observations exact_arithmetic no_frame
  = (Raise (IndexError "index 0 is out of bounds for axis 0 with size 0"), no_frame).
Proof. apply (analyzer_on_no_record exact_arithmetic no_frame). reflexivity. Defined.

Lemma rows_nonempty_of_table (fp : Float64) (df : DataFrame) (t : PivotTable) :
  fst (summary_statistics_table fp df) = Ok t -> rows df <> [].
Proof.
  intros H E. rewrite (summary_raises_without_records fp df E) in H.
  discriminate.
Qed.

Lemma position_label (l : list (string * string)) (x : string * string) :
  In x l -> exists j, position label_eqb x l = Some j /\ (j < length l)%nat.
Proof.
  induction l as [|y t IH]; [intros []|]. intros H. simpl.
  destruct (label_eqb y x) eqn:E.
  - exists 0%nat. split; [reflexivity|lia].
  - destruct H as [->|H].
    + unfold label_eqb in E. rewrite !String.eqb_refl in E. discriminate.
    + destruct (IH H) as [j [Hj Hlt]]. exists (S j). rewrite Hj.
      split; [reflexivity|lia].
Qed.

(** X5: a table that is returned is rectangular: fifteen column labels
    (five statistics by three metrics), one row of fifteen cells per
    country of the index, so that every country of the index and every
    column label address a cell. *)
Theorem summary_table_shape (fp : Float64) (df : DataFrame) (t : PivotTable) :
  fst (summary_statistics_table fp df) = Ok t ->
  pt_columns t = summary_columns /\
  length (pt_columns t) = 15%nat /\
  length (pt_data t) = length (pt_index t) /\
  (forall r, In r (pt_data t) -> length r = 15%nat) /\
  (forall c label, In c (pt_index t) -> In label (pt_columns t) ->
     exists v, pt_loc t c label = Some v).
Proof.
  intros Ht. pose proof (rows_nonempty_of_table fp df t Ht) as Hne.
  rewrite (summary_table_closed_form fp df Hne) in Ht.
  inversion Ht; subst t; clear Ht. cbn [pt_index pt_columns pt_data].
  split; [reflexivity|]. split; [reflexivity|].
  split; [apply length_map|]. split.
  - intros r Hr. apply in_map_iff in Hr. destruct Hr as [c [<- _]]. reflexivity.
  - intros c label Hc Hl. unfold pt_loc. cbn [pt_index pt_columns pt_data].
    destruct (position_In c _ Hc) as [i [Hp Hn]]. rewrite Hp.
    destruct (position_label _ label Hl) as [j [Hj Hlt]]. rewrite Hj.
    rewrite nth_error_map, Hn. cbn [option_map].
    match goal with |- exists v, nth_error ?row j = Some v =>
      destruct (nth_error row j) as [v|] eqn:E; [now exists v|] end.
    apply nth_error_None in E. simpl in E, Hlt. lia.
Qed.

Lemma summary_table_shape_witness :
  pt_columns togo_first_table = summary_columns /\
  length (pt_columns togo_first_table) = 15%nat /\
  length (pt_data togo_first_table) = length (pt_index togo_first_table) /\
  (forall r, In r (pt_data togo_first_table) -> length r = 15%nat) /\
  (forall c label, In c (pt_index togo_first_table) ->
     In label (pt_columns togo_first_table) ->
     exists v, pt_loc togo_first_table c label = Some v).
Proof.
  apply (summary_table_shape exact_arithmetic togo_first togo_first_table).
  vm_compute. reflexivity.
Defined.

Lemma median_of_odd (fp : Float64) (xs : list Q) :
  Nat.odd (length xs) = true ->
  median_of fp xs = Num (nth (length xs / 2) (Qsort xs) 0%Q).
Proof.
  unfold median_of. rewrite length_Qsort.
  destruct (length xs) as [|n]; [intros H; simpl in H; discriminate|].
  intros ->. reflexivity.
Qed.

(** X6: for a pair with at least one observed value, the Min and Max
    cells are observed values that bound every observed value; with an odd
    number of observed values the Median cell is an observed value as well,
    and so lies between them. *)
Theorem summary_statistics_ordered (fp : Float64) (df : DataFrame)
  (c : string) (m : column) :
  In c (col_Country df) -> In m metrics -> observed df c m <> [] ->
  exists t lo hi,
    fst (summary_statistics_table fp df) = Ok t /\
    pt_loc t c ("Min", column_name m)%string = Some (Num lo) /\
    pt_loc t c ("Max", column_name m)%string = Some (Num hi) /\
    In lo (observed df c m) /\ In hi (observed df c m) /\
    (forall x, In x (observed df c m) -> (lo <= x <= hi)%Q) /\
    (Nat.odd (length (observed df c m)) = true ->
     exists med,
       pt_loc t c ("Median", column_name m)%string = Some (Num med) /\
       In med (observed df c m) /\ (lo <= med <= hi)%Q).
Proof.
  intros Hc Hm Hne.
  destruct (summary_cells fp df c m Hc Hm) as [t [Ht Hcell]].
  destruct (observed df c m) as [|x xs] eqn:E; [congruence|].
  destruct (Qmin_list_spec xs x) as [Hlo_in Hlo].
  destruct (Qmax_list_spec xs x) as [Hhi_in Hhi].
  assert (Hb : forall y, In y (x :: xs) -> (Qmin_list x xs <= y <= Qmax_list x xs)%Q).
  { intros y Hy. split; [now apply Hlo|now apply Hhi]. }
  exists t, (Qmin_list x xs), (Qmax_list x xs).
  split; [exact Ht|].
  split; [exact (Hcell Min)|]. split; [exact (Hcell Max)|].
  split; [exact Hlo_in|]. split; [exact Hhi_in|]. split; [exact Hb|].
  intros Hodd. pose proof (Hcell Median) as HM. cbn [stat_name stat_of] in HM.
  rewrite (median_of_odd fp (x :: xs) Hodd) in HM.
  eexists. split; [exact HM|].
  assert (Hin : In (nth (length (x :: xs) / 2) (Qsort (x :: xs)) 0%Q) (x :: xs)).
  { apply In_Qsort, nth_In. rewrite length_Qsort. apply Nat.div_lt; simpl; lia. }
  split; [exact Hin|now apply Hb].
Qed.

(** Benin has the three GHI readings 100, 500 and 300 in
    [spaced_readings]. *)
Lemma summary_statistics_ordered_witness :
  (exists t lo hi,
     fst (summary_statistics_table exact_arithmetic spaced_readings) = Ok t /\
     pt_loc t "Benin" ("Min", column_name cGHI)%string = Some (Num lo) /\
     pt_loc t "Benin" ("Max", column_name cGHI)%string = Some (Num hi) /\
     In lo (observed spaced_readings "Benin" cGHI) /\
     In hi (observed spaced_readings "Benin" cGHI) /\
     (forall x, In x (observed spaced_readings "Benin" cGHI) -> (lo <= x <= hi)%Q) /\
     (Nat.odd (length (observed spaced_readings "Benin" cGHI)) = true ->
      exists med,
        pt_loc t "Benin" ("Median", column_name cGHI)%string = Some (Num med) /\
        In med (observed spaced_readings "Benin" cGHI) /\ (lo <= med <= hi)%Q)) /\
  exists t,
    fst (summary_statistics_table exact_arithmetic spaced_readings) = Ok t /\
    pt_loc t "Benin" ("Min", "GHI")%string = Some (Num 100) /\
    pt_loc t "Benin" ("Median", "GHI")%string = Some (Num 300) /\
    pt_loc t "Benin" ("Max", "GHI")%string = Some (Num 500).
Proof.
  split.
  - apply (summary_statistics_ordered exact_arithmetic spaced_readings "Benin" cGHI).
    + simpl. now left.
    + simpl. now left.
    + vm_compute. discriminate.
  - eexists. repeat split; vm_compute; reflexivity.
Defined.

(** The Mean cell is not bounded by the Min and Max cells: in float64 the
    mean of three readings of 0.1 is larger than 0.1. *)
Lemma float_mean_above_max :
  exists t mean hi,
    fst (summary_statistics_table binary64 three_tenths) = Ok t /\
    pt_loc t "Benin" ("Mean", "GHI")%string = Some (Num mean) /\
    pt_loc t "Benin" ("Max", "GHI")%string = Some (Num hi) /\
    pt_loc t "Benin" ("Min", "GHI")%string = Some (Num hi) /\
    hi = f64 (1 # 10) /\ (hi < mean)%Q.
Proof. do 3 eexists. repeat split; vm_compute; reflexivity. Qed.

(** X7: for a pair with exactly one observed value, the Mean, Median, Min
    and Max cells hold that value and the Std Dev cell is NaN. *)
Theorem single_observation (fp : Float64) (df : DataFrame)
  (c : string) (m : column) (x : Q) :
  In c (col_Country df) -> In m metrics -> observed df c m = [x] ->
  exists t mean,
    fst (summary_statistics_table fp df) = Ok t /\
    pt_loc t c ("Mean", column_name m)%string = Some (Num mean) /\
    (mean == x)%Q /\
    pt_loc t c ("Median", column_name m)%string = Some (Num x) /\
    pt_loc t c ("Min", column_name m)%string = Some (Num x) /\
    pt_loc t c ("Max", column_name m)%string = Some (Num x) /\
    pt_loc t c ("Std Dev", column_name m)%string = Some NaN.
Proof.
  intros Hc Hm E.
  destruct (summary_cells fp df c m Hc Hm) as [t [Ht Hcell]].
  rewrite E in Hcell.
  exists t, (fl_div fp (np_sum fp [x]) 1). split; [exact Ht|].
  split; [exact (Hcell Mean)|].
  split.
  { rewrite (fl_div_one fp). apply (np_sum_one fp). }
  split; [exact (Hcell Median)|].
  split; [exact (Hcell Min)|].
  split; [exact (Hcell Max)|].
  exact (Hcell StdDev).
Qed.

(** Togo has one DNI reading, 300, in [togo_first]. *)
Lemma single_observation_witness :
  (exists t mean,
    fst (summary_statistics_table exact_arithmetic togo_first) = Ok t /\
    pt_loc t "Togo" ("Mean", column_name cDNI)%string = Some (Num mean) /\
    (mean == 300)%Q /\
    pt_loc t "Togo" ("Median", column_name cDNI)%string = Some (Num 300) /\
    pt_loc t "Togo" ("Min", column_name cDNI)%string = Some (Num 300) /\
    pt_loc t "Togo" ("Max", column_name cDNI)%string = Some (Num 300) /\
    pt_loc t "Togo" ("Std Dev", column_name cDNI)%string = Some NaN) /\
  observed togo_first "Togo" cDNI = [300] /\
  map (fun s => pt_loc togo_first_table "Togo" (s, "DNI"))
      ["Mean"; "Median"; "Std Dev"; "Min"; "Max"]%string
  = [Some (Num 300); Some (Num 300); Some NaN; Some (Num 300); Some (Num 300)].
Proof.
  split; [|split; [reflexivity|vm_compute; reflexivity]].
  apply (single_observation exact_arithmetic togo_first "Togo" cDNI 300).
  - simpl. now left.
  - simpl. right. now left.
  - reflexivity.
Defined.

Lemma In_col_Country_records (df : DataFrame) (c : string) :
  In c (col_Country df) <-> records_of df c <> [].
Proof.
  unfold col_Country, records_of. split.
  - intros H E. apply in_map_iff in H. destruct H as [r [Hr Hin]].
    assert (Hf : In r (filter (fun r => String.eqb (Country r) c) (rows df))).
    { apply filter_In. split; [exact Hin|]. subst c. apply String.eqb_refl. }
    rewrite E in Hf. destruct Hf.
  - intros H.
    destruct (filter (fun r => String.eqb (Country r) c) (rows df)) as [|r t] eqn:E;
      [congruence|].
    assert (Hf : In r (filter (fun r => String.eqb (Country r) c) (rows df)))
      by (rewrite E; now left).
    apply filter_In in Hf. destruct Hf as [Hin Heq]. apply String.eqb_eq in Heq.
    subst c. now apply in_map.
Qed.

(** X8: the summary table depends only on the records each country has:
    two frames that give every country the same records, in whatever way
    the countries are interleaved, have the same outcome (the same table,
    or the same exception). *)
Theorem summary_ignores_interleaving (fp : Float64) (df1 df2 : DataFrame) :
  (forall c, records_of df1 c = records_of df2 c) ->
  fst (summary_statistics_table fp df1) = fst (summary_statistics_table fp df2).
Proof.
  intros H.
  assert (Hin : forall c, In c (col_Country df1) <-> In c (col_Country df2)).
  { intros c. rewrite !In_col_Country_records, H. tauto. }
  assert (Hobs : forall c m, observed df1 c m = observed df2 c m).
  { intros c m. unfold observed. now rewrite H. }
  destruct (rows df1) as [|r1 t1] eqn:E1.
  - assert (E2 : rows df2 = []).
    { destruct (rows df2) as [|r2 t2] eqn:E2; [reflexivity|]. exfalso.
      assert (Hc : In (Country r2) (col_Country df2))
        by (unfold col_Country; rewrite E2; now left).
      apply Hin in Hc. unfold col_Country in Hc. rewrite E1 in Hc. destruct Hc. }
    rewrite (summary_raises_without_records fp df1 E1).
    rewrite (summary_raises_without_records fp df2 E2). reflexivity.
  - assert (Hne1 : rows df1 <> []) by (rewrite E1; discriminate).
    assert (Hne2 : rows df2 <> []).
    { intros E2.
      assert (Hc : In (Country r1) (col_Country df1))
        by (unfold col_Country; rewrite E1; now left).
      apply Hin in Hc. unfold col_Country in Hc. rewrite E2 in Hc. destruct Hc. }
    rewrite (summary_table_closed_form fp df1 Hne1).
    rewrite (summary_table_closed_form fp df2 Hne2).
    rewrite (country_keys_ext _ _ Hin). do 2 f_equal.
    apply map_ext. intros c. cbn [flat_map map app].
    now rewrite !Hobs.
Qed.

Lemma summary_ignores_interleaving_witness :
  fst (summary_statistics_table exact_arithmetic togo_first)
  = fst (summary_statistics_table exact_arithmetic benin_first).
Proof.
  apply (summary_ignores_interleaving exact_arithmetic togo_first benin_first).
  intros c. unfold records_of, togo_first, benin_first, sample_row.
  cbn [rows filter Country].
  destruct (String.eqb_spec "Togo" c) as [<-|Hn]; [reflexivity|].
  destruct (String.eqb "Benin" c); reflexivity.
Defined.

(** ** The loader *)

Lemma len_concat (dfs : list DataFrame) : len (concat dfs) = total_len dfs.
Proof.
  unfold len, concat. cbn [rows].
  induction dfs as [|df t IH]; simpl; [reflexivity|].
  rewrite length_app, IH. reflexivity.
Qed.

Lemma col_Timestamp_concat (dfs : list DataFrame) :
  col_Timestamp (concat dfs) = timestamps_of dfs.
Proof.
  unfold col_Timestamp, concat, timestamps_of. cbn [rows].
  induction dfs as [|df t IH]; simpl; [reflexivity|].
  now rewrite map_app, IH.
Qed.

Lemma set_Timestamp_concat (dfs : list DataFrame) :
  set_Timestamp (timestamps_of dfs) (concat dfs) = concat dfs.
Proof. rewrite <- col_Timestamp_concat. apply set_Timestamp_id. Qed.

Lemma dict_set_fresh {A} (d : dict A) (k : string) (v : A) :
  ~ In k (keys d) -> dict_set d k v = d ++ [(k, v)].
Proof.
  induction d as [|[k' v'] t IH]; simpl; [reflexivity|]. intros H.
  destruct (String.eqb k' k) eqn:E.
  - apply String.eqb_eq in E. subst. exfalso. apply H. now left.
  - rewrite IH; [reflexivity|]. intros Hin. apply H. now right.
Qed.

Lemma dict_set_not_nil {A} (d : dict A) (k : string) (v : A) : dict_set d k v <> [].
Proof.
  destruct d as [|[k' v'] t]; simpl; [discriminate|].
  destruct (String.eqb k' k); discriminate.
Qed.

Lemma In_dict_set {A} (d : dict A) (k k0 : string) (v v0 : A) :
  In (k, v) (dict_set d k0 v0) -> (k, v) = (k0, v0) \/ In (k, v) d.
Proof.
  induction d as [|[k' v'] t IH]; simpl.
  - intros [H|[]]. left. now symmetry.
  - destruct (String.eqb k' k0) eqn:E; simpl.
    + apply String.eqb_eq in E. subst k'.
      intros [H|H]; [left; now symmetry|right; now right].
    + intros [H|H]; [right; now left|]. destruct (IH H); auto.
Qed.

Lemma map_fst_combine_eq {A B C} (f : A -> C) (l : list A) (l' : list B) :
  length l' = length l ->
  map (fun p => f (fst p)) (combine l l') = map f l.
Proof.
  revert l'. induction l as [|x t IH]; intros [|y t'] H; simpl in *;
    try discriminate; [reflexivity|].
  f_equal. apply IH. lia.
Qed.

Lemma map_snd_combine_eq {A B} (l : list A) (l' : list B) :
  length l' = length l -> map snd (combine l l') = l'.
Proof.
  revert l'. induction l as [|x t IH]; intros [|y t'] H; simpl in *;
    try discriminate; [reflexivity|].
  f_equal. apply IH. lia.
Qed.

Section LoaderFacts.
Variable env : Env.

(** The frame of a country that loads: the records of the file, tagged
    with the country, with the timestamps the conversion delivered. *)
Lemma load_country_frame (country path : string) (raw : list RawRow)
  (ts : list timestamp) :
  read_csv env path = Ok raw -> to_datetime env (map raw_Timestamp raw) = Ok ts ->
  exists df,
    load_country env country path = Ok df /\
    Hour df = None /\
    len df = length raw /\
    col_Country df = map (fun _ => country) raw /\
    col_Timestamp df = ts /\
    col cGHI df = map raw_GHI raw /\ col cDNI df = map raw_DNI raw /\
    col cDHI df = map raw_DHI raw /\ col cTamb df = map raw_Tamb raw.
Proof.
  intros Hr Ht. unfold load_country. rewrite Hr, Ht. eexists.
  split; [reflexivity|].
  pose proof (@to_datetime_length env _ _ Ht) as Hlen. rewrite length_map in Hlen.
  unfold len, col_Country, col_Timestamp, col. cbn [rows Hour]. rewrite !map_map.
  cbn [tag_row Country Timestamp cell GHI DNI DHI Tamb].
  split; [reflexivity|].
  split; [rewrite length_map, length_combine, Hlen; apply Nat.min_id|].
  split; [apply (map_fst_combine_eq (fun _ => country)); exact Hlen|].
  split; [apply map_snd_combine_eq; exact Hlen|].
  repeat split.
  - apply (map_fst_combine_eq raw_GHI). exact Hlen.
  - apply (map_fst_combine_eq raw_DNI). exact Hlen.
  - apply (map_fst_combine_eq raw_DHI). exact Hlen.
  - apply (map_fst_combine_eq raw_Tamb). exact Hlen.
Qed.

Lemma load_country_inv (country path : string) (df : DataFrame) :
  load_country env country path = Ok df ->
  exists raw ts,
    read_csv env path = Ok raw /\ to_datetime env (map raw_Timestamp raw) = Ok ts.
Proof.
  unfold load_country. intros H.
  destruct (read_csv env path) as [raw|e]; [|discriminate].
  destruct (to_datetime env (map raw_Timestamp raw)) as [ts|e] eqn:E; [|discriminate].
  now exists raw, ts.
Qed.

(** A frame that loads has one record per record of its file, each
    tagged with the country. *)
Lemma load_country_Ok (country path : string) (df : DataFrame) :
  load_country env country path = Ok df ->
  exists raw,
    read_csv env path = Ok raw /\ len df = length raw /\
    forall r, In r (rows df) -> Country r = country.
Proof.
  intros H. destruct (load_country_inv country path df H) as [raw [ts [Hr Ht]]].
  destruct (load_country_frame country path raw ts Hr Ht)
    as [df' [Hok [_ [Hlen [Hc _]]]]].
  rewrite Hok in H. inversion H; subst df'. exists raw.
  split; [exact Hr|]. split; [exact Hlen|].
  intros r Hin. apply (in_map Country) in Hin. fold (col_Country df) in Hin.
  rewrite Hc in Hin. apply in_map_iff in Hin. now destruct Hin as [x [Hx _]].
Qed.

Lemma keys_loaded (paths : dict string) (k : string) :
  In k (keys (loaded env paths)) -> In k (keys paths).
Proof.
  unfold keys, loaded.
  induction paths as [|[c p] t IH]; simpl; [auto|].
  destruct (load_country env c p); simpl; intuition.
Qed.

Lemma load_loop_countries (paths : dict string) :
  forall acc log,
    NoDup (keys paths) ->
    (forall k, In k (keys paths) -> ~ In k (keys acc)) ->
    fst (load_loop env paths acc log) = acc ++ loaded env paths.
Proof.
  induction paths as [|[c p] t IH]; intros acc log Hnd Hfresh; simpl.
  - now rewrite app_nil_r.
  - inversion Hnd as [|? ? Hc Hnd']; subst.
    unfold loaded. simpl flat_map.
    fold (loaded env t).
    destruct (load_country env c p) as [df|e].
    + rewrite IH; [|exact Hnd'|].
      * rewrite dict_set_fresh by (apply Hfresh; now left).
        now rewrite <- app_assoc.
      * intros k Hk. rewrite dict_set_fresh by (apply Hfresh; now left).
        unfold keys. rewrite map_app, in_app_iff. simpl.
        intros [H|[H|[]]].
        -- apply (Hfresh k); [now right|exact H].
        -- subst. contradiction.
    + apply IH; [exact Hnd'|]. intros k Hk. apply Hfresh. now right.
Qed.

Lemma load_loop_log (paths : dict string) :
  forall acc log,
    snd (load_loop env paths acc log) = log ++ map (notification env) paths.
Proof.
  induction paths as [|[c p] t IH]; intros acc log; cbn [load_loop map].
  - now rewrite app_nil_r.
  - assert (Hn : notification env (c, p)
                 = match load_country env c p with
                   | Ok df =>
                       st_info ("✓ Loaded " ++ c ++ ": " ++ str_nat (len df)
                                  ++ " records")%string
                   | Raise e =>
                       st_error ("✗ Error loading " ++ c ++ ": " ++ str_exn e)%string
                   end) by reflexivity.
    rewrite Hn.
    destruct (load_country env c p) as [df|e];
      rewrite IH, <- app_assoc; reflexivity.
Qed.

Lemma load_loop_nil (paths : dict string) :
  forall acc log,
    fst (load_loop env paths acc log) = [] <->
    acc = [] /\ forall c p, In (c, p) paths -> is_ok (load_country env c p) = false.
Proof.
  induction paths as [|[c p] t IH]; intros acc log; simpl.
  - split; [intros ->; split; [reflexivity|intros ? ? []]|tauto].
  - destruct (load_country env c p) as [df|e] eqn:E; rewrite IH.
    + split.
      * intros [H _]. exfalso. exact (dict_set_not_nil _ _ _ H).
      * intros [_ H]. specialize (H c p (or_introl eq_refl)).
        rewrite E in H. discriminate.
    + split.
      * intros [-> H]. split; [reflexivity|].
        intros c' p' [Heq|Hin]; [inversion Heq; subst; now rewrite E|auto].
      * intros [-> H]. split; [reflexivity|]. intros c' p' Hin. apply H. now right.
Qed.

(** Whatever the mapping holds at the end was there at the start or has
    been loaded. *)
Lemma load_loop_In (paths : dict string) :
  forall acc log c df,
    In (c, df) (fst (load_loop env paths acc log)) ->
    In (c, df) acc \/ loads env paths c df.
Proof.
  induction paths as [|[c0 p0] t IH]; intros acc log c df; simpl; [auto|].
  assert (Hweak : loads env t c df -> loads env ((c0, p0) :: t) c df).
  { intros [p [Hp Hok]]. exists p. split; [now right|exact Hok]. }
  destruct (load_country env c0 p0) as [df0|e] eqn:E; intros H.
  - destruct (IH _ _ _ _ H) as [Hin|Hl]; [|auto].
    destruct (In_dict_set _ _ _ _ _ Hin) as [Heq|Hacc]; [|auto].
    inversion Heq; subst. right. exists p0. split; [now left|exact E].
  - destruct (IH _ _ _ _ H) as [Hin|Hl]; auto.
Qed.

Lemma In_loaded (paths : dict string) (c : string) (df : DataFrame) :
  In (c, df) (loaded env paths) <-> loads env paths c df.
Proof.
  unfold loaded, loads. rewrite in_flat_map. split.
  - intros [[c' p] [Hin H]]. simpl in H.
    destruct (load_country env c' p) as [df'|e] eqn:E; [|destruct H].
    destruct H as [H|[]]. inversion H; subst. exists p. auto.
  - intros [p [Hin H]]. exists (c, p). split; [exact Hin|].
    simpl. rewrite H. now left.
Qed.

(** [load_data] as the loop followed by line 64. *)
Lemma load_from_unfold (paths : dict string) :
  load_from env paths =
  (match fst (load_loop env paths [] []) with
   | [] => Ok (None, [])
   | x :: t =>
       match to_datetime_parsed (timestamps_of (values (x :: t))) with
       | Raise e => Raise e
       | Ok s => Ok (Some (set_Timestamp s (concat (values (x :: t)))), x :: t)
       end
   end,
   map (notification env) paths).
Proof.
  unfold load_from.
  pose proof (load_loop_log paths [] []) as Hl.
  destruct (load_loop env paths [] []) as [countries log].
  simpl in Hl. subst log. cbn [fst].
  destruct countries as [|x t]; [reflexivity|].
  rewrite col_Timestamp_concat.
  destruct (to_datetime_parsed _); reflexivity.
Qed.

Lemma load_from_log (paths : dict string) :
  snd (load_from env paths) = map (notification env) paths.
Proof. now rewrite load_from_unfold. Qed.

(** The frames of a mapping whose entries were all loaded have timestamps
    of one kind as soon as the frames that load do. *)
Lemma one_time_zone_of_loaded (paths : dict string) (cs : dict DataFrame) :
  (forall c df, In (c, df) cs -> loads env paths c df) ->
  loaded_in_one_time_zone env paths ->
  same_time_zone (timestamps_of (values cs)).
Proof.
  intros Hcs Hz d d' Hd Hd'. unfold timestamps_of, values in *.
  apply in_flat_map in Hd. destruct Hd as [df [Hdf Hd]].
  apply in_flat_map in Hd'. destruct Hd' as [df' [Hdf' Hd']].
  apply in_map_iff in Hdf. destruct Hdf as [[c f] [Ef Hin]]. simpl in Ef. subst f.
  apply in_map_iff in Hdf'. destruct Hdf' as [[c' f'] [Ef' Hin']]. simpl in Ef'. subst f'.
  exact (Hz c df c' df' d d' (Hcs _ _ Hin) (Hcs _ _ Hin') Hd Hd').
Qed.

Lemma loaded_of_one_time_zone (paths : dict string) :
  same_time_zone (timestamps_of (values (loaded env paths))) ->
  loaded_in_one_time_zone env paths.
Proof.
  intros Hz c df c' df' d d' Hl Hl' Hd Hd'.
  apply In_loaded in Hl. apply In_loaded in Hl'.
  apply Hz; unfold timestamps_of, values; apply in_flat_map.
  - exists df. split; [|exact Hd]. apply in_map_iff. now exists (c, df).
  - exists df'. split; [|exact Hd']. apply in_map_iff. now exists (c', df').
Qed.

(** What the load comes to, with one path per country. *)
Lemma load_from_spec (paths : dict string) :
  NoDup (keys paths) ->
  load_from env paths =
  (match loaded env paths with
   | [] => Ok (None, [])
   | x :: t =>
       match to_datetime_parsed (timestamps_of (values (x :: t))) with
       | Raise e => Raise e
       | Ok s => Ok (Some (set_Timestamp s (concat (values (x :: t)))), x :: t)
       end
   end,
   map (notification env) paths).
Proof.
  intros Hnd. rewrite load_from_unfold.
  pose proof (load_loop_countries paths [] [] Hnd (fun _ _ H => H)) as Hc.
  simpl in Hc. now rewrite Hc.
Qed.

(** With timestamps of one kind, line 64 hands the column back. *)
Lemma load_from_one_time_zone (paths : dict string) :
  NoDup (keys paths) -> loaded_in_one_time_zone env paths ->
  fst (load_from env paths) =
  match loaded env paths with
  | [] => Ok (None, [])
  | x :: t => Ok (Some (concat (values (x :: t))), x :: t)
  end.
Proof.
  intros Hnd Hz. rewrite (load_from_spec paths Hnd). cbn [fst].
  destruct (loaded env paths) as [|x t] eqn:E; [reflexivity|].
  assert (Hs : same_time_zone (timestamps_of (values (x :: t)))).
  { apply (one_time_zone_of_loaded paths); [|exact Hz].
    intros c df Hin. apply In_loaded. now rewrite E. }
  rewrite (to_datetime_parsed_Ok _ Hs), <- col_Timestamp_concat.
  now rewrite set_Timestamp_id.
Qed.

(** Whatever the load returns: the mapping of the loop, and the
    concatenation of its frames. *)
Lemma load_from_Ok (paths : dict string) (comparison : option DataFrame)
  (countries : dict DataFrame) :
  fst (load_from env paths) = Ok (comparison, countries) ->
  countries = fst (load_loop env paths [] []) /\
  comparison = match countries with
               | [] => None
               | _ => Some (concat (values countries))
               end.
Proof.
  rewrite load_from_unfold. cbn [fst].
  destruct (fst (load_loop env paths [] [])) as [|x t].
  - intros H. inversion H. auto.
  - unfold to_datetime_parsed.
    destruct (check_datetimes false None 0 (timestamps_of (values (x :: t))));
      [discriminate|].
    intros H. inversion H; subst. split; [reflexivity|].
    f_equal. exact (set_Timestamp_concat (values (x :: t))).
Qed.
End LoaderFacts.

Lemma NoDup_keys_functional {A} (d : dict A) (k : string) (v v' : A) :
  NoDup (keys d) -> In (k, v) d -> In (k, v') d -> v = v'.
Proof.
  induction d as [|[k0 v0] t IH]; simpl; [intros _ []|].
  intros Hnd H1 H2. inversion Hnd as [|? ? Hk Hnd']; subst.
  assert (Hin : forall w, In (k0, w) t -> False).
  { intros w Hw. apply Hk. unfold keys. change k0 with (fst (k0, w)). now apply in_map. }
  destruct H1 as [H1|H1]; destruct H2 as [H2|H2].
  - congruence.
  - inversion H1; subst. exfalso. eauto.
  - inversion H2; subst. exfalso. eauto.
  - auto.
Qed.

Lemma file_paths_NoDup : NoDup (keys file_paths).
Proof.
  unfold keys, file_paths. simpl.
  repeat constructor; simpl; intuition discriminate.
Qed.

(** C7: with one path per country, every country of the mapping is gone
    through, whatever happens to the others: each gives its notification,
    in order, the error notice of a country whose file fails to load among
    them.  Whatever the loader returns, the mapping holds exactly the
    countries whose file loads, each with its frame; a country whose file
    fails to load is not in it; a frame has as many records as its file;
    and the combined frame has as many records as the loaded frames
    together.  The loader returns when the timestamps of the frames that
    load are of one kind; otherwise the conversion of line 64 raises
    ValueError. *)
Theorem failed_country_is_skipped (env : Env) (paths : dict string) :
  NoDup (keys paths) ->
  snd (load_from env paths) = map (notification env) paths /\
  (forall c p e,
     In (c, p) paths -> load_country env c p = Raise e ->
     In (st_error ("✗ Error loading " ++ c ++ ": " ++ str_exn e)%string)
        (snd (load_from env paths))) /\
  (forall comparison countries,
     fst (load_from env paths) = Ok (comparison, countries) ->
     (forall c df, In (c, df) countries <-> loads env paths c df) /\
     (forall c p e,
        In (c, p) paths -> load_country env c p = Raise e ->
        ~ In c (keys countries)) /\
     (forall c df,
        In (c, df) countries ->
        exists p raw,
          In (c, p) paths /\ read_csv env p = Ok raw /\ len df = length raw) /\
     (forall df, comparison = Some df -> len df = total_len (values countries))) /\
  (loaded_in_one_time_zone env paths ->
   exists comparison countries,
     fst (load_from env paths) = Ok (comparison, countries)) /\
  (~ loaded_in_one_time_zone env paths ->
   exists msg, fst (load_from env paths) = Raise (ValueError msg)).
Proof.
  intros Hnd.
  assert (Hlog : forall c p e,
             In (c, p) paths -> load_country env c p = Raise e ->
             In (st_error ("✗ Error loading " ++ c ++ ": " ++ str_exn e)%string)
                (map (notification env) paths)).
  { intros c p e Hp He. apply in_map_iff. exists (c, p). split; [|exact Hp].
    unfold notification. simpl fst. simpl snd. now rewrite He. }
  split; [apply load_from_log|].
  split; [intros c p e Hp He; rewrite load_from_log; now apply (Hlog c p e)|].
  split; [|split].
  - intros comparison countries Hret.
    destruct (load_from_Ok env paths comparison countries Hret) as [Hcs Hcmp].
    rewrite (load_loop_countries env paths [] [] Hnd (fun _ _ H => H)) in Hcs.
    simpl in Hcs. subst countries.
    assert (Hin : forall c df, In (c, df) (loaded env paths) <-> loads env paths c df).
    { intros c df. apply In_loaded. }
    split; [exact Hin|]. split; [|split].
    + intros c p e Hp He Hk. unfold keys in Hk. apply in_map_iff in Hk.
      destruct Hk as [[c' df] [Hc Hcd]]. simpl in Hc. subst c'.
      apply Hin in Hcd. destruct Hcd as [p' [Hp' Hok]].
      rewrite (NoDup_keys_functional paths c p p' Hnd Hp Hp') in He. congruence.
    + intros c df Hcd. apply Hin in Hcd. destruct Hcd as [p [Hp Hok]].
      destruct (load_country_Ok env c p df Hok) as [raw [Hr [Hl _]]].
      exists p, raw. auto.
    + intros df Hdf. rewrite Hcmp in Hdf.
      destruct (loaded env paths) as [|x t]; [discriminate|].
      inversion Hdf. apply len_concat.
  - intros Hz. rewrite (load_from_one_time_zone env paths Hnd Hz).
    destruct (loaded env paths); eauto.
  - intros Hz. rewrite (load_from_spec env paths Hnd). cbn [fst].
    destruct (loaded env paths) as [|x t] eqn:E.
    + exfalso. apply Hz. intros c df c' df' d d' Hl. apply In_loaded in Hl.
      rewrite E in Hl. destruct Hl.
    + assert (Hs : ~ same_time_zone (timestamps_of (values (x :: t)))).
      { intros Hs. apply Hz. apply loaded_of_one_time_zone. now rewrite E. }
      destruct (to_datetime_parsed_Raise _ Hs) as [msg Hmsg].
      exists msg. now rewrite Hmsg.
Qed.

Lemma mixed_loads_in_two_time_zones : ~ loaded_in_one_time_zone mixed_env file_paths.
Proof.
  intros H.
  assert (Hs : same_time_zone (timestamps_of (values (loaded mixed_env file_paths)))).
  { apply (one_time_zone_of_loaded mixed_env file_paths); [|exact H].
    intros c df. apply In_loaded. }
  apply one_time_zone_iff in Hs. vm_compute in Hs. discriminate.
Qed.

(** With the file of Sierra Leone missing, Benin (two records) and Togo
    (one) are loaded, in that order, and the combined frame has three
    records; with the timestamps of Togo's file written with a UTC offset
    and those of Benin's without, line 64 raises. *)
Lemma failed_country_is_skipped_witness :
  (snd (load_from sample_env file_paths) = map (notification sample_env) file_paths /\
   (forall c p e,
      In (c, p) file_paths -> load_country sample_env c p = Raise e ->
      In (st_error ("✗ Error loading " ++ c ++ ": " ++ str_exn e)%string)
         (snd (load_from sample_env file_paths))) /\
   (forall comparison countries,
      fst (load_from sample_env file_paths) = Ok (comparison, countries) ->
      (forall c df, In (c, df) countries <-> loads sample_env file_paths c df) /\
      (forall c p e,
         In (c, p) file_paths -> load_country sample_env c p = Raise e ->
         ~ In c (keys countries)) /\
      (forall c df,
         In (c, df) countries ->
         exists p raw,
           In (c, p) file_paths /\ read_csv sample_env p = Ok raw /\
           len df = length raw) /\
      (forall df, comparison = Some df -> len df = total_len (values countries))) /\
   (loaded_in_one_time_zone sample_env file_paths ->
    exists comparison countries,
      fst (load_from sample_env file_paths) = Ok (comparison, countries)) /\
   (~ loaded_in_one_time_zone sample_env file_paths ->
    exists msg, fst (load_from sample_env file_paths) = Raise (ValueError msg))) /\
  (exists msg, fst (load_from mixed_env file_paths) = Raise (ValueError msg)) /\
  fst (load_from mixed_env file_paths)
  = Raise (ValueError ("Tz-aware datetime.datetime cannot be converted to "
                         ++ "datetime64 unless utc=True, at position 2")) /\
  exists comparison benin togo,
    load_data sample_env
    = (Ok (Some comparison, [("Benin", benin); ("Togo", togo)]%string),
       [ st_info "✓ Loaded Benin: 2 records";
         st_error ("✗ Error loading Sierra Leone: [Errno 2] No such file or "
                     ++ "directory: 'src/notebooks/data1/sierraleone.csv'");
         st_info "✓ Loaded Togo: 1 records" ]) /\
    len comparison = 3%nat /\ len benin = 2%nat /\ len togo = 1%nat /\
    col_Country comparison = ["Benin"; "Benin"; "Togo"]%string.
Proof.
  split; [|split; [|split]].
  - apply (failed_country_is_skipped sample_env file_paths).
    exact file_paths_NoDup.
  - apply (failed_country_is_skipped mixed_env file_paths file_paths_NoDup).
    exact mixed_loads_in_two_time_zones.
  - vm_compute. reflexivity.
  - do 3 eexists. repeat split; vm_compute; reflexivity.
Defined.

(** ** The result of the load and the guard of [main] *)

(** C8, amended: when some country loads and the timestamps of the frames
    that load are of one kind, the loader returns the concatenation of the
    frames of the mapping together with the non-empty mapping, each entry
    of which is a country with the frame it loads into; when no country
    loads, it returns [None] and the empty mapping.  On [None], [main]
    shows the notifications and the "No data loaded" error and returns,
    whatever page is selected; otherwise it goes on to the selected
    page. *)
Theorem load_result (env : Env) (fp : Float64) (paths : dict string) :
  ((exists c df, loads env paths c df) ->
   loaded_in_one_time_zone env paths ->
   exists countries log,
     load_from env paths = (Ok (Some (concat (values countries)), countries), log) /\
     countries <> [] /\
     forall c df, In (c, df) countries -> loads env paths c df) /\
  ((forall c p, In (c, p) paths -> is_ok (load_country env c p) = false) ->
   exists log, load_from env paths = (Ok (None, []), log)) /\
  (forall countries log,
     load_data env = (Ok (None, countries), log) ->
     forall p choice,
       main env fp p choice
       = ((st_markdown main_header :: log)
            ++ [st_error "No data loaded. Please check file paths."],
          Ok tt)) /\
  (forall df countries log,
     load_data env = (Ok (Some df, countries), log) ->
     forall p choice,
       main env fp p choice
       = ((st_markdown main_header :: log)
            ++ st_sidebar_title "Navigation"
                 :: fst (show_page env fp p choice df countries),
          snd (show_page env fp p choice df countries))).
Proof.
  pose proof (load_loop_nil env paths [] []) as Hnil.
  split; [|split; [|split]].
  - intros [c [df [p [Hp Hok]]]] Hz.
    rewrite (load_from_unfold env paths).
    pose proof (load_loop_In env paths [] []) as Hin.
    destruct (fst (load_loop env paths [] [])) as [|x t] eqn:E.
    + exfalso. destruct Hnil as [Hnil _]. destruct (Hnil eq_refl) as [_ Hall].
      specialize (Hall c p Hp). rewrite Hok in Hall. discriminate.
    + assert (Hcs : forall c' df', In (c', df') (x :: t) -> loads env paths c' df').
      { intros c' df' H'. destruct (Hin c' df' H') as [[]|Hl]. exact Hl. }
      pose proof (one_time_zone_of_loaded env paths (x :: t) Hcs Hz) as Hs.
      rewrite (to_datetime_parsed_Ok _ Hs), <- col_Timestamp_concat.
      rewrite set_Timestamp_id.
      exists (x :: t), (map (notification env) paths).
      split; [reflexivity|]. split; [discriminate|exact Hcs].
  - intros Hall. rewrite (load_from_unfold env paths).
    destruct Hnil as [_ Hnil]. rewrite (Hnil (conj eq_refl Hall)).
    eexists. reflexivity.
  - intros countries log H p choice. unfold main. rewrite H. reflexivity.
  - intros df countries log H p choice. unfold main. rewrite H.
    destruct (show_page env fp p choice df countries). reflexivity.
Qed.

Lemma sample_loads_in_one_time_zone : loaded_in_one_time_zone sample_env file_paths.
Proof.
  apply loaded_of_one_time_zone. now apply one_time_zone_iff.
Qed.

(** With the file of Sierra Leone missing the loader returns the three
    records of Benin and Togo; with every file missing, [None] and the
    empty mapping. *)
Lemma load_result_witness :
  (exists countries log,
     load_from sample_env file_paths
     = (Ok (Some (concat (values countries)), countries), log) /\
     countries <> [] /\
     forall c df, In (c, df) countries -> loads sample_env file_paths c df) /\
  (exists log, load_from no_file_env file_paths = (Ok (None, []), log)) /\
  (exists comparison countries log,
     load_from sample_env file_paths = (Ok (Some comparison, countries), log) /\
     keys countries = ["Benin"; "Togo"]%string /\
     col_Country comparison = ["Benin"; "Benin"; "Togo"]%string /\
     col cGHI comparison = [Num 1; Num 2; Num 3]) /\
  (forall p choice,
     main no_file_env exact_arithmetic p choice
     = ((st_markdown main_header :: snd (load_data no_file_env))
          ++ [st_error "No data loaded. Please check file paths."],
        Ok tt)).
Proof.
  split; [|split; [|split]]; cycle 3.
  { apply (proj1 (proj2 (proj2 (load_result no_file_env exact_arithmetic file_paths)))
             []).
    vm_compute. reflexivity. }
  - apply (load_result sample_env exact_arithmetic file_paths).
    + exists "Togo"%string. eexists. exists "src/notebooks/data1/togo.csv"%string.
      split; [simpl; intuition|vm_compute; reflexivity].
    + exact sample_loads_in_one_time_zone.
  - apply (load_result no_file_env exact_arithmetic file_paths).
    intros c p Hp. reflexivity.
  - do 3 eexists. repeat split; vm_compute; reflexivity.
Defined.

(** C8 as stated fails: with the timestamps of Benin's file written
    without a time zone and those of Togo's file with a UTC offset, both
    countries load, and the conversion of line 64, outside the [try] block,
    raises on the combined column: the loader returns nothing, and [main]
    ends with the exception on every page. *)
Lemma loaded_countries_without_result :
  (exists df, load_country mixed_env "Benin" "src/notebooks/data1/benin.csv" = Ok df) /\
  (exists df, load_country mixed_env "Togo" "src/notebooks/data1/togo.csv" = Ok df) /\
  load_data mixed_env
  = (Raise (ValueError ("Tz-aware datetime.datetime cannot be converted to "
                          ++ "datetime64 unless utc=True, at position 2")),
     [ st_info "✓ Loaded Benin: 2 records";
       st_error ("✗ Error loading Sierra Leone: [Errno 2] No such file or "
                   ++ "directory: 'src/notebooks/data1/sierraleone.csv'");
       st_info "✓ Loaded Togo: 1 records" ]) /\
  forall p choice,
    snd (main mixed_env exact_arithmetic p choice)
    = Raise (ValueError ("Tz-aware datetime.datetime cannot be converted to "
                           ++ "datetime64 unless utc=True, at position 2")).
Proof.
  split; [eexists; vm_compute; reflexivity|].
  split; [eexists; vm_compute; reflexivity|].
  split; [vm_compute; reflexivity|].
  intros p choice. vm_compute. reflexivity.
Qed.

(** With every file missing, [main] shows the title, one error per
    country and the "No data loaded" error, on every page. *)
Lemma main_without_files (p : page) (choice : nat) :
  main no_file_env exact_arithmetic p choice
  = ([ st_markdown main_header;
       st_error ("✗ Error loading Benin: [Errno 2] No such file or "
                   ++ "directory: 'src/notebooks/data1/benin.csv'");
       st_error ("✗ Error loading Sierra Leone: [Errno 2] No such file or "
                   ++ "directory: 'src/notebooks/data1/sierraleone.csv'");
       st_error ("✗ Error loading Togo: [Errno 2] No such file or "
                   ++ "directory: 'src/notebooks/data1/togo.csv'");
       st_error "No data loaded. Please check file paths." ], Ok tt).
Proof. vm_compute. reflexivity. Qed.

(** The comment above [load_data] has the files in a [data] folder; the
    paths of the script are under [src/notebooks/data1].  With the files
    where the comment has them no country loads, and [main] stops at the
    "No data loaded" error. *)
Lemma files_in_the_data_folder (p : page) (choice : nat) :
  load_data data_folder_env
  = (Ok (None, []),
     [ st_error ("✗ Error loading Benin: [Errno 2] No such file or "
                   ++ "directory: 'src/notebooks/data1/benin.csv'");
       st_error ("✗ Error loading Sierra Leone: [Errno 2] No such file or "
                   ++ "directory: 'src/notebooks/data1/sierraleone.csv'");
       st_error ("✗ Error loading Togo: [Errno 2] No such file or "
                   ++ "directory: 'src/notebooks/data1/togo.csv'") ]) /\
  snd (main data_folder_env exact_arithmetic p choice) = Ok tt /\
  last (fst (main data_folder_env exact_arithmetic p choice)) (st_markdown "")
  = st_error "No data loaded. Please check file paths.".
Proof. repeat split; vm_compute; reflexivity. Qed.

(** ** More on the loader *)

(** X14: a country's file loads exactly when it can be read and
    [pd.to_datetime] accepts its Timestamp column, taken as a whole; the
    exception of the step that fails is the outcome for the country.  The
    frame of a country that loads has no Hour column, one record per
    record of the file in the order of the file, the country on every
    record, the timestamps the conversion delivered, and the four
    measurement columns as they were read. *)
Theorem load_country_outcome (env : Env) (country path : string) :
  (forall e, read_csv env path = Raise e -> load_country env country path = Raise e) /\
  (forall raw e,
     read_csv env path = Ok raw ->
     to_datetime env (map raw_Timestamp raw) = Raise e ->
     load_country env country path = Raise e) /\
  (forall raw ts,
     read_csv env path = Ok raw ->
     to_datetime env (map raw_Timestamp raw) = Ok ts ->
     exists df,
       load_country env country path = Ok df /\
       Hour df = None /\
       len df = length raw /\
       col_Country df = map (fun _ => country) raw /\
       col_Timestamp df = ts /\
       col cGHI df = map raw_GHI raw /\ col cDNI df = map raw_DNI raw /\
       col cDHI df = map raw_DHI raw /\ col cTamb df = map raw_Tamb raw) /\
  (forall df,
     load_country env country path = Ok df ->
     exists raw ts,
       read_csv env path = Ok raw /\ to_datetime env (map raw_Timestamp raw) = Ok ts).
Proof.
  split; [|split; [|split]].
  - intros e H. unfold load_country. now rewrite H.
  - intros raw e Hr Ht. unfold load_country. now rewrite Hr, Ht.
  - intros raw ts. apply load_country_frame.
  - intros df. apply load_country_inv.
Qed.

(** The file of Togo holds one record, taken at 00:01 on 2021-10-25. *)
Lemma load_country_outcome_witness :
  (exists df,
     load_country sample_env "Togo" "src/notebooks/data1/togo.csv" = Ok df /\
     Hour df = None /\
     len df = length [sample_raw "2021-10-25 00:01" 3] /\
     col_Country df = map (fun _ => "Togo"%string) [sample_raw "2021-10-25 00:01" 3] /\
     col_Timestamp df = [Some {| wall := 1635120060%Z; utcoffset := None |}] /\
     col cGHI df = map raw_GHI [sample_raw "2021-10-25 00:01" 3] /\
     col cDNI df = map raw_DNI [sample_raw "2021-10-25 00:01" 3] /\
     col cDHI df = map raw_DHI [sample_raw "2021-10-25 00:01" 3] /\
     col cTamb df = map raw_Tamb [sample_raw "2021-10-25 00:01" 3]) /\
  load_country sample_env "Togo" "src/notebooks/data1/togo.csv"
  = Ok {| rows := [ {| Timestamp := Some {| wall := 1635120060%Z; utcoffset := None |};
                       Country := "Togo";
                       GHI := Num 3; DNI := NaN; DHI := NaN; Tamb := Num 30 |} ];
          Hour := None |} /\
  load_country sample_env "Sierra Leone" "src/notebooks/data1/sierraleone.csv"
  = Raise (file_not_found "src/notebooks/data1/sierraleone.csv").
Proof.
  split; [|split].
  - apply (proj1 (proj2 (proj2 (load_country_outcome sample_env "Togo"
                                  "src/notebooks/data1/togo.csv")))).
    + reflexivity.
    + reflexivity.
  - reflexivity.
  - apply (proj1 (load_country_outcome sample_env "Sierra Leone"
                    "src/notebooks/data1/sierraleone.csv")).
    reflexivity.
Defined.

Lemma NoDup_keys_loaded (env : Env) (paths : dict string) :
  NoDup (keys paths) -> NoDup (keys (loaded env paths)).
Proof.
  unfold keys, loaded. induction paths as [|[c p] t IH]; simpl; intros H.
  - constructor.
  - inversion H as [|? ? Hc Hnd]; subst.
    destruct (load_country env c p) as [df|e]; simpl; [|auto].
    constructor; [|auto]. intros Hin. apply Hc.
    apply (keys_loaded env t c Hin).
Qed.

(** Filtering a concatenation of tagged frames by a key gives back the
    frame stored under that key. *)
Lemma split_concat (d : dict DataFrame) (c : string) (df : DataFrame) :
  NoDup (keys d) ->
  (forall k f r, In (k, f) d -> In r (rows f) -> Country r = k) ->
  In (c, df) d ->
  records_of (concat (values d)) c = rows df.
Proof.
  unfold records_of, concat, values. cbn [rows].
  induction d as [|[k f] t IH]; intros Hnd Htag Hin; [destruct Hin|].
  inversion Hnd as [|? ? Hk Hnd']; subst. cbn [map flat_map snd].
  rewrite filter_app.
  assert (Htag' : forall k0 f0 r, In (k0, f0) t -> In r (rows f0) -> Country r = k0).
  { intros k0 f0 r H. apply Htag. now right. }
  destruct Hin as [E|Hin].
  - inversion E; subst k f.
    assert (H1 : filter (fun r => String.eqb (Country r) c) (rows df) = rows df).
    { apply forallb_filter_id. apply forallb_forall. intros r Hr.
      apply String.eqb_eq. apply (Htag c df r); [now left|exact Hr]. }
    assert (H2 : filter (fun r => String.eqb (Country r) c)
                   (flat_map rows (map snd t)) = []).
    { destruct (filter _ (flat_map rows (map snd t))) as [|r rs] eqn:Ef; [reflexivity|].
      exfalso.
      assert (Hr : In r (filter (fun r => String.eqb (Country r) c)
                           (flat_map rows (map snd t)))) by (rewrite Ef; now left).
      apply filter_In in Hr. destruct Hr as [Hr Heq]. apply String.eqb_eq in Heq.
      apply in_flat_map in Hr. destruct Hr as [f [Hf Hrf]].
      apply in_map_iff in Hf. destruct Hf as [[k' f'] [Ef' Hkf]]. simpl in Ef'. subst f'.
      apply Hk. rewrite <- Heq, (Htag' k' f r Hkf Hrf).
      unfold keys. change k' with (fst (k', f)). now apply in_map. }
    now rewrite H1, H2, app_nil_r.
  - assert (Hkc : k <> c).
    { intros ->. apply Hk. unfold keys. change c with (fst (c, df)). now apply in_map. }
    assert (H1 : filter (fun r => String.eqb (Country r) c) (rows f) = []).
    { destruct (filter _ (rows f)) as [|r rs] eqn:Ef; [reflexivity|]. exfalso.
      assert (Hr : In r (filter (fun r => String.eqb (Country r) c) (rows f)))
        by (rewrite Ef; now left).
      apply filter_In in Hr. destruct Hr as [Hr Heq]. apply String.eqb_eq in Heq.
      apply Hkc. rewrite <- Heq. symmetry. apply (Htag k f r); [now left|exact Hr]. }
    rewrite H1. cbn [app]. now apply IH.
Qed.

(** What a load that returns a combined frame has returned, with one path
    per country. *)
Lemma load_from_loaded (env : Env) (paths : dict string) (comparison : DataFrame)
  (countries : dict DataFrame) (log : list ui_event) :
  NoDup (keys paths) ->
  load_from env paths = (Ok (Some comparison, countries), log) ->
  countries = loaded env paths /\ countries <> [] /\
  comparison = concat (values countries).
Proof.
  intros Hnd H.
  assert (Hf : fst (load_from env paths) = Ok (Some comparison, countries))
    by now rewrite H.
  destruct (load_from_Ok env paths _ _ Hf) as [Hcs Hcmp].
  rewrite (load_loop_countries env paths [] [] Hnd (fun _ _ H => H)) in Hcs.
  simpl in Hcs. split; [exact Hcs|].
  destruct countries as [|x t]; [discriminate|].
  split; [discriminate|]. now inversion Hcmp.
Qed.

Lemma loaded_tagged (env : Env) (paths : dict string) (k : string) (f : DataFrame)
  (r : Row) :
  In (k, f) (loaded env paths) -> In r (rows f) -> Country r = k.
Proof.
  intros Hkf Hr. apply In_loaded in Hkf. destruct Hkf as [p [_ Hok]].
  destruct (load_country_Ok env k p f Hok) as [raw [_ [_ Ht]]].
  now apply Ht.
Qed.

(** X15: with one path per country, splitting the combined frame by
    country gives back the per-country frames: the records of the combined
    frame that carry a loaded country are the records of that country's
    frame, in order; and every record of the combined frame carries a
    loaded country. *)
Theorem combined_splits_into_countries (env : Env)
  (paths : dict string) (comparison : DataFrame) (countries : dict DataFrame)
  (log : list ui_event) :
  NoDup (keys paths) ->
  load_from env paths = (Ok (Some comparison, countries), log) ->
  (forall c df, In (c, df) countries ->
     rows (where_country comparison c) = rows df) /\
  (forall r, In r (rows comparison) -> In (Country r) (keys countries)).
Proof.
  intros Hnd H.
  destruct (load_from_loaded env paths comparison countries log Hnd H)
    as [Hcs [_ Hcmp]].
  assert (Htag : forall k f r, In (k, f) countries -> In r (rows f) -> Country r = k).
  { rewrite Hcs. apply loaded_tagged. }
  assert (Hndc : NoDup (keys countries)).
  { rewrite Hcs. now apply NoDup_keys_loaded. }
  subst comparison. split.
  - intros c df Hin. rewrite rows_where_country.
    exact (split_concat countries c df Hndc Htag Hin).
  - intros r Hr. unfold concat in Hr. cbn [rows] in Hr.
    apply in_flat_map in Hr. destruct Hr as [f [Hf Hrf]].
    unfold values in Hf.
    apply in_map_iff in Hf. destruct Hf as [[k f'] [Ef Hkf]].
    simpl in Ef. subst f'. rewrite (Htag k f r Hkf Hrf).
    unfold keys. change k with (fst (k, f)). now apply in_map.
Qed.

(** With the file of Sierra Leone missing, the combined frame splits into
    the two records of Benin and the record of Togo. *)
Lemma combined_splits_into_countries_witness :
  exists comparison benin togo log,
    load_data sample_env
    = (Ok (Some comparison, [("Benin", benin); ("Togo", togo)]%string), log) /\
    ((forall c df,
        In (c, df) [("Benin", benin); ("Togo", togo)]%string ->
        rows (where_country comparison c) = rows df) /\
     (forall r,
        In r (rows comparison) ->
        In (Country r) (keys [("Benin", benin); ("Togo", togo)]%string))) /\
    map GHI (rows (where_country comparison "Benin")) = [Num 1; Num 2] /\
    map GHI (rows (where_country comparison "Togo")) = [Num 3].
Proof.
  do 4 eexists. split; [vm_compute; reflexivity|]. split.
  - apply (combined_splits_into_countries sample_env file_paths _ _
             (snd (load_data sample_env))).
    + exact file_paths_NoDup.
    + vm_compute. reflexivity.
  - split; vm_compute; reflexivity.
Defined.

(** X16: the loader gives one notification per entry of the path mapping,
    in the order of the mapping: a success notice with the number of
    records of the frame for a country that loads, an error notice with
    the text of the exception for one that does not. *)
Theorem one_notification_per_country (env : Env) (paths : dict string) :
  length (snd (load_from env paths)) = length paths /\
  forall i c p,
    nth_error paths i = Some (c, p) ->
    nth_error (snd (load_from env paths)) i
    = Some (match load_country env c p with
            | Ok df =>
                st_info ("✓ Loaded " ++ c ++ ": " ++ str_nat (len df)
                           ++ " records")%string
            | Raise e =>
                st_error ("✗ Error loading " ++ c ++ ": " ++ str_exn e)%string
            end).
Proof.
  rewrite load_from_log. split; [apply length_map|].
  intros i c p Hi. rewrite nth_error_map, Hi. reflexivity.
Qed.

Lemma one_notification_per_country_witness :
  nth_error (snd (load_from sample_env file_paths)) 1
  = Some (match load_country sample_env
                  "Sierra Leone" "src/notebooks/data1/sierraleone.csv" with
          | Ok df =>
              st_info ("✓ Loaded " ++ "Sierra Leone" ++ ": " ++ str_nat (len df)
                         ++ " records")%string
          | Raise e =>
              st_error ("✗ Error loading " ++ "Sierra Leone" ++ ": "
                          ++ str_exn e)%string
          end) /\
  snd (load_from sample_env file_paths)
  = [ st_info "✓ Loaded Benin: 2 records";
      st_error ("✗ Error loading Sierra Leone: [Errno 2] No such file or "
                  ++ "directory: 'src/notebooks/data1/sierraleone.csv'");
      st_info "✓ Loaded Togo: 1 records" ].
Proof.
  split; [|vm_compute; reflexivity].
  apply (proj2 (one_notification_per_country sample_env file_paths)).
  reflexivity.
Defined.

(** ** The pages of [main] *)

(** A load that returns a combined frame returns the concatenation of a
    non-empty mapping, its Timestamp column a datetime column. *)
Lemma load_from_Some (env : Env) (paths : dict string) (df : DataFrame)
  (countries : dict DataFrame) (log : list ui_event) :
  load_from env paths = (Ok (Some df, countries), log) ->
  countries <> [] /\ df = concat (values countries) /\
  same_time_zone (col_Timestamp df).
Proof.
  intros H.
  assert (Hf : fst (load_from env paths) = Ok (Some df, countries)) by now rewrite H.
  destruct (load_from_Ok env paths _ _ Hf) as [Hcs Hcmp].
  destruct countries as [|x t]; [discriminate|].
  split; [discriminate|]. inversion Hcmp as [Hdf]. split; [reflexivity|].
  rewrite load_from_unfold in Hf. cbn [fst] in Hf. rewrite <- Hcs in Hf.
  rewrite col_Timestamp_concat.
  unfold to_datetime_parsed in Hf.
  destruct (check_datetimes false None 0 (timestamps_of (values (x :: t)))) eqn:E;
    [discriminate|].
  now apply (check_datetimes_start _ 0%nat).
Qed.

Lemma selectbox_In (options : list string) (choice : nat) :
  options <> [] ->
  exists o, selectbox options choice = Some o /\ In o options.
Proof.
  intros Hne. unfold selectbox.
  destruct (nth_error options choice) as [o|] eqn:E.
  - exists o. split; [reflexivity|]. eapply nth_error_In; eassumption.
  - destruct options as [|o t]; [congruence|]. exists o. split; [reflexivity|now left].
Qed.

Lemma dict_get_In {A} (d : dict A) (k : string) :
  In k (keys d) -> exists v, dict_get d k = Ok v /\ In (k, v) d.
Proof.
  intros Hk. unfold dict_get.
  destruct (find (fun kv => String.eqb (fst kv) k) d) as [[k' v]|] eqn:E.
  - apply find_some in E. destruct E as [Hin Heq]. simpl in Heq.
    apply String.eqb_eq in Heq. subst k'. exists v. auto.
  - exfalso. unfold keys in Hk. apply in_map_iff in Hk.
    destruct Hk as [[k' v] [Ek Hin]]. simpl in Ek. subst k'.
    pose proof (find_none _ _ E _ Hin) as Hf. simpl in Hf.
    rewrite String.eqb_refl in Hf. discriminate.
Qed.

(** X17: after a load that returned a combined frame, the Overview page
    shows the three metrics and then draws 5000 records without
    replacement from a frame that has as many records as the loaded frames
    together: with fewer than 5000 of them the page ends with ValueError
    and shows no chart. *)
Theorem overview_needs_5000_records (env : Env) (fp : Float64)
  (df : DataFrame) (countries : dict DataFrame)
  (log : list ui_event) (choice : nat) :
  load_data env = (Ok (Some df, countries), log) ->
  len df = total_len (values countries) /\
  ((total_len (values countries) < 5000)%nat ->
   main env fp Overview choice
   = ((st_markdown main_header :: log)
        ++ [ st_sidebar_title "Navigation";
             st_metric "Total Records" (str_nat (len df));
             st_metric "Countries Analyzed" (str_nat (length countries));
             st_metric "Overall Avg GHI"
               (format_2f (Series_mean fp (col cGHI df)) ++ " W/m²")%string ],
      Raise (ValueError
               "Cannot take a larger sample than population when 'replace=False'"))).
Proof.
  intros H. destruct (load_from_Some env _ _ _ _ H) as [_ [Hdf Hz]].
  assert (Hlen : len df = total_len (values countries)).
  { rewrite Hdf. apply len_concat. }
  split; [exact Hlen|]. unfold main. rewrite H. unfold show_page.
  rewrite (dt_hour_Ok _ Hz), Hlen.
  intros Hn. apply Nat.ltb_lt in Hn. rewrite Hn. reflexivity.
Qed.

(** The sample files hold three records. *)
Lemma overview_needs_5000_records_witness :
  main sample_env exact_arithmetic Overview 0
  = ([ st_markdown main_header;
       st_info "✓ Loaded Benin: 2 records";
       st_error ("✗ Error loading Sierra Leone: [Errno 2] No such file or "
                   ++ "directory: 'src/notebooks/data1/sierraleone.csv'");
       st_info "✓ Loaded Togo: 1 records";
       st_sidebar_title "Navigation";
       st_metric "Total Records" "3";
       st_metric "Countries Analyzed" "2";
       st_metric "Overall Avg GHI" "2.00 W/m²" ],
     Raise (ValueError
              "Cannot take a larger sample than population when 'replace=False'")).
Proof.
  destruct (overview_needs_5000_records sample_env exact_arithmetic
              (concat (values (loaded sample_env file_paths)))
              (loaded sample_env file_paths)
              (snd (load_data sample_env))
              0 eq_refl) as [_ H].
  rewrite H; [vm_compute; reflexivity|]. vm_compute. lia.
Defined.

(** X18: after a load that returned a combined frame, the Individual
    Countries page always finds the selected country in the mapping, for
    any selection: it never ends with KeyError, and what it shows is the
    insight of a loaded country on its stored frame, followed by the trend
    chart, or nothing when the insight raises. *)
Theorem individual_page_finds_its_country (env : Env) (fp : Float64)
  (df : DataFrame) (countries : dict DataFrame)
  (log : list ui_event) (choice : nat) :
  load_data env = (Ok (Some df, countries), log) ->
  exists c stored,
    In (c, stored) countries /\
    main env fp IndividualCountries choice
    = match fst (generate_country_insights fp (Some stored) c) with
      | Ok insights =>
          ((st_markdown main_header :: log)
             ++ [ st_sidebar_title "Navigation";
                  st_markdown ("<div class=" ++ dquote ++ "country-card" ++ dquote
                                 ++ ">" ++ insights ++ "</div>")%string;
                  st_plotly_chart (c ++ " GHI Trend (First 1000 records)")%string ],
           Ok tt)
      | Raise e =>
          ((st_markdown main_header :: log) ++ [st_sidebar_title "Navigation"],
           Raise e)
      end.
Proof.
  intros H. destruct (load_from_Some env _ _ _ _ H) as [Hne _].
  assert (Hk : keys countries <> []).
  { destruct countries; [congruence|discriminate]. }
  destruct (selectbox_In (keys countries) choice Hk) as [c [Hsel Hc]].
  destruct (dict_get_In countries c Hc) as [stored [Hget Hin]].
  exists c, stored. split; [exact Hin|].
  unfold main. rewrite H. unfold show_page. rewrite Hsel, Hget. unfold copy.
  destruct (fst (generate_country_insights fp (Some stored) c)); reflexivity.
Qed.

(** A selection beyond the last country falls back on the first one. *)
Lemma individual_page_finds_its_country_witness :
  (exists c stored,
     In (c, stored) (loaded sample_env file_paths) /\
     main sample_env exact_arithmetic IndividualCountries 7
     = match fst (generate_country_insights exact_arithmetic (Some stored) c) with
       | Ok insights =>
           ((st_markdown main_header :: snd (load_data sample_env))
              ++ [ st_sidebar_title "Navigation";
                   st_markdown ("<div class=" ++ dquote ++ "country-card" ++ dquote
                                  ++ ">" ++ insights ++ "</div>")%string;
                   st_plotly_chart (c ++ " GHI Trend (First 1000 records)")%string ],
            Ok tt)
       | Raise e =>
           ((st_markdown main_header :: snd (load_data sample_env))
              ++ [st_sidebar_title "Navigation"],
            Raise e)
       end) /\
  main sample_env exact_arithmetic IndividualCountries 7
  = ([ st_markdown main_header;
       st_info "✓ Loaded Benin: 2 records";
       st_error ("✗ Error loading Sierra Leone: [Errno 2] No such file or "
                   ++ "directory: 'src/notebooks/data1/sierraleone.csv'");
       st_info "✓ Loaded Togo: 1 records";
       st_sidebar_title "Navigation";
       st_markdown ("<div class=" ++ dquote ++ "country-card" ++ dquote ++ ">"
                      ++ nl ++ "    ### Benin Key Insights" ++ nl
                      ++ "    - **Avg GHI**: 1.50 W/m²" ++ nl
                      ++ "    - **Avg DNI**: nan W/m²" ++ nl
                      ++ "    - **Avg DHI**: nan W/m²" ++ nl
                      ++ "    - **Avg Temp**: 30.00 °C" ++ nl
                      ++ "    - **Peak Hour**: 0:00" ++ nl
                      ++ "    " ++ "</div>");
       st_plotly_chart "Benin GHI Trend (First 1000 records)" ],
     Ok tt).
Proof.
  split; [|vm_compute; reflexivity].
  apply (individual_page_finds_its_country sample_env exact_arithmetic
           (concat (values (loaded sample_env file_paths)))).
  vm_compute. reflexivity.
Defined.

(** X19: after a load that returned a combined frame with at least one
    record, the Key Observations page and the Country Comparison page end
    normally; when the loaded files hold no record at all, the first ends
    with IndexError and the second with KeyError. *)
Theorem analysis_pages_outcome (env : Env) (fp : Float64)
  (df : DataFrame) (countries : dict DataFrame)
  (log : list ui_event) (choice : nat) :
  load_data env = (Ok (Some df, countries), log) ->
  (rows df <> [] ->
   snd (main env fp KeyObservations choice) = Ok tt /\
   snd (main env fp CountryComparison choice) = Ok tt) /\
  (rows df = [] ->
   snd (main env fp KeyObservations choice)
   = Raise (IndexError "index 0 is out of bounds for axis 0 with size 0") /\
   snd (main env fp CountryComparison choice)
   = Raise (KeyError "Country")).
Proof.
  intros H. unfold main. rewrite H. unfold show_page. split.
  - intros Hne. split.
    + destruct (key_observations_selection fp df Hne) as [i [c [v [Hi [Hc _]]]]].
      rewrite generate_key_observations_render, key_observations_unfold, Hi, Hc.
      reflexivity.
    + rewrite (summary_table_closed_form fp df Hne). reflexivity.
  - intros E. split.
    + rewrite (key_observations_raise_without_records fp df E). reflexivity.
    + rewrite (summary_raises_without_records fp df E). reflexivity.
Qed.

Lemma analysis_pages_outcome_witness :
  (snd (main sample_env exact_arithmetic KeyObservations 0) = Ok tt /\
   snd (main sample_env exact_arithmetic CountryComparison 0) = Ok tt) /\
  snd (main header_only_env exact_arithmetic KeyObservations 0)
  = Raise (IndexError "index 0 is out of bounds for axis 0 with size 0") /\
  snd (main header_only_env exact_arithmetic CountryComparison 0)
  = Raise (KeyError "Country").
Proof.
  split.
  - apply (analysis_pages_outcome sample_env exact_arithmetic
             (concat (values (loaded sample_env file_paths)))
             (loaded sample_env file_paths)
             (snd (load_data sample_env)) 0).
    + vm_compute. reflexivity.
    + vm_compute. discriminate.
  - apply (analysis_pages_outcome header_only_env exact_arithmetic
             (concat (values (loaded header_only_env file_paths)))
             (loaded header_only_env file_paths)
             (snd (load_data header_only_env)) 0).
    + vm_compute. reflexivity.
    + vm_compute. reflexivity.
Defined.

(** ** Agreement between the outputs *)

(** X21: with one path per country, the averages on a country's card
    agree with the summary table of the combined frame: for a loaded
    country whose frame has records, the mean of GHI, DNI or DHI over its
    own frame, which the per-country insight prints, is the Mean cell of
    that country and metric in the table. *)
Theorem card_agrees_with_summary (env : Env) (fp : Float64)
  (paths : dict string) (comparison : DataFrame)
  (countries : dict DataFrame) (log : list ui_event)
  (c : string) (stored : DataFrame) (m : column) :
  NoDup (keys paths) ->
  load_from env paths = (Ok (Some comparison, countries), log) ->
  In (c, stored) countries -> rows stored <> [] -> In m metrics ->
  exists t,
    fst (summary_statistics_table fp comparison) = Ok t /\
    pt_loc t c ("Mean", column_name m)%string = Some (Series_mean fp (col m stored)).
Proof.
  intros Hnd H Hin Hne Hm.
  destruct (load_from_loaded env paths comparison countries log Hnd H)
    as [Hcs [_ Hcmp]].
  assert (Htag : forall k f r, In (k, f) countries -> In r (rows f) -> Country r = k).
  { rewrite Hcs. apply loaded_tagged. }
  assert (Hndc : NoDup (keys countries)).
  { rewrite Hcs. now apply NoDup_keys_loaded. }
  pose proof (split_concat countries c stored Hndc Htag Hin) as Hsplit.
  rewrite <- Hcmp in Hsplit.
  assert (Hc : In c (col_Country comparison)).
  { apply In_col_Country_records. rewrite Hsplit. exact Hne. }
  destruct (summary_cells fp comparison c m Hc Hm) as [t [Ht Hcell]].
  exists t. split; [exact Ht|].
  pose proof (Hcell Mean) as HM. cbn [stat_name] in HM. rewrite HM.
  unfold observed. rewrite Hsplit. unfold Series_mean, col, stat_of.
  now rewrite dropna_numbers.
Qed.

(** The two GHI readings of Benin, 1 and 2, average 3/2 on the card and
    in the table. *)
Lemma card_agrees_with_summary_witness :
  exists benin,
    In ("Benin"%string, benin) (loaded sample_env file_paths) /\
    col cGHI benin = [Num 1; Num 2] /\
    Series_mean exact_arithmetic (col cGHI benin) = Num (3 # 2) /\
    exists t,
      fst (summary_statistics_table exact_arithmetic
             (concat (values (loaded sample_env file_paths)))) = Ok t /\
      pt_loc t "Benin" ("Mean", column_name cGHI)%string
      = Some (Series_mean exact_arithmetic (col cGHI benin)).
Proof.
  eexists. split; [vm_compute; left; reflexivity|].
  split; [reflexivity|]. split; [vm_compute; reflexivity|].
  apply (card_agrees_with_summary sample_env exact_arithmetic
           file_paths _ (loaded sample_env file_paths)
           (snd (load_data sample_env)) "Benin").
  - exact file_paths_NoDup.
  - vm_compute. reflexivity.
  - vm_compute. left. reflexivity.
  - discriminate.
  - simpl. now left.
Defined.

(** The key observations and the summary table do not always agree on the
    mean of a country: the first is the mean [groupby] makes, with a
    compensated sum, the second the mean of the Series.  For the GHI
    readings 0.05, 0.1 and 0.075 the text shows 0.07 and the Mean cell of
    the table, printed the same way, 0.08. *)
Lemma text_and_table_round_apart :
  shown_mean binary64 three_small_readings "Benin" cGHI = "0.07"%string /\
  fst (generate_key_observations binary64 three_small_readings)
  = Ok (nl ++ "        📊 SOLAR POTENTIAL RANKING:" ++ nl
        ++ "        1. Benin: Avg GHI 0.07 W/m²" ++ nl
        ++ "        2. Togo: Avg GHI 0.00 W/m²" ++ nl
        ++ "        3. Sierra Leone: Avg GHI 0.00 W/m²" ++ nl
        ++ "        " ++ nl
        ++ "        🎯 TOP INSIGHTS:" ++ nl
        ++ "        1. Highest Solar Potential: Benin (0.07 W/m² GHI)" ++ nl
        ++ "        2. Best DNI: Benin (nan W/m²)" ++ nl
        ++ "        3. Optimal Temperature: Benin (25.00°C)" ++ nl
        ++ "        ")%string /\
  exists t mean,
    fst (summary_statistics_table binary64 three_small_readings) = Ok t /\
    pt_loc t "Benin" ("Mean", "GHI")%string = Some mean /\
    format_2f mean = "0.08"%string.
Proof.
  split; [vm_compute; reflexivity|]. split; [vm_compute; reflexivity|].
  do 2 eexists. repeat split; vm_compute; reflexivity.
Qed.

(** ** The box plots *)

Lemma palette_color_Ok (colors : list string) (i : nat) :
  colors <> [] -> palette_color colors i = Ok (color_at colors i).
Proof.
  intros Hne. unfold palette_color, color_at.
  destruct colors as [|c0 cs] eqn:E; [congruence|]. rewrite <- E.
  assert (Hlt : (i mod length colors < length colors)%nat).
  { apply Nat.mod_upper_bound. rewrite E. simpl. lia. }
  destruct (nth_error colors (i mod length colors)) as [c|] eqn:En.
  - f_equal. symmetry. now apply nth_error_nth.
  - apply nth_error_None in En. lia.
Qed.

Lemma country_traces_spec (colors : list string) (df : DataFrame) (m : column)
  (countries : list string) :
  colors <> [] ->
  forall idx acc,
    country_traces colors m (subplot_of m) idx countries acc df
    = (Ok (acc ++ expected_traces df (color_at colors) m idx countries), df).
Proof.
  intros Hne. induction countries as [|c t IH]; intros idx acc; simpl.
  - unfold ret. now rewrite app_nil_r.
  - unfold bind at 1, read at 1. unfold bind at 1, lift at 1.
    rewrite (palette_color_Ok colors idx Hne), IH, <- app_assoc.
    now rewrite dropna_where_country.
Qed.

Lemma metric_traces_spec (colors : list string) (df : DataFrame)
  (countries : list string) :
  colors <> [] ->
  metric_traces colors metrics 1 countries [] df
  = (Ok (flat_map (fun m => expected_traces df (color_at colors) m 0 countries) metrics),
     df).
Proof.
  intros Hne. unfold metrics. cbn [metric_traces flat_map]. unfold bind.
  pose proof (country_traces_spec colors df cGHI countries Hne 0) as H1.
  pose proof (country_traces_spec colors df cDNI countries Hne 0) as H2.
  pose proof (country_traces_spec colors df cDHI countries Hne 0) as H3.
  cbn [subplot_of] in H1, H2, H3.
  rewrite H1, H2, H3. unfold ret. now rewrite app_nil_r, <- app_assoc.
Qed.

Lemma boxplots_spec (colors : list string) (df : DataFrame) :
  colors <> [] ->
  exists fig,
    fst (metric_comparison_boxplots colors df) = Ok fig /\
    fig_traces fig
    = flat_map (fun m => expected_traces df (color_at colors) m 0
                           (unique String.compare (col_Country df))) metrics.
Proof.
  intros Hne. unfold metric_comparison_boxplots, bind at 1, unique_countries, read.
  unfold bind. rewrite (metric_traces_spec colors df _ Hne). unfold ret.
  eexists. split; reflexivity.
Qed.

Lemma length_expected_traces (df : DataFrame) (color : nat -> string) (m : column)
  (countries : list string) :
  forall idx, length (expected_traces df color m idx countries) = length countries.
Proof. induction countries as [|c t IH]; intros idx; simpl; congruence. Qed.

Lemma In_expected_traces (df : DataFrame) (color : nat -> string) (m : column)
  (countries : list string) (t : BoxTrace) :
  forall idx,
    In t (expected_traces df color m idx countries) <->
    exists i c,
      nth_error countries i = Some c /\
      t = {| box_y := observed df c m; box_name := c;
             box_marker_color := color (idx + i)%nat;
             box_row := 1; box_col := subplot_of m |}.
Proof.
  induction countries as [|c0 cs IH]; intros idx; simpl.
  - split; [intros []|]. intros [i [c [H _]]]. destruct i; discriminate.
  - rewrite IH. split.
    + intros [<-|[i [c [Hn ->]]]].
      * exists 0%nat, c0. rewrite Nat.add_0_r. auto.
      * exists (S i), c. split; [exact Hn|]. now rewrite Nat.add_succ_r.
    + intros [[|i] [c [Hn ->]]].
      * left. inversion Hn. now rewrite Nat.add_0_r.
      * right. exists i, c. split; [exact Hn|]. now rewrite Nat.add_succ_r.
Qed.

Lemma filter_expected_traces_other (df : DataFrame) (color : nat -> string)
  (m : column) (c : string) (j : nat) (countries : list string) :
  subplot_of m <> j \/ ~ In c countries ->
  forall idx, filter (trace_at c j) (expected_traces df color m idx countries) = [].
Proof.
  intros H. induction countries as [|c0 cs IH]; intros idx; simpl; [reflexivity|].
  unfold trace_at at 1. simpl.
  destruct H as [H|H].
  - apply Nat.eqb_neq in H. rewrite H, andb_false_r. apply IH. left.
    now apply Nat.eqb_neq.
  - assert (Hn : String.eqb c0 c = false).
    { apply String.eqb_neq. intros ->. apply H. now left. }
    rewrite Hn. apply IH. right. intros Hin. apply H. now right.
Qed.

Lemma filter_expected_traces_one (df : DataFrame) (color : nat -> string)
  (m : column) (c : string) (countries : list string) :
  NoDup countries -> In c countries ->
  forall idx,
    exists i,
      nth_error countries i = Some c /\
      filter (trace_at c (subplot_of m)) (expected_traces df color m idx countries)
      = [ {| box_y := observed df c m; box_name := c;
             box_marker_color := color (idx + i)%nat;
             box_row := 1; box_col := subplot_of m |} ].
Proof.
  intros Hnd. induction Hnd as [|c0 cs Hc0 Hnd IH]; intros Hc idx; [destruct Hc|].
  simpl. unfold trace_at at 1. simpl. rewrite Nat.eqb_refl, andb_true_r.
  destruct (string_dec c0 c) as [->|Hn].
  - rewrite String.eqb_refl. exists 0%nat. split; [reflexivity|].
    rewrite Nat.add_0_r. f_equal.
    apply filter_expected_traces_other. now right.
  - destruct Hc as [Hc|Hc]; [contradiction|].
    apply String.eqb_neq in Hn. rewrite Hn.
    destruct (IH Hc (S idx)) as [i [Hi Hf]].
    exists (S i). split; [exact Hi|]. now rewrite Hf, Nat.add_succ_r.
Qed.

(** X1: with a palette that is not empty the figure is returned; it holds
    three traces per country of the frame; for a country of the frame and
    a metric there is exactly one trace with that name in that metric's
    subplot, and its values are the non-missing values of the metric for
    the country; every trace is named after a country of the frame and
    sits in row 1, column 1, 2 or 3. *)
Theorem boxplot_traces (colors : list string) (df : DataFrame) :
  colors <> [] ->
  exists fig,
    fst (metric_comparison_boxplots colors df) = Ok fig /\
    length (fig_traces fig)
    = (3 * length (unique String.compare (col_Country df)))%nat /\
    (forall c m, In c (col_Country df) -> In m metrics ->
       exists t,
         filter (trace_at c (subplot_of m)) (fig_traces fig) = [t] /\
         box_y t = observed df c m) /\
    (forall t, In t (fig_traces fig) ->
       In (box_name t) (col_Country df) /\ box_row t = 1%nat /\
       (1 <= box_col t <= 3)%nat).
Proof.
  intros Hne. destruct (boxplots_spec colors df Hne) as [fig [Hfig Htr]].
  exists fig. split; [exact Hfig|]. rewrite Htr. unfold metrics. simpl.
  rewrite app_nil_r.
  set (cs := unique String.compare (col_Country df)).
  assert (Hnd : NoDup cs) by apply (@NoDup_unique _ _ string_cmp_eq).
  split; [|split].
  - rewrite !length_app, !length_expected_traces. lia.
  - intros c m Hc Hm.
    assert (Hcu : In c cs) by now apply (proj2 (@In_unique _ _ string_cmp_eq c _)).
    rewrite !filter_app.
    assert (Hone : forall m',
               exists t,
                 filter (trace_at c (subplot_of m'))
                   (expected_traces df (color_at colors) m' 0 cs) = [t] /\
                 box_y t = observed df c m').
    { intros m'.
      destruct (filter_expected_traces_one df (color_at colors) m' c cs Hnd Hcu 0)
        as [i [_ Hf]].
      rewrite Hf. eexists. split; reflexivity. }
    destruct Hm as [<-|[<-|[<-|[]]]].
    + destruct (Hone cGHI) as [t [Hf Hy]]. exists t. split; [|exact Hy].
      rewrite Hf, !filter_expected_traces_other by (left; simpl; lia). reflexivity.
    + destruct (Hone cDNI) as [t [Hf Hy]]. exists t. split; [|exact Hy].
      rewrite Hf, !filter_expected_traces_other by (left; simpl; lia). reflexivity.
    + destruct (Hone cDHI) as [t [Hf Hy]]. exists t. split; [|exact Hy].
      rewrite Hf, !filter_expected_traces_other by (left; simpl; lia). reflexivity.
  - intros t Ht. rewrite !in_app_iff in Ht.
    destruct Ht as [Ht|[Ht|Ht]]; apply In_expected_traces in Ht;
      destruct Ht as [i [c [Hn ->]]]; simpl;
      (split; [apply (proj1 (@In_unique _ _ string_cmp_eq c _));
               eapply nth_error_In; eassumption
              |split; [reflexivity|lia]]).
Qed.

(** Togo is recorded first in [togo_first], and two of its three DNI
    readings are missing. *)
Lemma boxplot_traces_witness :
  (exists fig,
    fst (metric_comparison_boxplots Set2 togo_first) = Ok fig /\
    length (fig_traces fig)
    = (3 * length (unique String.compare (col_Country togo_first)))%nat /\
    (forall c m, In c (col_Country togo_first) -> In m metrics ->
       exists t,
         filter (trace_at c (subplot_of m)) (fig_traces fig) = [t] /\
         box_y t = observed togo_first c m) /\
    (forall t, In t (fig_traces fig) ->
       In (box_name t) (col_Country togo_first) /\ box_row t = 1%nat /\
       (1 <= box_col t <= 3)%nat)) /\
  exists fig,
    fst (metric_comparison_boxplots Set2 togo_first) = Ok fig /\
    map (fun t => (box_name t, box_col t, box_y t)) (fig_traces fig)
    = [ ("Togo", 1%nat, [500; 100; 300]); ("Benin", 1%nat, [3]);
        ("Togo", 2%nat, [300]); ("Benin", 2%nat, [2]);
        ("Togo", 3%nat, [500; 100; 300]); ("Benin", 3%nat, [3]) ]%string.
Proof.
  split; [|eexists; split; vm_compute; reflexivity].
  apply (boxplot_traces Set2 togo_first). discriminate.
Defined.

Lemma In_boxplot_traces (colors : list string) (df : DataFrame) (t : BoxTrace) :
  In t (flat_map (fun m => expected_traces df (color_at colors) m 0
                             (unique String.compare (col_Country df))) metrics) ->
  exists i,
    nth_error (unique String.compare (col_Country df)) i = Some (box_name t) /\
    box_marker_color t = color_at colors i.
Proof.
  rewrite in_flat_map. intros [m [_ Ht]].
  apply In_expected_traces in Ht. destruct Ht as [i [c [Hn ->]]].
  exists i. simpl. auto.
Qed.

Lemma NoDup_nth_error_eq {A} (l : list A) (i j : nat) (x : A) :
  NoDup l -> nth_error l i = Some x -> nth_error l j = Some x -> i = j.
Proof.
  intros Hnd Hi Hj.
  apply (proj1 (NoDup_nth_error l) Hnd).
  - apply nth_error_Some. congruence.
  - congruence.
Qed.

(** X2: with a palette that is not empty, every trace is drawn in a colour
    of the palette, the one at the position of its country among the
    countries of the frame (modulo the size of the palette); so a country
    has one colour across the three subplots, and when the palette has no
    repeated colour and at least as many colours as the frame has
    countries, two traces of the same colour are of the same country. *)
Theorem boxplot_colours (colors : list string) (df : DataFrame) :
  colors <> [] ->
  exists fig,
    fst (metric_comparison_boxplots colors df) = Ok fig /\
    (forall t, In t (fig_traces fig) ->
       In (box_marker_color t) colors /\
       exists i,
         nth_error (unique String.compare (col_Country df)) i = Some (box_name t) /\
         nth_error colors (i mod length colors) = Some (box_marker_color t)) /\
    (forall t1 t2, In t1 (fig_traces fig) -> In t2 (fig_traces fig) ->
       box_name t1 = box_name t2 -> box_marker_color t1 = box_marker_color t2) /\
    (NoDup colors ->
     (length (unique String.compare (col_Country df)) <= length colors)%nat ->
     forall t1 t2, In t1 (fig_traces fig) -> In t2 (fig_traces fig) ->
       box_marker_color t1 = box_marker_color t2 -> box_name t1 = box_name t2).
Proof.
  intros Hne. destruct (boxplots_spec colors df Hne) as [fig [Hfig Htr]].
  exists fig. split; [exact Hfig|]. rewrite Htr.
  set (cs := unique String.compare (col_Country df)).
  assert (Hnd : NoDup cs) by apply (@NoDup_unique _ _ string_cmp_eq).
  assert (Hlen : (0 < length colors)%nat).
  { destruct colors; [congruence|simpl; lia]. }
  assert (Hcol : forall i, nth_error colors (i mod length colors)
                           = Some (color_at colors i)).
  { intros i. unfold color_at. apply nth_error_nth'.
    apply Nat.mod_upper_bound. lia. }
  split; [|split].
  - intros t Ht. destruct (In_boxplot_traces colors df t Ht) as [i [Hi Hc]].
    rewrite Hc. split.
    + eapply nth_error_In. apply Hcol.
    + exists i. split; [exact Hi|apply Hcol].
  - intros t1 t2 H1 H2 Hname.
    destruct (In_boxplot_traces colors df t1 H1) as [i1 [Hi1 Hc1]].
    destruct (In_boxplot_traces colors df t2 H2) as [i2 [Hi2 Hc2]].
    rewrite Hname in Hi1.
    rewrite Hc1, Hc2, (NoDup_nth_error_eq _ i1 i2 _ Hnd Hi1 Hi2). reflexivity.
  - intros Hndc Hle t1 t2 H1 H2 Hc.
    destruct (In_boxplot_traces colors df t1 H1) as [i1 [Hi1 Hc1]].
    destruct (In_boxplot_traces colors df t2 H2) as [i2 [Hi2 Hc2]].
    assert (Hb1 : (i1 < length cs)%nat) by (apply nth_error_Some; fold cs in Hi1; congruence).
    assert (Hb2 : (i2 < length cs)%nat) by (apply nth_error_Some; fold cs in Hi2; congruence).
    fold cs in Hle.
    pose proof (Hcol i1) as E1. pose proof (Hcol i2) as E2.
    rewrite Nat.mod_small in E1, E2 by lia.
    rewrite <- Hc1 in E1. rewrite <- Hc2, <- Hc in E2.
    assert (Hi : i1 = i2) by (eapply NoDup_nth_error_eq; eassumption).
    subst i2. fold cs in Hi1, Hi2. congruence.
Qed.

Lemma boxplot_colours_witness :
  exists fig,
    fst (metric_comparison_boxplots Set2 togo_first) = Ok fig /\
    (forall t, In t (fig_traces fig) ->
       In (box_marker_color t) Set2 /\
       exists i,
         nth_error (unique String.compare (col_Country togo_first)) i
         = Some (box_name t) /\
         nth_error Set2 (i mod length Set2) = Some (box_marker_color t)) /\
    (forall t1 t2, In t1 (fig_traces fig) -> In t2 (fig_traces fig) ->
       box_name t1 = box_name t2 -> box_marker_color t1 = box_marker_color t2) /\
    (NoDup Set2 ->
     (length (unique String.compare (col_Country togo_first)) <= length Set2)%nat ->
     forall t1 t2, In t1 (fig_traces fig) -> In t2 (fig_traces fig) ->
       box_marker_color t1 = box_marker_color t2 -> box_name t1 = box_name t2).
Proof.
  apply (boxplot_colours Set2 togo_first). discriminate.
Defined.

Lemma read_only_country_traces (colors : list string) (m : column) (j : nat)
  (countries : list string) :
  forall idx acc, read_only (country_traces colors m j idx countries acc).
Proof.
  induction countries as [|c t IH]; intros idx acc; simpl.
  - apply read_only_ret.
  - apply read_only_bind; [apply read_only_read|]. intros y.
    apply read_only_bind; [apply read_only_lift|]. intros color. apply IH.
Qed.

Lemma read_only_metric_traces (colors : list string) (countries : list string)
  (ms : list column) :
  forall j acc, read_only (metric_traces colors ms j countries acc).
Proof.
  induction ms as [|m t IH]; intros j acc; simpl.
  - apply read_only_ret.
  - apply read_only_bind; [apply read_only_country_traces|]. intros tr. apply IH.
Qed.

Lemma unique_cons_head (x : string) (l : list string) :
  exists t, unique String.compare (x :: l) = x :: t.
Proof. unfold unique. simpl. eexists. reflexivity. Qed.

(** X3: the method never changes the frame.  On a frame without records
    it returns a figure without traces, whatever the palette; with an
    empty palette and a frame that has a record it raises
    ZeroDivisionError. *)
Theorem boxplot_edges (colors : list string) (df : DataFrame) :
  snd (metric_comparison_boxplots colors df) = df /\
  (rows df = [] ->
   exists fig, fst (metric_comparison_boxplots colors df) = Ok fig /\
               fig_traces fig = []) /\
  (rows df <> [] -> colors = [] ->
   fst (metric_comparison_boxplots colors df)
   = Raise (ZeroDivisionError "integer division or modulo by zero")).
Proof.
  split; [|split].
  - unfold metric_comparison_boxplots.
    apply read_only_bind; [apply read_only_read|]. intros cs.
    apply read_only_bind; [apply read_only_metric_traces|]. intros tr.
    apply read_only_ret.
  - intros E. unfold metric_comparison_boxplots, bind, unique_countries, read, col_Country.
    rewrite E. simpl. eexists. split; reflexivity.
  - intros Hne ->. unfold metric_comparison_boxplots, bind at 1, unique_countries, read.
    unfold col_Country. destruct (rows df) as [|r t]; [congruence|].
    destruct (unique_cons_head (Country r) (map Country t)) as [cs Hcs].
    cbn [map]. rewrite Hcs. reflexivity.
Qed.

Lemma boxplot_edges_witness :
  fst (metric_comparison_boxplots [] one_record)
  = Raise (ZeroDivisionError "integer division or modulo by zero").
Proof.
  apply (boxplot_edges [] one_record); [discriminate|reflexivity].
Defined.

(** The figure of [togo_first]: Togo, recorded first, is drawn in the
    first colour of the palette, and its missing DNI readings are left
    out. *)
Lemma boxplots_of_togo_first :
  exists fig,
    fst (metric_comparison_boxplots Set2 togo_first) = Ok fig /\
    fig_subplot_titles fig
    = ["GHI Distribution"; "DNI Distribution"; "DHI Distribution"]%string /\
    map (fun t => (box_name t, box_col t, box_y t, box_marker_color t)) (fig_traces fig)
    = [ ("Togo", 1%nat, [500; 100; 300], "rgb(102,194,165)");
        ("Benin", 1%nat, [3], "rgb(252,141,98)");
        ("Togo", 2%nat, [300], "rgb(102,194,165)");
        ("Benin", 2%nat, [2], "rgb(252,141,98)");
        ("Togo", 3%nat, [500; 100; 300], "rgb(102,194,165)");
        ("Benin", 3%nat, [3], "rgb(252,141,98)") ]%string.
Proof. eexists. repeat split; vm_compute; reflexivity. Qed.
